(** * Civic-issue predictive risk engine: a shallow embedding

    The development follows the Python service under [ml-service/]:

    - [services/data_processor.py]  (class [DataProcessor])
    - [services/ml_models.py]       (class [PredictiveModels])
    - [services/visualization.py]   (class [VisualizationService])
    - [main.py]                     (the training task and its two registries)
    - [train_models.py]             (the training script)
    - [services/weather_service.py] (the weather risk assessments)

    Conventions of the embedding.

    - Python floats are read as exact rationals ([Q]); comparisons against
      the decimal literals of the source are then comparisons of rationals.
      The concrete decimal examples are replayed on binary64 in
      [Module Binary64], the overall risk as a whole in
      [Module Binary64Synthesis].  Where rounding decides the answer the
      rounded operation is not read as exact: the mean of the weather
      readings is a parameter ([FloatMean]), and the slope of the issue
      counts is computed on [int64] values with a rounded final division
      ([TrueDivide]).
    - [numpy]'s and [sklearn]'s numeric routines are an interface
      ([NumericEnv], [Learners]); only the laws the proofs need are stated.
    - [np.random] is a stream of unit draws threaded through the code in
      evaluation order ([Rand]).
    - [try: ... except Exception:] is an explicit result type ([py]) with a
      handler ([try_except]). *)

From Stdlib Require Import QArith Qminmax Qabs Qround Lqa ZArith String List Bool Lia.
From Stdlib Require Import PrimFloat.
From stdpp Require Import gmap strings pretty.
Import ListNotations.

Local Open Scope string_scope.
Local Open Scope Q_scope.
#[global] Set Warnings "-inexact-float".

(* ================================================================== *)
(** * Python values, exceptions and dictionaries *)
(* ================================================================== *)

Module Py.

(** The values that flow through the context dictionaries. *)
Inductive value :=
| VNum (q : Q)
| VBool (b : bool)
| VStr (s : string)
| VNone.

(** Exceptions the embedded code can raise. *)
Inductive exn :=
| KeyError (key : string)
| ValueError (msg : string)
| TypeError (msg : string)
| AttributeError (attr : string)
| IndexError.

(** Outcome of a Python call: a returned value or a raised exception. *)
Inductive py (A : Type) :=
| Ret (a : A)
| Raise (e : exn).
Arguments Ret {A} a.
Arguments Raise {A} e.

Definition bind {A B} (m : py A) (k : A -> py B) : py B :=
  match m with
  | Ret a => k a
  | Raise e => Raise e
  end.

(** [try: body  except Exception as e: handler] *)
Definition try_except {A} (body : py A) (handler : exn -> A) : A :=
  match body with
  | Ret a => a
  | Raise e => handler e
  end.

(** [try: body  except Exception as e: return handler], where the
    handler's expression can itself raise. *)
Definition try_except_with {A} (body : py A) (handler : exn -> py A) : py A :=
  match body with
  | Ret a => Ret a
  | Raise e => handler e
  end.

(** Comparisons of floats, as booleans. *)
Definition Qgeb (x y : Q) : bool := Qle_bool y x.
Definition Qgtb (x y : Q) : bool := negb (Qle_bool x y).
Definition Qltb (x y : Q) : bool := negb (Qle_bool y x).

(** Python's [min(a, b)]: the first argument unless the second is smaller. *)
Definition pymin (a b : Q) : Q := if Qltb b a then b else a.
(** Python's [max(a, b)]: the first argument unless the second is larger. *)
Definition pymax (a b : Q) : Q := if Qgtb b a then b else a.

Fixpoint np_sum (l : list Q) : Q :=
  match l with
  | [] => 0
  | x :: l' => x + np_sum l'
  end.

(** [np.mean] of a non-empty list.  (On the empty list numpy answers
    [nan]; the calls below are guarded by a non-emptiness test, or are
    followed by a reduction that raises on the empty list.) *)
Definition np_mean (l : list Q) : Q := np_sum l / inject_Z (Z.of_nat (length l)).

(** Truthiness of a list and of an optional dictionary. *)
Definition truthy_list {A} (l : list A) : bool :=
  match l with [] => false | _ => true end.

Definition truthy_dict (d : option (gmap string value)) : bool :=
  match d with
  | None => false
  | Some m => negb (bool_decide (m = ∅))
  end.

(** [d.get(key, dflt)] *)
Definition dict_get (d : gmap string value) (key : string) (dflt : value) : value :=
  default dflt (d !! key).

(** The number a value denotes ([True] is 1, [False] is 0), if any. *)
Definition as_number (v : value) : option Q :=
  match v with
  | VNum q => Some q
  | VBool b => Some (if b then 1 else 0)
  | VStr _ | VNone => None
  end.

(** Conversion to a float array entry: strings and [None] do not
    convert. *)
Definition to_float (v : value) : py Q :=
  match as_number v with
  | Some q => Ret q
  | None => Raise (ValueError "could not convert to float")
  end.

(** [v > c] and [v < c] against a number; comparing a string or [None]
    with a number raises [TypeError]. *)
Definition gt (v : value) (c : Q) : py bool :=
  match as_number v with
  | Some q => Ret (Qgtb q c)
  | None => Raise (TypeError "'>' not supported")
  end.

Definition lt (v : value) (c : Q) : py bool :=
  match as_number v with
  | Some q => Ret (Qltb q c)
  | None => Raise (TypeError "'<' not supported")
  end.

(** Insertion-ordered dictionaries (the feature vector): assignment to
    an existing key keeps its position, a new key goes last. *)
Definition odict := list (string * value).

Fixpoint setitem (d : odict) (k : string) (v : value) : odict :=
  match d with
  | [] => [(k, v)]
  | (k', v') :: d' =>
      if String.eqb k' k then (k, v) :: d' else (k', v') :: setitem d' k v
  end.

(** [d.update(e)] *)
Definition dict_update (d e : odict) : odict :=
  fold_left (fun acc kv => setitem acc (fst kv) (snd kv)) e d.

Definition dict_keys (d : odict) : list string := map fst d.
Definition dict_values (d : odict) : list value := map snd d.

Fixpoint getitem (d : odict) (k : string) : option value :=
  match d with
  | [] => None
  | (k', v) :: d' => if String.eqb k' k then Some v else getitem d' k
  end.

(** [for x in xs: ...] over a fallible body. *)
Fixpoint mapM {A B} (f : A -> py B) (l : list A) : py (list B) :=
  match l with
  | [] => Ret []
  | x :: l' => bind (f x) (fun y => bind (mapM f l') (fun ys => Ret (y :: ys)))
  end.

End Py.

Import Py.

Declare Scope py_scope.
Delimit Scope py_scope with py.
Notation "x <- m ;; k" := (Py.bind m (fun x => k))
  (at level 100, m at next level, right associativity) : py_scope.

(* ================================================================== *)
(** * The numeric library and the random source *)
(* ================================================================== *)

(** The routines of [numpy] and of float formatting that the service calls.
    Their results are floats, so rationals; the square root is never
    negative. *)
Class NumericEnv := {
  np_sqrt : Q -> Q;
  (** [np.cos(np.radians(x))] *)
  np_cos_radians : Q -> Q;
  (** [f"{x:.1%}"] *)
  format_percent : Q -> string;
  (** [str(x)] of a float and of a timestamp *)
  format_float : Q -> string;
  format_date : Z -> string;
  np_sqrt_nonneg : forall x, 0 <= np_sqrt x
}.

Module Random.

(** The generator state: the values the successive calls of
    [random_sample()] will return. *)
Definition rng := nat -> Q.

(** A computation that draws from the generator. *)
Definition Rand (A : Type) := rng -> A * rng.

Definition ret {A} (a : A) : Rand A := fun s => (a, s).

Definition bind {A B} (m : Rand A) (k : A -> Rand B) : Rand B :=
  fun s => let (a, s') := m s in k a s'.

(** [np.random.random()] *)
Definition random : Rand Q := fun s => (s 0%nat, fun n => s (S n)).

(** [np.random.uniform(low, high)] is [low + (high - low) * random_sample()]. *)
Definition uniform (low high : Q) : Rand Q :=
  bind random (fun u => ret (low + (high - low) * u)).

(** [for x in xs: ...] over a drawing body, left to right. *)
Fixpoint mapR {A B} (f : A -> Rand B) (l : list A) : Rand (list B) :=
  match l with
  | [] => ret []
  | x :: l' => bind (f x) (fun y => bind (mapR f l') (fun ys => ret (y :: ys)))
  end.

(** Every draw of [random_sample()] lies in the half-open unit interval. *)
Definition unit_draws (s : rng) : Prop := forall n, 0 <= s n /\ s n < 1.

End Random.

Declare Scope rand_scope.
Delimit Scope rand_scope with rand.
Notation "x <- m ;; k" := (Random.bind m (fun x => k))
  (at level 100, m at next level, right associativity) : rand_scope.

(* ================================================================== *)
(** * Records exchanged between the components *)
(* ================================================================== *)

(** [{"lat": float, "lng": float}] *)
Record Location := mkLocation { lat : Q; lng : Q }.

(** [datetime.now()], as far as the code reads it. *)
Record DateTime := mkDateTime { weekday : Z; month : Z; hour : Z }.

Module Prediction.
Record t := mk {
  category : string;
  probability : Q;
  confidence : Q;
  risk_score : Q;
  reasoning : string;
  recommended_actions : list string;
  timeframe : string
}.
End Prediction.

Module RiskArea.
Record t := mk {
  location : Location;
  risk_level : string;
  risk_score : Q;
  predicted_issues : list string;
  population_density : Q
}.
End RiskArea.

(* ================================================================== *)
(** * Tables ([pandas.DataFrame]) *)
(* ================================================================== *)

Module Frame.

Inductive dtype := Number | Object | Datetime.

Inductive cell :=
| CNum (q : Q)
| CNaN
| CStr (s : string)
| CDate (d : Z).

(** A table: named, typed columns and rows aligned with them. *)
Record DataFrame := mkDataFrame {
  columns : list (string * dtype);
  rows : list (list cell)
}.

Definition column_names (df : DataFrame) : list string := map fst (columns df).

(** [name in df.columns] *)
Definition has_column (names : list string) (name : string) : bool :=
  existsb (String.eqb name) names.

Fixpoint index_of (name : string) (names : list string) : option nat :=
  match names with
  | [] => None
  | n :: names' =>
      if String.eqb n name then Some O
      else option_map S (index_of name names')
  end.

(** [row[name]] *)
Definition cell_at (names : list string) (row : list cell) (name : string) : py cell :=
  match index_of name names with
  | None => Raise (KeyError name)
  | Some i =>
      match nth_error row i with
      | Some c => Ret c
      | None => Raise IndexError
      end
  end.

(** Insertion into a list kept in ascending order; equal elements keep
    their arrival order when folded from the right. *)
Fixpoint insert_by {A} (leb : A -> A -> bool) (x : A) (l : list A) : list A :=
  match l with
  | [] => [x]
  | y :: l' => if leb x y then x :: l else y :: insert_by leb x l'
  end.

Definition sort_by {A} (leb : A -> A -> bool) (l : list A) : list A :=
  fold_right (insert_by leb) [] l.

Fixpoint dedup_adjacent (l : list string) : list string :=
  match l with
  | [] => []
  | x :: l' =>
      match l' with
      | y :: _ => if String.eqb x y then dedup_adjacent l' else x :: dedup_adjacent l'
      | [] => [x]
      end
  end.

(** The distinct values of a column in ascending order, as [get_dummies],
    [groupby] and [LabelEncoder.fit] enumerate them. *)
Definition sorted_unique (l : list string) : list string :=
  dedup_adjacent (sort_by String.leb l).

(** [df[name] = ...]: an existing column keeps its place, a new one is
    appended. *)
Definition assign (names : list string) (name : string) : list string :=
  if has_column names name then names else names ++ [name].

Definition assign_all (names new : list string) : list string :=
  fold_left assign new names.

(** [fillna(0)] *)
Definition fillna0 (c : cell) : cell :=
  match c with
  | CNaN => CNum 0
  | _ => c
  end.

(** The float a cell of a numeric column holds after [fillna(0)]. *)
Definition number_of (c : cell) : Q :=
  match c with
  | CNum q => q
  | _ => 0
  end.

Definition dtype_eqb (a b : dtype) : bool :=
  match a, b with
  | Number, Number | Object, Object | Datetime, Datetime => true
  | _, _ => false
  end.

(** [df.select_dtypes(include=[d]).columns] *)
Definition select_dtypes (d : dtype) (cols : list (string * dtype)) : list string :=
  map fst (List.filter (fun c => dtype_eqb (snd c) d) cols).

(** [df[name].values] *)
Definition column_values (df : DataFrame) (name : string) : py (list cell) :=
  match index_of name (column_names df) with
  | None => Raise (KeyError name)
  | Some i => Ret (map (fun row => nth i row CNaN) (rows df))
  end.

(** One row of [df[names]]. *)
Definition project (names : list string) (wanted : list string) (row : list cell)
  : list cell :=
  map (fun n => match index_of n names with
                | Some i => nth i row CNaN
                | None => CNaN
                end) wanted.

Fixpoint set_nth {A} (i : nat) (x : A) (l : list A) : list A :=
  match l, i with
  | [], _ => []
  | _ :: l', O => x :: l'
  | y :: l', S i' => y :: set_nth i' x l'
  end.

(** [df[name] = cells] for an existing column, with its new dtype. *)
Definition set_column (df : DataFrame) (name : string) (d : dtype) (cells : list cell)
  : DataFrame :=
  match index_of name (column_names df) with
  | None => df
  | Some i =>
      mkDataFrame
        (set_nth i (name, d) (columns df))
        (map (fun rc => set_nth i (snd rc) (fst rc)) (combine (rows df) cells))
  end.

(** Order and equality of group keys and of sort keys; values of
    different kinds are ordered by kind. *)
Definition cell_rank (c : cell) : nat :=
  match c with
  | CNum _ => 0
  | CStr _ => 1
  | CDate _ => 2
  | CNaN => 3
  end.

Definition cell_leb (a b : cell) : bool :=
  match a, b with
  | CNum x, CNum y => Qle_bool x y
  | CStr x, CStr y => String.leb x y
  | CDate x, CDate y => Z.leb x y
  | _, _ => Nat.leb (cell_rank a) (cell_rank b)
  end.

Definition cell_eqb (a b : cell) : bool :=
  match a, b with
  | CNum x, CNum y => Qeq_bool x y
  | CStr x, CStr y => String.eqb x y
  | CDate x, CDate y => Z.eqb x y
  | _, _ => false
  end.

Fixpoint dedup_cells (l : list cell) : list cell :=
  match l with
  | [] => []
  | x :: l' =>
      match l' with
      | y :: _ => if cell_eqb x y then dedup_cells l' else x :: dedup_cells l'
      | [] => [x]
      end
  end.

(** [df.groupby(name)]: one group per distinct key, keys ascending, rows
    in their original order; rows whose key is missing are dropped. *)
Definition groupby (i : nat) (rws : list (list cell)) : list (cell * list (list cell)) :=
  let key row := nth i row CNaN in
  let keys := dedup_cells (sort_by cell_leb (List.filter (fun k => cell_eqb k k) (map key rws))) in
  map (fun k => (k, List.filter (fun row => cell_eqb (key row) k) rws)) keys.

(** [group.sort_values(name)] (ties keep their order). *)
Definition sort_values (i : nat) (rws : list (list cell)) : list (list cell) :=
  sort_by (fun a b => cell_leb (nth i a CNaN) (nth i b CNaN)) rws.

End Frame.

Import Frame.

(* ================================================================== *)
(** * [services/data_processor.py] *)
(* ================================================================== *)

Module DataProcessor.

Definition categories : list string :=
  [ "Road & Pothole Issues"; "Streetlight Problems"; "Waste Management";
    "Water Supply"; "Sewage & Drainage"; "Public Safety";
    "Parks & Recreation"; "Traffic Management"; "Other" ].

(** [month in [a, b, c]] *)
Definition Z_in (x : Z) (l : list Z) : bool := existsb (Z.eqb x) l.

Definition _get_season (month : Z) : string :=
  if Z_in month [12; 1; 2]%Z then "Winter"
  else if Z_in month [3; 4; 5]%Z then "Spring"
  else if Z_in month [6; 7; 8]%Z then "Summer"
  else "Fall".

Definition _get_time_of_day (hour : Z) : string :=
  if ((5 <=? hour) && (hour <? 12))%Z then "Morning"
  else if ((12 <=? hour) && (hour <? 17))%Z then "Afternoon"
  else if ((17 <=? hour) && (hour <? 21))%Z then "Evening"
  else "Night".

(** The derived columns of [_engineer_features], row by row. *)

(** [df['day_of_week'].isin([5, 6]).astype(int)] *)
Definition is_weekend (day_of_week : Z) : Z :=
  if Z_in day_of_week [5; 6]%Z then 1 else 0.

(** [np.sqrt((df['latitude'] - 23.3441)**2 + (df['longitude'] - 85.3096)**2)] *)
Definition distance_from_center {env : NumericEnv} (latitude longitude : Q) : Q :=
  np_sqrt ((latitude - 23.3441) ^ 2 + (longitude - 85.3096) ^ 2).



(** [pd.get_dummies(df, columns=['category'], prefix='cat')]: the column
    is removed and one indicator column per distinct value is appended,
    values in ascending order. *)
Definition get_dummies_category (names : list string) (category_values : list string)
  : list string :=
  List.filter (fun c => negb (String.eqb c "category")) names
  ++ map (fun v => "cat_" ++ v) (sorted_unique category_values).

(** The columns of [_engineer_features(data)], from the columns of [data]
    and the values its [category] column holds (the path on which no
    statement of the [try] block raises; the handler returns [data]
    unchanged). *)
Definition _engineer_features_columns (names : list string) (category_values : list string)
  : list string :=
  let df := names in
  (* Date features *)
  let df :=
    if has_column df "date"
    then assign_all df ["date"; "year"; "month"; "day_of_year"; "day_of_week";
                        "is_weekend"; "season"]
    else df in
  (* Location features *)
  let df :=
    if has_column df "latitude" && has_column df "longitude"
    then assign_all df ["location_key"; "distance_from_center"]
    else df in
  (* Weather features *)
  let df :=
    if has_column df "precipitation"
    then assign_all df ["heavy_rain"; "rain_3day_avg"]
    else df in
  let df :=
    if has_column df "temperature" then assign df "extreme_temp" else df in
  (* Issue-specific features *)
  let df :=
    if has_column df "category" then get_dummies_category df category_values else df in
  (* Time-based features *)
  let df :=
    if has_column df "created_at"
    then assign_all df ["created_at"; "hour"; "time_of_day"]
    else df in
  (* Risk scoring *)
  assign df "risk_score".

(** The columns of the frame built in [_generate_sample_data]. *)
Definition sample_columns : list string :=
  [ "date"; "created_at"; "latitude"; "longitude"; "category"; "priority";
    "precipitation"; "temperature"; "humidity"; "population_density";
    "infrastructure_age"; "resolution_time" ].

End DataProcessor.

(* ================================================================== *)
(** * Fitted models ([sklearn], [keras]) *)
(* ================================================================== *)

Module Sk.

(** A fitted [StandardScaler]. *)
Record Scaler := mkScaler {
  n_features_in_ : nat;
  transform_fn : list Q -> list Q
}.

(** A fitted [RandomForestClassifier]. *)
Record Classifier := mkClassifier {
  clf_n_features_in_ : nat;
  predict_proba_fn : list Q -> list Q;
  classes_ : list string
}.

(** A fitted [GradientBoostingRegressor]. *)
Record Regressor := mkRegressor {
  reg_n_features_in_ : nat;
  predict_fn : list Q -> Q
}.

(** A fitted [keras.Sequential] network, by its input shape. *)
Record LSTM := mkLSTM { input_shape : nat * nat }.

(** A fitted [IsolationForest]. *)
Record IsolationForest := mkIsolationForest {
  contamination : Q;
  forest_n_features_in_ : nat
}.

(** A fitted [LabelEncoder]: its classes in ascending order. *)
Record LabelEncoder := mkLabelEncoder { le_classes_ : list string }.

(** The four kinds of entry of the model store. *)
Inductive Model :=
| IssueClassifier (c : Classifier)
| RiskRegressor (r : Regressor)
| TimeSeries (m : LSTM)
| AnomalyDetector (d : IsolationForest).

Definition n_features_error : exn :=
  ValueError "X has a different number of features than the estimator expects".

(** [scaler.transform(X)] on one row: the width is validated. *)
Definition transform (s : Scaler) (x : list Q) : py (list Q) :=
  if Nat.eqb (length x) (n_features_in_ s) then Ret (transform_fn s x)
  else Raise n_features_error.

(** [model.predict_proba(X)[0]] *)
Definition predict_proba (m : Model) (x : list Q) : py (list Q) :=
  match m with
  | IssueClassifier c =>
      if Nat.eqb (length x) (clf_n_features_in_ c) then Ret (predict_proba_fn c x)
      else Raise n_features_error
  | _ => Raise (AttributeError "predict_proba")
  end.

(** [model.classes_] *)
Definition classes (m : Model) : py (list string) :=
  match m with
  | IssueClassifier c => Ret (classes_ c)
  | _ => Raise (AttributeError "classes_")
  end.

(** [model.predict(X)[0]] *)
Definition predict (m : Model) (x : list Q) : py Q :=
  match m with
  | RiskRegressor r =>
      if Nat.eqb (length x) (reg_n_features_in_ r) then Ret (predict_fn r x)
      else Raise n_features_error
  | _ => Raise (TypeError "the prediction is not a risk score")
  end.

Fixpoint index_in (x : string) (l : list string) : option nat :=
  match l with
  | [] => None
  | y :: l' => if String.eqb y x then Some O else option_map S (index_in x l')
  end.

(** [LabelEncoder().fit(values)] *)
Definition label_fit (values : list string) : LabelEncoder :=
  mkLabelEncoder (sorted_unique values).


(** The training routines: split, scaling, fit and evaluation.  Each
    either returns the fitted objects with the reported metric or raises. *)
Class Learners := {
  (** [train_test_split] (stratified), [StandardScaler.fit_transform],
      [RandomForestClassifier.fit], [accuracy_score] *)
  fit_classifier : list (list cell) -> list cell -> py (Classifier * Scaler * Q);
  (** [train_test_split], [GradientBoostingRegressor.fit], RMSE *)
  fit_regressor : list (list cell) -> list cell -> py (Regressor * Q);
  (** chronological 80/20 split, [Sequential.fit], [evaluate] *)
  fit_lstm : list (list (list Q)) -> list Q -> py (LSTM * Q * Q);
  (** [IsolationForest(contamination=0.1).fit] *)
  fit_isolation_forest : list (list Q) -> py IsolationForest
}.

End Sk.

(* ================================================================== *)
(** * [services/ml_models.py]: class [PredictiveModels] *)
(* ================================================================== *)

Module PredictiveModels.

Import Sk.

(** The attributes of [self]. *)
Record self_t := mkSelf {
  models : gmap string Model;
  scalers : gmap string Scaler;
  label_encoders : gmap string LabelEncoder;
  feature_columns : list string;
  model_metrics : gmap string (list (string * Q))
}.

(** [PredictiveModels()] *)
Definition __init__ : self_t :=
  mkSelf ∅ ∅ ∅ [] ∅.

Definition set_models (self : self_t) (m : gmap string Model) : self_t :=
  mkSelf m (scalers self) (label_encoders self) (feature_columns self) (model_metrics self).
Definition set_scalers (self : self_t) (m : gmap string Scaler) : self_t :=
  mkSelf (models self) m (label_encoders self) (feature_columns self) (model_metrics self).
Definition set_label_encoders (self : self_t) (m : gmap string LabelEncoder) : self_t :=
  mkSelf (models self) (scalers self) m (feature_columns self) (model_metrics self).
Definition set_feature_columns (self : self_t) (l : list string) : self_t :=
  mkSelf (models self) (scalers self) (label_encoders self) l (model_metrics self).
Definition set_model_metrics (self : self_t) (m : gmap string (list (string * Q))) : self_t :=
  mkSelf (models self) (scalers self) (label_encoders self) (feature_columns self) m.

(** [name in self.models] *)
Definition has_model (self : self_t) (name : string) : bool :=
  bool_decide (is_Some (models self !! name)).

(** ** Small pure helpers *)

Definition _get_risk_level (risk_score : Q) : string :=
  if Qgeb risk_score 0.8 then "critical"
  else if Qgeb risk_score 0.6 then "high"
  else if Qgeb risk_score 0.4 then "medium"
  else "low".

Definition action_map : gmap string (list string) :=
  list_to_map
    [ ("Road & Pothole Issues", ["Inspect roads"; "Schedule repairs"; "Traffic management"]);
      ("Water Supply", ["Check water pressure"; "Monitor quality"; "Emergency backup"]);
      ("Waste Management", ["Schedule collection"; "Monitor bins"; "Public awareness"]);
      ("Streetlight Problems", ["Check electrical systems"; "Replace bulbs"; "Schedule maintenance"]);
      ("Sewage & Drainage", ["Inspect drains"; "Clear blockages"; "System maintenance"]);
      ("Public Safety", ["Increase patrols"; "Community engagement"; "Emergency planning"]);
      ("Parks & Recreation", ["Maintenance check"; "Safety inspection"; "Public notification"]);
      ("Traffic Management", ["Traffic monitoring"; "Signal optimization"; "Route planning"]) ].

Definition _get_recommended_actions (category : string) : list string :=
  default ["Monitor situation"; "Prepare response plan"] (action_map !! category).

Definition _get_risk_actions (risk_score : Q) : list string :=
  if Qgeb risk_score 0.8
  then ["Immediate action required"; "Deploy emergency resources"; "Public alert"]
  else if Qgeb risk_score 0.6
  then ["High priority monitoring"; "Prepare response team"; "Preventive measures"]
  else if Qgeb risk_score 0.4
  then ["Regular monitoring"; "Schedule inspections"; "Maintenance planning"]
  else ["Routine monitoring"; "Standard procedures"].

(** Season as a numeric value: 0 Winter, 1 Spring, 2 Summer, 3 Fall. *)
Definition _get_season (month : Z) : Z :=
  if DataProcessor.Z_in month [12; 1; 2]%Z then 0
  else if DataProcessor.Z_in month [3; 4; 5]%Z then 1
  else if DataProcessor.Z_in month [6; 7; 8]%Z then 2
  else 3.

(** ** The location inference adapter *)

Section Methods.
Context {env : NumericEnv} {learners : Learners}.

Definition _extract_location_features
    (now : DateTime) (location : Location)
    (weather_data historical_context : option (gmap string value)) : py odict :=
  (let features : odict :=
     [ ("latitude", VNum (lat location));
       ("longitude", VNum (lng location));
       ("distance_from_center",
          VNum (np_sqrt ((lat location - 23.3441) ^ 2 + (lng location - 85.3096) ^ 2)));
       ("is_weekend", VBool (DataProcessor.Z_in (weekday now) [5; 6]%Z));
       ("month", VNum (inject_Z (month now)));
       ("hour", VNum (inject_Z (hour now)));
       ("season", VNum (inject_Z (_get_season (month now)))) ] in
   (* Add weather features *)
   features <-
     (match weather_data with
      | Some w =>
          if truthy_dict weather_data then
            heavy <- gt (dict_get w "precipitation" (VNum 0)) 20 ;;
            hot <- gt (dict_get w "temperature" (VNum 25)) 35 ;;
            extreme <-
              (if hot : bool then Ret true
               else lt (dict_get w "temperature" (VNum 25)) 5) ;;
            Ret (dict_update features
                   [ ("precipitation", dict_get w "precipitation" (VNum 0));
                     ("temperature", dict_get w "temperature" (VNum 25));
                     ("humidity", dict_get w "humidity" (VNum 50));
                     ("heavy_rain", VNum (if heavy : bool then 1 else 0));
                     ("extreme_temp", VNum (if extreme : bool then 1 else 0)) ])
          else Ret features
      | None => Ret features
      end) ;;
   (* Add historical features *)
   match historical_context with
   | Some h =>
       if truthy_dict historical_context then
         Ret (dict_update features
                [ ("total_issues", dict_get h "total_issues" (VNum 0));
                  ("avg_resolution_time", dict_get h "avg_resolution_time" (VNum 3));
                  ("trend_increasing",
                     VNum (match h !! "recent_trend" with
                           | Some (VStr "increasing") => 1
                           | _ => 0
                           end)) ])
       else Ret features
   | None => Ret features
   end)%py.

(** ** The prediction fusion engine *)

(** [np.array([list(features.values())]).reshape(1, -1)], as the row of
    floats the estimators validate. *)
Definition feature_array (features : odict) : py (list Q) :=
  mapM to_float (dict_values features).

(** Insertion that keeps a list in descending order of probability; an
    element goes before the elements it ties with. *)
Fixpoint insert_desc (x : Prediction.t) (l : list Prediction.t) : list Prediction.t :=
  match l with
  | [] => [x]
  | y :: l' =>
      if Qgtb (Prediction.probability y) (Prediction.probability x)
      then y :: insert_desc x l'
      else x :: l
  end.

(** [sorted(predictions, key=lambda x: x['probability'], reverse=True)]
    (stable). *)
Definition sorted_by_probability_desc (l : list Prediction.t) : list Prediction.t :=
  fold_right insert_desc [] l.

(** The body of the loop [for i, prob in enumerate(probabilities)]. *)
Definition category_item (classes : list string) (i : nat) (prob : Q)
  : py (list Prediction.t) :=
  if Qgtb prob 0.1 then
    match nth_error classes i with
    | None => Raise IndexError
    | Some c =>
        Ret [ Prediction.mk c prob prob (prob * 0.8)
                ("Historical pattern suggests " ++ format_percent prob
                   ++ " chance of " ++ c)
                (_get_recommended_actions c)
                "7_days" ]
    end
  else Ret [].

Fixpoint category_items (classes : list string) (i : nat) (probabilities : list Q)
  : py (list Prediction.t) :=
  match probabilities with
  | [] => Ret []
  | prob :: rest =>
      (item <- category_item classes i prob ;;
       items <- category_items classes (S i) rest ;;
       Ret (item ++ items)%list)%py
  end.

Definition _predict_categories (self : self_t) (features : odict) : list Prediction.t :=
  match models self !! "issue_classifier" with
  | None => []
  | Some model =>
      try_except
        (feature_array <- feature_array features ;;
         feature_array <-
           (match scalers self !! "issue_classifier" with
            | Some scaler => Sk.transform scaler feature_array
            | None => Ret feature_array
            end) ;;
         probabilities <- Sk.predict_proba model feature_array ;;
         classes <- Sk.classes model ;;
         predictions <- category_items classes 0 probabilities ;;
         Ret (firstn 5 (sorted_by_probability_desc predictions)))%py
        (fun _ => [])
  end.

Definition _predict_risk_scores (self : self_t) (features : odict) : list Prediction.t :=
  match models self !! "risk_regressor" with
  | None => []
  | Some model =>
      try_except
        (feature_array <- feature_array features ;;
         risk_score <- Sk.predict model feature_array ;;
         let risk_score := pymax 0 (pymin 1 risk_score) in
         Ret [ Prediction.mk "Overall Risk" risk_score 0.7 risk_score
                 ("ML model predicts " ++ format_percent risk_score
                    ++ " overall risk based on location and context")
                 (_get_risk_actions risk_score)
                 "7_days" ])%py
        (fun _ => [])
  end.

Definition _predict_time_series (location : Location) (timeframe : string)
  : list Prediction.t :=
  [ Prediction.mk "Time Series Prediction" 0.3 0.6 0.3
      ("Time series analysis suggests moderate risk over " ++ timeframe)
      ["Monitor trends closely"; "Prepare contingency plans"]
      timeframe ].

Definition water_supply_fallback : Prediction.t :=
  Prediction.mk "Water Supply" 0.7 0.8 0.7
    "Heavy rainfall predicted, high risk of water-related issues"
    ["Check drainage systems"; "Monitor water levels"; "Prepare emergency response"]
    "7_days".

Definition road_fallback : Prediction.t :=
  Prediction.mk "Road & Pothole Issues" 0.4 0.6 0.4
    "General risk assessment based on location and historical data"
    ["Regular road inspections"; "Preventive maintenance"]
    "7_days".

Definition _generate_fallback_predictions
    (location : Location) (weather_data : option (gmap string value))
  : py (list Prediction.t) :=
  (predictions <-
     (match weather_data with
      | Some w =>
          if truthy_dict weather_data then
            heavy <- gt (dict_get w "precipitation" (VNum 0)) 20 ;;
            Ret (if heavy : bool then [water_supply_fallback] else [])
          else Ret []
      | None => Ret []
      end) ;;
   Ret (predictions ++ [road_fallback])%list)%py.

(** [predict_issues]: an exception raised in the [try] block is answered
    with the fallback predictions; one raised by the handler's own call
    of the fallback leaves the method. *)
Definition predict_issues
    (self : self_t) (now : DateTime) (location : Location)
    (weather_data historical_context : option (gmap string value))
    (timeframe : string) : py (list Prediction.t) :=
  try_except_with
    (* Get base features for the location *)
    (features <- _extract_location_features now location weather_data historical_context ;;
     let predictions : list Prediction.t := [] in
     (* Predict issue categories *)
     let predictions :=
       if has_model self "issue_classifier"
       then (predictions ++ _predict_categories self features)%list else predictions in
     (* Predict risk scores *)
     let predictions :=
       if has_model self "risk_regressor"
       then (predictions ++ _predict_risk_scores self features)%list else predictions in
     (* Time series predictions *)
     let predictions :=
       if has_model self "time_series" && truthy_dict historical_context
       then (predictions ++ _predict_time_series location timeframe)%list
       else predictions in
     (* If no models are trained, return fallback predictions *)
     if truthy_list predictions then Ret predictions
     else _generate_fallback_predictions location weather_data)%py
    (fun _ => _generate_fallback_predictions location weather_data).

(** ** The spatial risk scanner *)

Definition _generate_location_grid (center : Location) (radius_km : Q) : list Location :=
  (* Rough conversion: 1 degree = 111 km *)
  let lat_offset := radius_km / 111.0 in
  let lng_offset := radius_km / (111.0 * np_cos_radians (lat center)) in
  flat_map
    (fun i =>
       map (fun j =>
              mkLocation (lat center + inject_Z i * lat_offset / 2)
                         (lng center + inject_Z j * lng_offset / 2))
           [-2; -1; 0; 1; 2]%Z)
    [-2; -1; 0; 1; 2]%Z.

Definition _calculate_location_risk (location : Location) : Random.Rand Q :=
  (let distance :=
     np_sqrt ((lat location - 23.3441) ^ 2 + (lng location - 85.3096) ^ 2) in
   let base_risk := pymin 1 (distance * 0.5) in
   (* Add some randomness for demonstration *)
   noise <- Random.uniform 0 0.3 ;;
   Random.ret (pymin 1 (base_risk + noise)))%rand.

Definition _predict_issues_for_location (location : Location) : Random.Rand (list string) :=
  (let issues := [] in
   r1 <- Random.random ;;
   let issues := if Qgtb r1 0.5 then (issues ++ ["Road & Pothole Issues"])%list else issues in
   r2 <- Random.random ;;
   let issues := if Qgtb r2 0.6 then (issues ++ ["Water Supply"])%list else issues in
   r3 <- Random.random ;;
   let issues := if Qgtb r3 0.7 then (issues ++ ["Waste Management"])%list else issues in
   Random.ret issues)%rand.

(** The body of the loop of [identify_risk_areas] for one grid location:
    the areas it appends. *)
Definition risk_area_at (loc : Location) : Random.Rand (list RiskArea.t) :=
  (risk_score <- _calculate_location_risk loc ;;
   if Qgtb risk_score 0.6 then   (* High risk threshold *)
     predicted <- _predict_issues_for_location loc ;;
     density <- Random.uniform 100 5000 ;;
     Random.ret [ RiskArea.mk loc (_get_risk_level risk_score) risk_score
                    predicted density ]
   else Random.ret [])%rand.

Definition identify_risk_areas (center_location : Location) (radius_km : Q)
  : Random.Rand (list RiskArea.t) :=
  (let grid_locations := _generate_location_grid center_location radius_km in
   areas <- Random.mapR risk_area_at grid_locations ;;
   Random.ret (concat areas))%rand.

(** ** Overall risk synthesis *)

Definition calculate_overall_risk
    (predictions : list Prediction.t) (risk_areas : list RiskArea.t) : Q :=
  if negb (truthy_list predictions) && negb (truthy_list risk_areas) then 0
  else
    (* Calculate risk from predictions *)
    let prediction_risk :=
      if truthy_list predictions then
        let avg_probability := np_mean (map Prediction.probability predictions) in
        let avg_risk_score := np_mean (map Prediction.risk_score predictions) in
        (avg_probability + avg_risk_score) / 2
      else 0 in
    (* Calculate risk from risk areas *)
    let area_risk :=
      if truthy_list risk_areas
      then np_mean (map RiskArea.risk_score risk_areas)
      else 0 in
    (* Combine risks *)
    let overall_risk :=
      if Qgtb prediction_risk 0 && Qgtb area_risk 0
      then (prediction_risk + area_risk) / 2
      else pymax prediction_risk area_risk in
    pymin 1 overall_risk.

(** ** Training *)

Definition str_of_cell (c : cell) : string :=
  match c with
  | CStr s => s
  | CNum q => format_float q
  | CNaN => "nan"
  | CDate d => format_date d
  end.

Definition not_in (excluded : list string) (col : string) : bool :=
  negb (has_column excluded col).

(** The body of the loop over [categorical_cols]: the encoder is fitted
    once per column name, and the column of the caller's frame is
    replaced by its codes. *)
Definition encode_column (sd : self_t * DataFrame) (col : string) : self_t * DataFrame :=
  let (self, data) := sd in
  match label_encoders self !! col with
  | Some _ => (self, data)
  | None =>
      match column_values data col with
      | Raise _ => (self, data)
      | Ret cells =>
          let strs := map str_of_cell cells in
          let encoder := label_fit strs in
          let codes :=
            map (fun v => CNum (inject_Z (Z.of_nat
                   (default O (index_in v (le_classes_ encoder)))))) strs in
          (set_label_encoders self (<[col := encoder]> (label_encoders self)),
           set_column data col Number codes)
      end
  end.

(** The list comprehensions that select the feature columns. *)
Definition classification_feature_cols (names : list string) : list string :=
  List.filter (not_in ["category"; "date"; "created_at"; "location_key"; "risk_score"]) names.

Definition regression_feature_cols (names : list string) : list string :=
  List.filter (not_in ["risk_score"; "date"; "created_at"; "location_key"]) names.

(** [_prepare_classification_data]: returns the receiver and the frame as
    the call leaves them (both are mutated before [data['category']] is
    read), and the outcome. *)
Definition _prepare_classification_data (self : self_t) (data : DataFrame)
  : self_t * DataFrame * py (list (list cell) * list cell) :=
  (* Select feature columns (exclude target and metadata) *)
  let feature_cols := classification_feature_cols (column_names data) in
  (* Handle categorical variables *)
  let categorical_cols :=
    select_dtypes Object
      (List.filter (fun c => has_column feature_cols (fst c)) (columns data)) in
  let (self, data) := fold_left encode_column categorical_cols (self, data) in
  let X := map (fun row => map fillna0 (project (column_names data) feature_cols row))
               (rows data) in
  match column_values data "category" with
  | Raise e => (self, data, Raise e)
  | Ret y => (set_feature_columns self feature_cols, data, Ret (X, y))
  end.

Definition _prepare_regression_data (data : DataFrame)
  : py (list (list cell) * list cell) :=
  let feature_cols := regression_feature_cols (column_names data) in
  let X := map (fun row => map fillna0 (project (column_names data) feature_cols row))
               (rows data) in
  (y <- column_values data "risk_score" ;;
   Ret (X, y))%py.

Definition sequence_length : nat := 7.

(** The windows of one location group, already sorted by date:
    [for i in range(len(group) - sequence_length)]. *)
Definition group_windows (names : list string) (numeric_cols : list string)
    (group : list (list cell)) : py (list (list (list Q) * Q)) :=
  mapM
    (fun i =>
       let seq := firstn sequence_length (skipn i group) in
       (target <- cell_at names (nth (i + sequence_length) group []) "risk_score" ;;
        let seq_features := map (fun row => map number_of (project names numeric_cols row)) seq in
        Ret (seq_features, number_of target))%py)
    (List.seq 0 (length group - sequence_length)).

(** The body of the loop over the groups: a group shorter than
    [sequence_length + 1] contributes nothing. *)
Definition group_sequences (names : list string) (numeric_cols : list string)
    (date_index : nat) (group : list (list cell)) : py (list (list (list Q) * Q)) :=
  let group := sort_values date_index group in
  if (length group <? sequence_length + 1)%nat then Ret []
  else
    (windows <- group_windows names numeric_cols group ;;
     Ret (List.filter (fun w => Nat.eqb (length (fst w)) sequence_length) windows))%py.

Definition _prepare_time_series_data (data : DataFrame)
  : list (list (list Q)) * list Q :=
  try_except
    (let names := column_names data in
     (* Group by location and sort by date *)
     match index_of "location_key" names, index_of "date" names with
     | Some key_index, Some date_index =>
         let grouped := groupby key_index (rows data) in
         let numeric_cols := select_dtypes Number (columns data) in
         (per_group <-
            mapM (fun g => group_sequences names numeric_cols date_index (snd g)) grouped ;;
          let windows := concat per_group in
          Ret (map fst windows, map snd windows))%py
     | _, _ => Ret ([], [])
     end)
    (fun _ => ([], [])).

Definition train_issue_classifier (self : self_t) (data : DataFrame)
  : self_t * DataFrame * option Model :=
  let '(self, data, prepared) := _prepare_classification_data self data in
  match (xy <- prepared ;; fit_classifier (fst xy) (snd xy))%py with
  | Ret (model, scaler, accuracy) =>
      (* Store model and scaler *)
      let self := set_models self (<["issue_classifier" := IssueClassifier model]> (models self)) in
      let self := set_scalers self (<["issue_classifier" := scaler]> (scalers self)) in
      let self := set_model_metrics self
                    (<["issue_classifier" := [("accuracy", accuracy)]]> (model_metrics self)) in
      (self, data, Some (IssueClassifier model))
  | Raise _ => (self, data, None)
  end.

Definition train_risk_regressor (self : self_t) (data : DataFrame)
  : self_t * option Model :=
  match (xy <- _prepare_regression_data data ;; fit_regressor (fst xy) (snd xy))%py with
  | Ret (model, rmse) =>
      (* Store model *)
      let self := set_models self (<["risk_regressor" := RiskRegressor model]> (models self)) in
      let self := set_model_metrics self
                    (<["risk_regressor" := [("rmse", rmse)]]> (model_metrics self)) in
      (self, Some (RiskRegressor model))
  | Raise _ => (self, None)
  end.

Definition train_time_series_model (self : self_t) (data : DataFrame)
  : self_t * option Model :=
  (* Prepare time series data *)
  let (sequences, targets) := _prepare_time_series_data data in
  if Nat.eqb (length sequences) 0 then
    (* "No time series data available" *)
    (self, None)
  else
    match fit_lstm sequences targets with
    | Ret (model, test_loss, test_mae) =>
        (* Store model *)
        let self := set_models self (<["time_series" := TimeSeries model]> (models self)) in
        let self := set_model_metrics self
                      (<["time_series" := [("test_loss", test_loss); ("test_mae", test_mae)]]>
                         (model_metrics self)) in
        (self, Some (TimeSeries model))
    | Raise _ => (self, None)
    end.

Definition _prepare_anomaly_data (data : DataFrame) : list (list Q) :=
  (* Select numeric features *)
  let numeric_cols := select_dtypes Number (columns data) in
  map (fun row => map number_of (project (column_names data) numeric_cols row)) (rows data).

Definition train_anomaly_detector (self : self_t) (data : DataFrame)
  : self_t * option Model :=
  match fit_isolation_forest (_prepare_anomaly_data data) with
  | Ret model =>
      (* Store model *)
      let self := set_models self (<["anomaly_detector" := AnomalyDetector model]> (models self)) in
      (self, Some (AnomalyDetector model))
  | Raise _ => (self, None)
  end.

End Methods.

End PredictiveModels.

(* ================================================================== *)
(** * [services/visualization.py]: class [VisualizationService] *)
(* ================================================================== *)

Module VisualizationService.

Module HeatPoint.
Record t := mk {
  lat : Q;
  lng : Q;
  risk_score : Q;
  risk_level : string;
  color : string;
  intensity : Q
}.
End HeatPoint.

Record Bounds := mkBounds { north : Q; south : Q; east : Q; west : Q }.

Record Summary := mkSummary {
  total_points : nat;
  avg_risk : Q;
  max_risk : Q;
  min_risk : Q;
  high_risk_points : nat;
  critical_risk_points : nat
}.

Record Heatmap := mkHeatmap {
  heatmap_data : list HeatPoint.t;
  bounds : Bounds;
  summary : Summary;
  center : Location;
  radius_km : Q;
  resolution : Z
}.

(** [self.colors] *)
Definition colors : gmap string string :=
  list_to_map
    [ ("low", "#4CAF50"); ("medium", "#FF9800");
      ("high", "#F44336"); ("critical", "#9C27B0") ].

Definition _get_risk_level (risk_score : Q) : string :=
  if Qgeb risk_score 0.8 then "critical"
  else if Qgeb risk_score 0.6 then "high"
  else if Qgeb risk_score 0.4 then "medium"
  else "low".

(** [np.linspace(start, stop, num)]: a negative [num] raises; one sample
    is [start]; otherwise [num] evenly spaced samples whose last one is
    [stop]. *)
Definition np_linspace (start stop : Q) (num : Z) : py (list Q) :=
  if (num <? 0)%Z then Raise (ValueError "Number of samples must be non-negative")
  else
    let n := Z.to_nat num in
    let step := (stop - start) / inject_Z (num - 1) in
    Ret (map (fun i =>
                if (1 <? num)%Z && Nat.eqb i (n - 1) then stop
                else start + inject_Z (Z.of_nat i) * step)
             (List.seq 0 n)).

(** [np.max] and [np.min]: the empty array raises. *)
Definition np_max (l : list Q) : py Q :=
  match l with
  | [] => Raise (ValueError "zero-size array to reduction operation maximum")
  | x :: l' => Ret (fold_left (fun acc y => if Qgtb y acc then y else acc) l' x)
  end.

Definition np_min (l : list Q) : py Q :=
  match l with
  | [] => Raise (ValueError "zero-size array to reduction operation minimum")
  | x :: l' => Ret (fold_left (fun acc y => if Qltb y acc then y else acc) l' x)
  end.

Section Methods.
Context {env : NumericEnv}.

Definition _get_infrastructure_risk (lat lng : Q) : Random.Rand Q :=
  (* Simulate urban vs rural areas *)
  (let urban_factor :=
     if Qltb (Qabs (lat - 23.3441)) 0.1 && Qltb (Qabs (lng - 85.3096)) 0.1
     then 1.0 else 0.6 in
   (* Simulate infrastructure age (older = higher risk) *)
   age_factor <- Random.uniform 0.3 0.9 ;;
   Random.ret (urban_factor * age_factor))%rand.

Definition _calculate_grid_risk (lat lng center_lat center_lng : Q) : Random.Rand Q :=
  (* Distance-based risk (closer to center = higher risk) *)
  (let distance := np_sqrt ((lat - center_lat) ^ 2 + (lng - center_lng) ^ 2) in
   let distance_factor := pymax 0 (1 - distance * 10) in
   (* Random factors for demonstration *)
   random_factor <- Random.uniform 0.2 0.8 ;;
   (* Infrastructure factors (simulated) *)
   infrastructure_risk <- _get_infrastructure_risk lat lng ;;
   (* Combine factors *)
   let risk_score :=
     distance_factor * 0.3 + random_factor * 0.4 + infrastructure_risk * 0.3 in
   Random.ret (pymin 1 risk_score))%rand.

(** The body of the two nested loops for one grid cell. *)
Definition heat_point (center_lat center_lng : Q) (cell : Q * Q)
  : Random.Rand (py HeatPoint.t) :=
  (let (lat, lng) := cell in
   risk_score <- _calculate_grid_risk lat lng center_lat center_lng ;;
   let risk_level := _get_risk_level risk_score in
   Random.ret
     (match colors !! risk_level with
      | None => Raise (KeyError risk_level)
      | Some color =>
          Ret (HeatPoint.mk lat lng risk_score risk_level color (pymin 1 risk_score))
      end))%rand.

(** The first [Raise] of a list of outcomes, or all the values. *)
Definition sequence {A} (l : list (py A)) : py (list A) := mapM (fun x => x) l.

(** [generate_risk_heatmap]; the empty dictionary the handler returns is
    [None]. *)
Definition generate_risk_heatmap
    (center_lat center_lng radius_km : Q) (resolution : Z)
  : Random.Rand (option Heatmap) :=
  (* Calculate grid bounds *)
  let lat_offset := radius_km / 111.0 in
  let lng_offset := radius_km / (111.0 * np_cos_radians center_lat) in
  (* Generate grid *)
  match np_linspace (center_lat - lat_offset) (center_lat + lat_offset) resolution,
        np_linspace (center_lng - lng_offset) (center_lng + lng_offset) resolution with
  | Ret lat_points, Ret lng_points =>
      (let cells := flat_map (fun lat => map (fun lng => (lat, lng)) lng_points) lat_points in
       points <- Random.mapR (heat_point center_lat center_lng) cells ;;
       Random.ret
         (try_except
            (heatmap_data <- sequence points ;;
             (* Calculate bounds for the map *)
             let bounds := mkBounds (center_lat + lat_offset) (center_lat - lat_offset)
                                    (center_lng + lng_offset) (center_lng - lng_offset) in
             (* Generate summary statistics *)
             let risk_scores := map HeatPoint.risk_score heatmap_data in
             max_risk <- np_max risk_scores ;;
             min_risk <- np_min risk_scores ;;
             let summary :=
               mkSummary (length heatmap_data) (np_mean risk_scores) max_risk min_risk
                 (length (List.filter (fun s => Qgtb s 0.6) risk_scores))
                 (length (List.filter (fun s => Qgtb s 0.8) risk_scores)) in
             Ret (Some (mkHeatmap heatmap_data bounds summary
                          (mkLocation center_lat center_lng) radius_km resolution)))%py
            (fun _ => None)))%rand
  | _, _ => Random.ret None
  end.

End Methods.

End VisualizationService.

(* ================================================================== *)
(** * [main.py]: the training task and the registries it fills *)
(* ================================================================== *)

Module Main.

Import Sk.

(** The module-level state of [main.py]: the service object and the two
    global dictionaries. *)
Record state := mkState {
  ml_models : PredictiveModels.self_t;
  trained_models : gmap string (option Model);
  model_last_updated : gmap string Z
}.

(** The state at process start. *)
Definition initial : state := mkState PredictiveModels.__init__ ∅ ∅.

(** The two assignments after a call [model = train_func(data)]. *)
Definition record (st : state) (self : PredictiveModels.self_t)
    (model_name : string) (model : option Model) (now : Z) : state :=
  mkState self
    (<[model_name := model]> (trained_models st))
    (<[model_name := now]> (model_last_updated st)).

Section Task.
Context {env : NumericEnv} {learners : Learners}.

(** [train_models_task], on the loaded training table; [clock i] is the
    time read after the [i]-th model was trained.  The loop over
    [models_to_train] is unrolled in its fixed order. *)
Definition train_models_task (st : state) (data : DataFrame) (clock : nat -> Z) : state :=
  let '(self, data, model) := PredictiveModels.train_issue_classifier (ml_models st) data in
  let st := record st self "issue_classifier" model (clock 0%nat) in
  let (self, model) := PredictiveModels.train_risk_regressor (ml_models st) data in
  let st := record st self "risk_regressor" model (clock 1%nat) in
  let (self, model) := PredictiveModels.train_time_series_model (ml_models st) data in
  let st := record st self "time_series" model (clock 2%nat) in
  let (self, model) := PredictiveModels.train_anomaly_detector (ml_models st) data in
  record st self "anomaly_detector" model (clock 3%nat).

End Task.

(** One entry of [get_model_status]: ["trained"] when the name is a key
    of [trained_models]. *)
Definition model_status (st : state) (name : string) : string :=
  if bool_decide (is_Some (trained_models st !! name)) then "trained" else "not_trained".

(** The service answer of [/predict], as far as the risk engine builds it. *)
Section Predict.
Context {env : NumericEnv}.

(** The bounds box [get_risk_heatmap] reports for a center and a radius. *)
Definition heatmap_bounds (center_lat center_lng radius_km : Q)
  : VisualizationService.Bounds :=
  VisualizationService.mkBounds
    (center_lat + (radius_km / 111.0))   (* Rough conversion *)
    (center_lat - (radius_km / 111.0))
    (center_lng + (radius_km / (111.0 * np_cos_radians center_lat)))
    (center_lng - (radius_km / (111.0 * np_cos_radians center_lat))).

Definition predict
    (st : state) (now : DateTime) (location : Location)
    (weather_data historical_context : option (gmap string value))
    (timeframe : string)
  : Random.Rand (py (list Prediction.t * list RiskArea.t * Q)) :=
  match PredictiveModels.predict_issues (ml_models st) now location
          weather_data historical_context timeframe with
  | Raise e => Random.ret (Raise e)
  | Ret predictions =>
      (risk_areas <- PredictiveModels.identify_risk_areas location 10 ;;
       let overall_risk := PredictiveModels.calculate_overall_risk predictions risk_areas in
       Random.ret (Ret (predictions, risk_areas, overall_risk)))%rand
  end.

End Predict.

End Main.

(* ================================================================== *)
(** * The decimal examples on binary64 *)
(* ================================================================== *)

Module Binary64.

Local Open Scope float_scope.

(** [_get_risk_level] on IEEE doubles. *)
Definition _get_risk_level (risk_score : float) : string :=
  if 0.8 <=? risk_score then "critical"
  else if 0.6 <=? risk_score then "high"
  else if 0.4 <=? risk_score then "medium"
  else "low".

(** The "Combine risks" step of [calculate_overall_risk] on IEEE doubles. *)
Definition combine_risks (prediction_risk area_risk : float) : float :=
  let overall_risk :=
    if (0 <? prediction_risk) && (0 <? area_risk)
    then (prediction_risk + area_risk) / 2
    else if prediction_risk <? area_risk then area_risk else prediction_risk in
  if overall_risk <? 1 then overall_risk else 1.

End Binary64.

(* ================================================================== *)
(** * A concrete numeric library and concrete learners *)
(* ================================================================== *)

Module Concrete.

Import Sk.

(** A rational square root: the integer square root of the argument
    scaled by [10^12], six decimals. *)
Definition approx_sqrt (x : Q) : Q :=
  Qmake (Z.sqrt (Qnum x * 10 ^ 12 / Zpos (Qden x))) (10 ^ 6)%positive.

(** Bhaskara's rational approximation of the cosine of an angle in
    degrees. *)
Definition approx_cos_degrees (x : Q) : Q :=
  (32400 - 4 * x * x) / (32400 + x * x).

(** A trained-nothing classifier, regressor and scaler of a given width. *)
Definition constant_classifier (n : nat) (probabilities : list Q) (classes : list string)
  : Classifier :=
  mkClassifier n (fun _ => probabilities) classes.

Definition constant_regressor (n : nat) (risk : Q) : Regressor :=
  mkRegressor n (fun _ => risk).

Definition identity_scaler (n : nat) : Scaler := mkScaler n (fun x => x).

(** Learners that always succeed. *)
#[local] Instance learners : Learners := {|
  fit_classifier X _ :=
    Ret (constant_classifier (length (hd [] X)) [0.5; 0.5] ["Other"; "Water Supply"],
         identity_scaler (length (hd [] X)), 0.5);
  fit_regressor X _ := Ret (constant_regressor (length (hd [] X)) 0.5, 0.1);
  fit_lstm sequences _ :=
    Ret (mkLSTM (length (hd [] sequences), length (hd [] (hd [] sequences))), 0.1, 0.1);
  fit_isolation_forest X := Ret (mkIsolationForest 0.1 (length (hd [] X)))
|}.

(** [f"{x:.1%}"]: thousandths, rounded half up. *)
Definition percent_string (x : Q) : string :=
  let n := Qfloor (x * 1000 + (1 # 2)) in
  pretty (n / 10)%Z ++ "." ++ pretty (n mod 10)%Z ++ "%".

(** [str(x)]: six decimals, truncated. *)
Definition float_string (x : Q) : string :=
  let n := Qfloor (x * 1000000) in
  pretty (n / 1000000)%Z ++ "." ++ pretty (n mod 1000000)%Z.

Lemma approx_sqrt_nonneg (x : Q) : 0 <= approx_sqrt x.
Proof.
  unfold approx_sqrt, Qle. simpl. rewrite Z.mul_1_r. apply Z.sqrt_nonneg.
Qed.

(** The numeric library on rationals. *)
#[local] Instance rational_env : NumericEnv := {|
  np_sqrt := approx_sqrt;
  np_cos_radians := approx_cos_degrees;
  format_percent := percent_string;
  format_float := float_string;
  format_date := pretty;
  np_sqrt_nonneg := approx_sqrt_nonneg
|}.

(** The inputs of [test_models] in [train_models.py]. *)
Definition test_location : Location := mkLocation 23.3441 85.3096.

Definition test_weather : gmap string value :=
  list_to_map [ ("precipitation", VNum 25.0); ("temperature", VNum 30.0);
                ("humidity", VNum 70.0) ].

Definition test_context : gmap string value :=
  list_to_map [ ("total_issues", VNum 15); ("avg_resolution_time", VNum 4.5);
                ("recent_trend", VStr "increasing") ].

(** A Wednesday afternoon in July. *)
Definition test_now : DateTime := mkDateTime 2 7 15.

(** A generator whose every draw is one half. *)
Definition half_draws : Random.rng := fun _ => 1 # 2.

End Concrete.

(* ================================================================== *)
(** * Comparisons, [min] and [max] *)
(* ================================================================== *)

Section Comparisons.

Lemma Qgeb_spec (x y : Q) : reflect (y <= x) (Qgeb x y).
Proof.
  unfold Qgeb. destruct (Qle_bool y x) eqn:E; constructor.
  - now apply Qle_bool_iff.
  - intros H. apply Qle_bool_iff in H. congruence.
Qed.

Lemma Qgtb_spec (x y : Q) : reflect (y < x) (Qgtb x y).
Proof.
  unfold Qgtb. destruct (Qle_bool x y) eqn:E; constructor; simpl.
  - apply Qle_bool_iff in E. now apply Qle_not_lt.
  - apply Qnot_le_lt. intros H. apply Qle_bool_iff in H. congruence.
Qed.

Lemma Qltb_spec (x y : Q) : reflect (x < y) (Qltb x y).
Proof. exact (Qgtb_spec y x). Qed.

Lemma pymin_spec (a b : Q) :
  (b < a /\ pymin a b = b) \/ (a <= b /\ pymin a b = a).
Proof.
  unfold pymin. destruct (Qltb_spec b a) as [H | H]; [left | right]; split; auto.
  now apply Qnot_lt_le.
Qed.

Lemma pymax_spec (a b : Q) :
  (a < b /\ pymax a b = b) \/ (b <= a /\ pymax a b = a).
Proof.
  unfold pymax. destruct (Qgtb_spec b a) as [H | H]; [left | right]; split; auto.
  now apply Qnot_lt_le.
Qed.

Lemma pymin_le_l (a b : Q) : pymin a b <= a.
Proof. destruct (pymin_spec a b) as [[H ->] | [H ->]]; lra. Qed.

Lemma pymin_le_r (a b : Q) : pymin a b <= b.
Proof. destruct (pymin_spec a b) as [[H ->] | [H ->]]; lra. Qed.

Lemma pymin_glb (a b c : Q) : c <= a -> c <= b -> c <= pymin a b.
Proof. intros. destruct (pymin_spec a b) as [[H' ->] | [H' ->]]; lra. Qed.

Lemma pymax_ge_l (a b : Q) : a <= pymax a b.
Proof. destruct (pymax_spec a b) as [[H ->] | [H ->]]; lra. Qed.

Lemma pymax_ge_r (a b : Q) : b <= pymax a b.
Proof. destruct (pymax_spec a b) as [[H ->] | [H ->]]; lra. Qed.


(** Division by the literal 2 is multiplication by one half. *)
Lemma Qdiv2 (x : Q) : x / 2 == x * (1 # 2).
Proof. field. Qed.

End Comparisons.

(** Case analysis on every comparison of the goal, then linear arithmetic. *)
Ltac cases_on_comparisons :=
  repeat match goal with
         | |- context [Qgeb ?x ?y] => destruct (Qgeb_spec x y)
         | |- context [Qgtb ?x ?y] => destruct (Qgtb_spec x y)
         | |- context [Qltb ?x ?y] => destruct (Qltb_spec x y)
         end.

(* ================================================================== *)
(** * Risk levels *)
(* ================================================================== *)

Section RiskLevels.

Lemma risk_level_cases (s : Q) :
  (s < 0.4 /\ PredictiveModels._get_risk_level s = "low") \/
  (0.4 <= s /\ s < 0.6 /\ PredictiveModels._get_risk_level s = "medium") \/
  (0.6 <= s /\ s < 0.8 /\ PredictiveModels._get_risk_level s = "high") \/
  (0.8 <= s /\ PredictiveModels._get_risk_level s = "critical").
Proof.
  unfold PredictiveModels._get_risk_level.
  cases_on_comparisons.
  - right; right; right. split; [lra | reflexivity].
  - right; right; left. split; [lra | split; [lra | reflexivity]].
  - right; left. split; [lra | split; [lra | reflexivity]].
  - left. split; [lra | reflexivity].
Qed.

Lemma risk_level_paths_agree (s : Q) :
  VisualizationService._get_risk_level s = PredictiveModels._get_risk_level s.
Proof. reflexivity. Qed.

(** C4.  The derived risk level follows the fixed thresholds: below 0.4
    low, from 0.4 to below 0.6 medium, from 0.6 to below 0.8 high, and 0.8
    or more critical.  The risk-area path and the heatmap path compute
    the same level, 0.6 is high, 0.599 medium, 0.8 critical and 0.79999
    high, and the four decimal examples come out the same on IEEE
    doubles. *)
Theorem risk_level_thresholds :
  forall s : Q,
    (PredictiveModels._get_risk_level s = "low" <-> s < 0.4) /\
    (PredictiveModels._get_risk_level s = "medium" <-> 0.4 <= s /\ s < 0.6) /\
    (PredictiveModels._get_risk_level s = "high" <-> 0.6 <= s /\ s < 0.8) /\
    (PredictiveModels._get_risk_level s = "critical" <-> 0.8 <= s) /\
    VisualizationService._get_risk_level s = PredictiveModels._get_risk_level s /\
    PredictiveModels._get_risk_level 0.6 = "high" /\
    PredictiveModels._get_risk_level 0.599 = "medium" /\
    PredictiveModels._get_risk_level 0.8 = "critical" /\
    PredictiveModels._get_risk_level 0.79999 = "high" /\
    Binary64._get_risk_level 0.6 = "high" /\
    Binary64._get_risk_level 0.599 = "medium" /\
    Binary64._get_risk_level 0.8 = "critical" /\
    Binary64._get_risk_level 0.79999 = "high".
Proof.
  intros s.
  assert (Hc := risk_level_cases s).
  repeat split; try reflexivity; try (intros H);
    destruct Hc as [[H1 E] | [[H1 [H2 E]] | [[H1 [H2 E]] | [H1 E]]]];
    try rewrite E in *; try discriminate; try lra; try reflexivity;
    try (destruct H; lra).
Qed.

End RiskLevels.

(* ================================================================== *)
(** * Reasoning about code that draws random numbers *)
(* ================================================================== *)

Section RandLogic.

Import Random.

(** What is known of each draw of the generator. *)
Variable D : Q -> Prop.

Definition draws_in (s : rng) : Prop := forall n, D (s n).

(** From any generator whose draws satisfy [D], the computation returns a
    value satisfying [P] and leaves such a generator. *)
Definition rand_spec {A} (m : Rand A) (P : A -> Prop) : Prop :=
  forall s, draws_in s -> P (fst (m s)) /\ draws_in (snd (m s)).

Lemma rand_spec_ret {A} (a : A) (P : A -> Prop) : P a -> rand_spec (ret a) P.
Proof. intros H s Hs. split; assumption. Qed.

Lemma rand_spec_bind {A B} (m : Rand A) (k : A -> Rand B)
    (P : A -> Prop) (R : B -> Prop) :
  rand_spec m P -> (forall a, P a -> rand_spec (k a) R) -> rand_spec (bind m k) R.
Proof.
  intros Hm Hk s Hs. unfold bind.
  destruct (Hm s Hs) as [Ha Hs']. destruct (m s) as [a s']. simpl in *.
  exact (Hk a Ha s' Hs').
Qed.

Lemma rand_spec_weaken {A} (m : Rand A) (P R : A -> Prop) :
  rand_spec m P -> (forall a, P a -> R a) -> rand_spec m R.
Proof. intros Hm HPR s Hs. destruct (Hm s Hs). split; auto. Qed.

Lemma rand_spec_random : rand_spec random D.
Proof. intros s Hs. split; simpl; [apply Hs | intros n; apply Hs]. Qed.

Lemma rand_spec_uniform (low high : Q) :
  rand_spec (uniform low high)
            (fun x => exists u, D u /\ x = low + (high - low) * u).
Proof.
  unfold uniform. eapply rand_spec_bind; [apply rand_spec_random |].
  intros u Hu. apply rand_spec_ret. exists u. split; [assumption | reflexivity].
Qed.

Lemma rand_spec_mapR {A B} (f : A -> Rand B) (R : A -> B -> Prop) (l : list A) :
  (forall x, In x l -> rand_spec (f x) (R x)) ->
  rand_spec (mapR f l) (Forall2 R l).
Proof.
  induction l as [| x l IH]; intros Hf; simpl.
  - apply rand_spec_ret. constructor.
  - eapply rand_spec_bind; [apply Hf; now left |].
    intros y Hy. eapply rand_spec_bind; [apply IH; intros; apply Hf; now right |].
    intros ys Hys. apply rand_spec_ret. now constructor.
Qed.

End RandLogic.

Lemma Forall2_Forall_r {A B} (P : B -> Prop) (l : list A) (l' : list B) :
  Forall2 (fun _ y => P y) l l' -> Forall P l'.
Proof. induction 1; constructor; auto. Qed.

Lemma Forall_concat {A} (P : A -> Prop) (ls : list (list A)) :
  Forall (Forall P) ls -> Forall P (concat ls).
Proof.
  induction 1 as [| l ls Hl _ IH]; simpl; [constructor |].
  apply Forall_app. split; assumption.
Qed.

(* ================================================================== *)
(** * The spatial risk-area scan *)
(* ================================================================== *)

Section RiskAreas.
Context {env : NumericEnv}.

Import Random PredictiveModels.

(** What the scan guarantees of an area it returns. *)
Definition high_risk_area (a : RiskArea.t) : Prop :=
  0.6 < RiskArea.risk_score a /\
  RiskArea.risk_level a = _get_risk_level (RiskArea.risk_score a) /\
  (RiskArea.risk_level a = "high" \/ RiskArea.risk_level a = "critical").

Lemma risk_level_above_threshold (s : Q) :
  0.6 < s -> _get_risk_level s = "high" \/ _get_risk_level s = "critical".
Proof.
  intros H.
  destruct (risk_level_cases s) as [[H1 E] | [[H1 [H2 E]] | [[H1 [H2 E]] | [H1 E]]]];
    try lra; auto.
Qed.

(** The draw-dependent part of [_calculate_location_risk]. *)
Lemma _calculate_location_risk_spec (D : Q -> Prop) (loc : Location) :
  rand_spec D (_calculate_location_risk loc)
    (fun r => exists u, D u /\
       r = pymin 1 (pymin 1 (np_sqrt ((lat loc - 23.3441) ^ 2 + (lng loc - 85.3096) ^ 2) * 0.5)
                    + (0 + (0.3 - 0) * u))).
Proof.
  unfold _calculate_location_risk.
  eapply rand_spec_bind; [apply rand_spec_uniform |].
  intros x [u [Hu ->]]. apply rand_spec_ret. exists u. split; [assumption | reflexivity].
Qed.

Lemma _predict_issues_for_location_spec (D : Q -> Prop) (loc : Location) :
  rand_spec D (_predict_issues_for_location loc) (fun _ => True).
Proof.
  unfold _predict_issues_for_location.
  repeat (eapply rand_spec_bind; [apply rand_spec_random | intros ? _]).
  now apply rand_spec_ret.
Qed.

(** One grid location yields at most one area; (i) it is above the 0.6
    threshold and labelled by [_get_risk_level], and (ii) it satisfies
    whatever holds of every value of [_calculate_location_risk]. *)
Lemma risk_area_at_spec (D : Q -> Prop) (P : Q -> Prop) (loc : Location) :
  rand_spec D (_calculate_location_risk loc) P ->
  rand_spec D (risk_area_at loc)
    (Forall (fun a => high_risk_area a /\ P (RiskArea.risk_score a))).
Proof.
  intros HP. unfold risk_area_at.
  eapply rand_spec_bind; [exact HP |].
  intros r Hr. destruct (Qgtb_spec r 0.6) as [Hgt | Hle].
  - eapply rand_spec_bind; [apply _predict_issues_for_location_spec | intros issues _].
    eapply rand_spec_bind; [apply rand_spec_uniform | intros density _].
    apply rand_spec_ret. constructor; [| constructor].
    split; [| exact Hr]. unfold high_risk_area; simpl.
    split; [exact Hgt | split; [reflexivity | now apply risk_level_above_threshold]].
  - apply rand_spec_ret. constructor.
Qed.

Lemma identify_risk_areas_spec (D : Q -> Prop) (P : Q -> Prop)
    (center : Location) (radius_km : Q) :
  (forall loc, rand_spec D (_calculate_location_risk loc) P) ->
  rand_spec D (identify_risk_areas center radius_km)
    (Forall (fun a => high_risk_area a /\ P (RiskArea.risk_score a))).
Proof.
  intros HP. unfold identify_risk_areas.
  eapply rand_spec_bind.
  - apply rand_spec_mapR with
      (R := fun _ areas => Forall (fun a => high_risk_area a /\ P (RiskArea.risk_score a)) areas).
    intros loc _. apply risk_area_at_spec, HP.
  - intros areas Hareas. apply rand_spec_ret.
    apply Forall_concat. eapply Forall2_Forall_r. exact Hareas.
Qed.

(** C10.  Every area returned by the risk-area scan has a risk score
    strictly above 0.6, and its risk level, derived from that score, is
    "high" or "critical" (never "low" or "medium"), whatever the center,
    the radius and the random draws. *)
Theorem risk_areas_are_high_or_critical :
  forall (center : Location) (radius_km : Q) (s : Random.rng),
    Forall
      (fun a =>
         0.6 < RiskArea.risk_score a /\
         RiskArea.risk_level a = _get_risk_level (RiskArea.risk_score a) /\
         (RiskArea.risk_level a = "high" \/ RiskArea.risk_level a = "critical") /\
         RiskArea.risk_level a <> "low" /\ RiskArea.risk_level a <> "medium")
      (fst (identify_risk_areas center radius_km s)).
Proof.
  intros center radius_km s.
  destruct (identify_risk_areas_spec (fun _ => True) (fun _ => True) center radius_km) with (s := s)
    as [H _].
  - intros loc s' _. split; [exact I | intros n; exact I].
  - intros n; exact I.
  - eapply List.Forall_impl; [| exact H].
    intros a [[Hgt [Hlvl Hcases]] _].
    repeat split; auto; destruct Hcases as [E | E]; rewrite E; discriminate.
Qed.

End RiskAreas.

(* ================================================================== *)
(** * The overall risk on binary64 *)
(* ================================================================== *)

Module Binary64Synthesis.

Local Open Scope float_scope.

(** [len(l)] as a double. *)
Fixpoint float_of_nat (n : nat) : float :=
  match n with
  | O => 0
  | S n' => float_of_nat n' + 1
  end.

(** [np.mean] of a list of fewer than eight doubles: the sum taken from
    left to right, divided by the count.  (Longer arrays are summed in
    blocks.) *)
Definition np_mean (l : list float) : float :=
  fold_left PrimFloat.add l 0 / float_of_nat (length l).

(** [calculate_overall_risk] on IEEE doubles.  A prediction item is
    given by its pair (probability, risk_score), a risk area by its
    risk_score. *)
Definition calculate_overall_risk
  (predictions : list (float * float)) (risk_areas : list float) : float :=
  if negb (truthy_list predictions) && negb (truthy_list risk_areas) then 0
  else
    (* Calculate risk from predictions *)
    let prediction_risk :=
      if truthy_list predictions then
        let avg_probability := np_mean (map fst predictions) in
        let avg_risk_score := np_mean (map snd predictions) in
        (avg_probability + avg_risk_score) / 2
      else 0 in
    (* Calculate risk from risk areas *)
    let area_risk :=
      if truthy_list risk_areas then np_mean risk_areas else 0 in
    Binary64.combine_risks prediction_risk area_risk.

(** One item of probability and risk score 0.5, and two items,
    (0.3, 0.6) and (0.4, 0.7), whose mean of means is 0.5 as well; one
    area of risk score 0.3. *)
Definition plain_items : list (float * float) := [(0.5, 0.5)].

Definition rounded_items : list (float * float) := [(0.3, 0.6); (0.4, 0.7)].

Definition areas : list float := [0.3].

End Binary64Synthesis.

(* ================================================================== *)
(** * Overall risk synthesis *)
(* ================================================================== *)

Section OverallRisk.

Import PredictiveModels.

(** ** The synthesis rule in the words of the specification *)

(** The mean of a list of numbers; of no numbers, zero. *)
Definition spec_mean (l : list Q) : Q :=
  match l with
  | [] => 0
  | _ => np_sum l / inject_Z (Z.of_nat (length l))
  end.

(** P: the mean over the prediction items of the mean of probability and
    risk score. *)
Definition spec_P (predictions : list Prediction.t) : Q :=
  spec_mean (map (fun p => (Prediction.probability p + Prediction.risk_score p) / 2)
                 predictions).

(** A: the mean over the risk areas of the risk score. *)
Definition spec_A (risk_areas : list RiskArea.t) : Q :=
  spec_mean (map RiskArea.risk_score risk_areas).

Definition spec_clamp01 (x : Q) : Q :=
  if Qlt_le_dec x 0 then 0 else if Qlt_le_dec 1 x then 1 else x.

(** (P+A)/2 when both are positive, the positive one when exactly one
    is, 0 when neither is; clamped to [0,1]. *)
Definition spec_overall (P A : Q) : Q :=
  spec_clamp01
    (if Qlt_le_dec 0 P then
       if Qlt_le_dec 0 A then (P + A) / 2 else P
     else
       if Qlt_le_dec 0 A then A else 0).



(** ** Sums and means *)

Lemma inject_length_cons {A} (x : A) (l : list A) :
  inject_Z (Z.of_nat (length (x :: l))) == 1 + inject_Z (Z.of_nat (length l)).
Proof.
  simpl length. rewrite Nat2Z.inj_succ, <- Z.add_1_l, inject_Z_plus. reflexivity.
Qed.

Lemma inject_length_nonneg {A} (l : list A) : 0 <= inject_Z (Z.of_nat (length l)).
Proof.
  change 0 with (inject_Z 0). rewrite <- Zle_Qle. apply Nat2Z.is_nonneg.
Qed.

Lemma inject_length_pos {A} (x : A) (l : list A) :
  0 < inject_Z (Z.of_nat (length (x :: l))).
Proof.
  rewrite inject_length_cons. pose proof (inject_length_nonneg l). lra.
Qed.



Lemma np_sum_half_sum {A} (f g : A -> Q) (l : list A) :
  np_sum (map (fun x => (f x + g x) / 2) l)
  == (np_sum (map f l) + np_sum (map g l)) / 2.
Proof.
  induction l as [| x l IH]; simpl.
  - reflexivity.
  - rewrite IH. field.
Qed.

Lemma mean_of_means {A} (f g : A -> Q) (l : list A) :
  (np_mean (map f l) + np_mean (map g l)) / 2
  == np_mean (map (fun x => (f x + g x) / 2) l).
Proof.
  destruct l as [| x l].
  - reflexivity.
  - unfold np_mean. rewrite np_sum_half_sum. rewrite !length_map.
    pose proof (inject_length_pos x l) as Hn.
    field. intros E. rewrite E in Hn. lra.
Qed.

Lemma spec_mean_nonempty (l : list Q) : l <> [] -> spec_mean l = np_mean l.
Proof. destruct l; [congruence | reflexivity]. Qed.

(** ** The combination step *)









(** ** Inputs that are only known not to be negative *)

(** All that the synthesis needs of its inputs: no probability and no
    risk score is negative.  Nothing bounds them above, so the cap
    [min(1.0, .)] of the code has work to do. *)
Definition nonneg_prediction (p : Prediction.t) : Prop :=
  0 <= Prediction.probability p /\ 0 <= Prediction.risk_score p.

Definition nonneg_area (a : RiskArea.t) : Prop :=
  0 <= RiskArea.risk_score a.

Lemma np_sum_nonneg (l : list Q) : Forall (fun x => 0 <= x) l -> 0 <= np_sum l.
Proof. induction 1 as [| x l Hx _ IH]; simpl; lra. Qed.

Lemma np_mean_nonneg (l : list Q) : Forall (fun x => 0 <= x) l -> 0 <= np_mean l.
Proof.
  intros H. destruct l as [| x l]; [vm_compute; discriminate |].
  unfold np_mean. apply Qle_shift_div_l; [apply inject_length_pos |].
  pose proof (np_sum_nonneg _ H). lra.
Qed.

Lemma combine_nonneg_matches_spec (P A P' A' : Q) :
  P == P' -> A == A' -> 0 <= P -> 0 <= A ->
  pymin 1 (if Qgtb P 0 && Qgtb A 0 then (P + A) / 2 else pymax P A)
  == spec_overall P' A'.
Proof.
  intros EP EA HP0 HA0.
  unfold spec_overall, spec_clamp01.
  destruct (Qgtb_spec P 0) as [HP | HP]; destruct (Qgtb_spec A 0) as [HA | HA]; simpl;
    destruct (Qlt_le_dec 0 P'); destruct (Qlt_le_dec 0 A'); try lra.
  all: try rewrite !Qdiv2.
  all: match goal with
       | |- pymin 1 ?x == _ =>
           destruct (pymin_spec 1 x) as [[Hm ->] | [Hm ->]]
       end.
  all: try match goal with
       | H : context [pymax ?a ?b] |- _ =>
           destruct (pymax_spec a b) as [[Hx Ex] | [Hx Ex]]; rewrite Ex in *
       | |- context [pymax ?a ?b] =>
           destruct (pymax_spec a b) as [[Hx Ex] | [Hx Ex]]; rewrite Ex in *
       end.
  all: repeat match goal with
       | |- context [Qlt_le_dec ?a ?b] => destruct (Qlt_le_dec a b)
       end.
  all: try rewrite !Qdiv2 in *; try lra.
Qed.

Lemma prediction_risk_nonneg (predictions : list Prediction.t) :
  predictions <> [] -> Forall nonneg_prediction predictions ->
  let P := (np_mean (map Prediction.probability predictions)
            + np_mean (map Prediction.risk_score predictions)) / 2 in
  P == spec_P predictions /\ 0 <= P.
Proof.
  intros Hne Hall P.
  assert (Hp : Forall (fun x => 0 <= x) (map Prediction.probability predictions)).
  { apply List.Forall_map. eapply List.Forall_impl; [| exact Hall]. intros p [H _]. exact H. }
  assert (Hr : Forall (fun x => 0 <= x) (map Prediction.risk_score predictions)).
  { apply List.Forall_map. eapply List.Forall_impl; [| exact Hall]. intros p [_ H]. exact H. }
  assert (Hne' : forall f : Prediction.t -> Q, map f predictions <> []).
  { intros f E. apply map_eq_nil in E. contradiction. }
  pose proof (np_mean_nonneg _ Hp) as Hp0. pose proof (np_mean_nonneg _ Hr) as Hr0.
  split; [| subst P; rewrite Qdiv2; lra].
  subst P. unfold spec_P. rewrite spec_mean_nonempty by apply Hne'.
  apply mean_of_means.
Qed.

Lemma area_risk_nonneg (risk_areas : list RiskArea.t) :
  risk_areas <> [] -> Forall nonneg_area risk_areas ->
  let A := np_mean (map RiskArea.risk_score risk_areas) in
  A == spec_A risk_areas /\ 0 <= A.
Proof.
  intros Hne Hall A.
  assert (Ha : Forall (fun x => 0 <= x) (map RiskArea.risk_score risk_areas)).
  { apply List.Forall_map. exact Hall. }
  assert (Hne' : map RiskArea.risk_score risk_areas <> []).
  { intros E. apply map_eq_nil in E. contradiction. }
  split; [| apply np_mean_nonneg; exact Ha].
  subst A. unfold spec_A. rewrite spec_mean_nonempty by exact Hne'. reflexivity.
Qed.

Lemma overall_risk_of_nonneg (predictions : list Prediction.t) (risk_areas : list RiskArea.t) :
  Forall nonneg_prediction predictions -> Forall nonneg_area risk_areas ->
  calculate_overall_risk predictions risk_areas
  == spec_overall (spec_P predictions) (spec_A risk_areas).
Proof.
  intros Hp Ha. unfold calculate_overall_risk.
  destruct predictions as [| p ps]; destruct risk_areas as [| a rs];
    cbn [truthy_list negb andb].
  - reflexivity.
  - destruct (area_risk_nonneg (a :: rs)) as [EA HA0]; [discriminate | exact Ha |].
    apply combine_nonneg_matches_spec; try assumption; try reflexivity; lra.
  - destruct (prediction_risk_nonneg (p :: ps)) as [EP HP0]; [discriminate | exact Hp |].
    apply combine_nonneg_matches_spec; try assumption; try reflexivity; lra.
  - destruct (prediction_risk_nonneg (p :: ps)) as [EP HP0]; [discriminate | exact Hp |].
    destruct (area_risk_nonneg (a :: rs)) as [EA HA0]; [discriminate | exact Ha |].
    apply combine_nonneg_matches_spec; assumption.
Qed.

Lemma spec_P_nonneg (predictions : list Prediction.t) :
  Forall nonneg_prediction predictions -> 0 <= spec_P predictions.
Proof.
  intros Hp. destruct predictions as [| p ps].
  - unfold spec_P, spec_mean; simpl. lra.
  - destruct (prediction_risk_nonneg (p :: ps)) as [EP HP0]; [discriminate | exact Hp |].
    rewrite <- EP. exact HP0.
Qed.

Lemma spec_A_nonneg (risk_areas : list RiskArea.t) :
  Forall nonneg_area risk_areas -> 0 <= spec_A risk_areas.
Proof.
  intros Ha. destruct risk_areas as [| a rs].
  - unfold spec_A, spec_mean; simpl. lra.
  - destruct (area_risk_nonneg (a :: rs)) as [EA HA0]; [discriminate | exact Ha |].
    rewrite <- EA. exact HA0.
Qed.

Lemma Qmin_1_cases (x : Q) :
  (x <= 1 /\ Qmin 1 x == x) \/ (1 < x /\ Qmin 1 x == 1).
Proof.
  destruct (Qlt_le_dec 1 x) as [H | H].
  - right. split; [exact H |]. apply Q.min_l. lra.
  - left. split; [exact H |]. apply Q.min_r. exact H.
Qed.

(** On non-negative averages the synthesis is the capped combination. *)
Lemma spec_overall_capped (P A : Q) :
  0 <= P -> 0 <= A ->
  (0 <= spec_overall P A /\ spec_overall P A <= 1) /\
  ((0 < P /\ 0 < A /\ spec_overall P A == Qmin 1 ((P + A) / 2)) \/
   (0 < P /\ A == 0 /\ spec_overall P A == Qmin 1 P) \/
   (P == 0 /\ 0 < A /\ spec_overall P A == Qmin 1 A) \/
   (P == 0 /\ A == 0 /\ spec_overall P A == 0)).
Proof.
  intros HP0 HA0. unfold spec_overall, spec_clamp01.
  destruct (Qmin_1_cases ((P + A) / 2)) as [[H1 E1] | [H1 E1]];
    destruct (Qmin_1_cases P) as [[H2 E2] | [H2 E2]];
    destruct (Qmin_1_cases A) as [[H3 E3] | [H3 E3]];
    rewrite E1, E2, E3;
    destruct (Qlt_le_dec 0 P); destruct (Qlt_le_dec 0 A);
    repeat match goal with
           | |- context [Qlt_le_dec ?a ?b] => destruct (Qlt_le_dec a b)
           end;
    try rewrite !Qdiv2 in *; lra.
Qed.

(** The code has no lower clamp: the lower bound of the result comes from
    the inputs.  Two negative scores give a negative overall risk. *)
Lemma overall_risk_has_no_lower_clamp :
  calculate_overall_risk
    [ Prediction.mk "Overall Risk" (-1) 0.7 (-1) "" [] "7_days" ]
    [ RiskArea.mk (mkLocation 23.3441 85.3096) "low" (-0.5) [] 100 ]
  == -0.5.
Proof. vm_compute. reflexivity. Qed.

(** C2.  For prediction items and risk areas none of whose probabilities
    and risk scores is negative, the overall risk is, in exact
    arithmetic, the specified synthesis of P (the mean over the items of
    the mean of probability and risk score) and A (the mean risk score of
    the areas): (P+A)/2 when both are positive, the positive one when
    exactly one is, 0 when neither is, capped at 1; the result lies in
    [0,1].  When P and A are at most 1 the cap does not act.  P = 0.5
    with A = 0.3 gives 0.4 (also on IEEE doubles when the two averages
    are the doubles 0.5 and 0.3, as for one item of probability and risk
    score 0.5 and one area of risk score 0.3), and without risk areas
    the result is the capped P. *)
Theorem overall_risk_synthesis :
  forall (predictions : list Prediction.t) (risk_areas : list RiskArea.t),
    Forall nonneg_prediction predictions ->
    Forall nonneg_area risk_areas ->
    let P := spec_P predictions in
    let A := spec_A risk_areas in
    let overall := calculate_overall_risk predictions risk_areas in
    overall == spec_overall P A /\
    ((0 < P /\ 0 < A /\ overall == Qmin 1 ((P + A) / 2)) \/
     (0 < P /\ A == 0 /\ overall == Qmin 1 P) \/
     (P == 0 /\ 0 < A /\ overall == Qmin 1 A) \/
     (P == 0 /\ A == 0 /\ overall == 0)) /\
    (0 <= overall /\ overall <= 1) /\
    (P <= 1 -> A <= 1 ->
     (0 < P /\ 0 < A /\ overall == (P + A) / 2) \/
     (0 < P /\ A == 0 /\ overall == P) \/
     (P == 0 /\ 0 < A /\ overall == A) \/
     (P == 0 /\ A == 0 /\ overall == 0)) /\
    (P == 0.5 -> A == 0.3 -> overall == 0.4) /\
    (risk_areas = [] -> overall == Qmin 1 P) /\
    PrimFloat.eqb (Binary64.combine_risks 0.5 0.3) 0.4 = true /\
    PrimFloat.eqb
      (Binary64Synthesis.calculate_overall_risk
         Binary64Synthesis.plain_items Binary64Synthesis.areas) 0.4 = true.
Proof.
  intros predictions risk_areas Hp Ha P A overall.
  assert (E : overall == spec_overall P A) by (apply overall_risk_of_nonneg; assumption).
  pose proof (spec_P_nonneg _ Hp) as HP0. pose proof (spec_A_nonneg _ Ha) as HA0.
  fold P in HP0. fold A in HA0.
  destruct (spec_overall_capped P A HP0 HA0) as [Hb Hcases].
  split; [exact E |].
  split; [rewrite E; exact Hcases |].
  split; [rewrite E; exact Hb |].
  split; [| split; [| split; [| split; vm_compute; reflexivity]]].
  - intros HP1 HA1. rewrite E.
    destruct (Qmin_1_cases ((P + A) / 2)) as [[H1 E1] | [H1 E1]];
      destruct (Qmin_1_cases P) as [[H2 E2] | [H2 E2]];
      destruct (Qmin_1_cases A) as [[H3 E3] | [H3 E3]];
      rewrite E1, E2, E3 in Hcases;
      try rewrite Qdiv2 in H1; try lra; exact Hcases.
  - intros E5 E3. rewrite E.
    destruct (Qmin_1_cases ((P + A) / 2)) as [[H1 E1] | [H1 E1]];
      rewrite Qdiv2 in H1; [| lra].
    destruct Hcases as [[H1' [H2 H3]] | [[H1' [H2 H3]] | [[H1' [H2 H3]] | [H1' [H2 H3]]]]];
      try lra.
    rewrite H3, E1, Qdiv2. lra.
  - intros ->. rewrite E.
    assert (EA : A == 0) by reflexivity.
    destruct Hcases as [[H1 [H2 H3]] | [[H1 [H2 H3]] | [[H1 [H2 H3]] | [H1 [H2 H3]]]]];
      try lra; try exact H3.
    rewrite H3. symmetry. rewrite H1. apply Q.min_r. lra.
Qed.

End OverallRisk.

(** One prediction of probability and risk 1.5 and one risk area of risk
    0.9 average to 1.2, which the cap turns into 1; one prediction of
    probability and risk 0.5 and one risk area of risk 0.3 give 0.4. *)
Lemma overall_risk_synthesis_witness :
  let predictions :=
    [ Prediction.mk "Overall Risk" 1.5 0.7 1.5 "" [] "7_days" ] in
  let risk_areas :=
    [ RiskArea.mk Concrete.test_location "low" 0.9 [] 100 ] in
  let predictions' :=
    [ Prediction.mk "Overall Risk" 0.5 0.7 0.5 "" [] "7_days" ] in
  let risk_areas' :=
    [ RiskArea.mk Concrete.test_location "low" 0.3 [] 100 ] in
  Forall nonneg_prediction predictions /\
  Forall nonneg_area risk_areas /\
  PredictiveModels.calculate_overall_risk predictions risk_areas == 1 /\
  Forall nonneg_prediction predictions' /\
  Forall nonneg_area risk_areas' /\
  PredictiveModels.calculate_overall_risk predictions' risk_areas' == 0.4.
Proof.
  intros predictions risk_areas predictions' risk_areas'.
  assert (Hp : Forall nonneg_prediction predictions).
  { repeat constructor; discriminate. }
  assert (Ha : Forall nonneg_area risk_areas).
  { repeat constructor; discriminate. }
  assert (Hp' : Forall nonneg_prediction predictions').
  { repeat constructor; discriminate. }
  assert (Ha' : Forall nonneg_area risk_areas').
  { repeat constructor; discriminate. }
  split; [exact Hp | split; [exact Ha | split]].
  - destruct (overall_risk_synthesis predictions risk_areas Hp Ha)
      as (_ & [(_ & _ & H) | [(_ & H & _) | [(H & _) | (H & _)]]] & _).
    + rewrite H. vm_compute. reflexivity.
    + vm_compute in H. discriminate H.
    + vm_compute in H. discriminate H.
    + vm_compute in H. discriminate H.
  - split; [exact Hp' | split; [exact Ha' |]].
    destruct (overall_risk_synthesis predictions' risk_areas' Hp' Ha')
      as (_ & _ & _ & _ & H & _).
    apply H; reflexivity.
Defined.

(** Two prediction items, (probability 0.3, risk score 0.6) and
    (0.4, 0.7), and one risk area of risk score 0.3: the predictions
    average exactly 0.5 and the areas 0.3, and in exact arithmetic the
    overall risk is 0.4; on IEEE doubles [calculate_overall_risk] returns
    0.39999999999999997, which is not the double 0.4. *)
Lemma overall_risk_rounded_on_binary64 :
  let predictions :=
    [ Prediction.mk "pothole" 0.3 0.7 0.6 "" [] "7_days";
      Prediction.mk "garbage" 0.4 0.7 0.7 "" [] "7_days" ] in
  let risk_areas :=
    [ RiskArea.mk Concrete.test_location "low" 0.3 [] 100 ] in
  let overall :=
    Binary64Synthesis.calculate_overall_risk
      Binary64Synthesis.rounded_items Binary64Synthesis.areas in
  Forall nonneg_prediction predictions /\
  Forall nonneg_area risk_areas /\
  spec_P predictions == 0.5 /\
  spec_A risk_areas == 0.3 /\
  PredictiveModels.calculate_overall_risk predictions risk_areas == 0.4 /\
  PrimFloat.eqb overall 0.39999999999999997 = true /\
  PrimFloat.eqb overall 0.4 = false.
Proof.
  intros predictions risk_areas overall.
  split; [repeat constructor; discriminate |].
  split; [repeat constructor; discriminate |].
  repeat split; vm_compute; reflexivity.
Qed.

(* ================================================================== *)
(** * The location inference adapter *)
(* ================================================================== *)

Section Adapter.
Context {env : NumericEnv}.

Import PredictiveModels.

(** The seven entries every feature vector starts with. *)
Definition base_features (now : DateTime) (location : Location) : odict :=
  [ ("latitude", VNum (lat location));
    ("longitude", VNum (lng location));
    ("distance_from_center",
       VNum (np_sqrt ((lat location - 23.3441) ^ 2 + (lng location - 85.3096) ^ 2)));
    ("is_weekend", VBool (DataProcessor.Z_in (weekday now) [5; 6]%Z));
    ("month", VNum (inject_Z (month now)));
    ("hour", VNum (inject_Z (hour now)));
    ("season", VNum (inject_Z (_get_season (month now)))) ].

Definition heavy_flag (v : value) : Q :=
  match as_number v with
  | Some q => if Qgtb q 20 then 1 else 0
  | None => 0
  end.

Definition extreme_flag (v : value) : Q :=
  match as_number v with
  | Some q => if Qgtb q 35 || Qltb q 5 then 1 else 0
  | None => 0
  end.

(** The entries a non-empty weather context adds. *)
Definition weather_features (w : gmap string value) : odict :=
  [ ("precipitation", default (VNum 0) (w !! "precipitation"));
    ("temperature", default (VNum 25) (w !! "temperature"));
    ("humidity", default (VNum 50) (w !! "humidity"));
    ("heavy_rain", VNum (heavy_flag (default (VNum 0) (w !! "precipitation"))));
    ("extreme_temp", VNum (extreme_flag (default (VNum 25) (w !! "temperature")))) ].

(** The entries a non-empty historical context adds. *)
Definition history_features (h : gmap string value) : odict :=
  [ ("total_issues", default (VNum 0) (h !! "total_issues"));
    ("avg_resolution_time", default (VNum 3) (h !! "avg_resolution_time"));
    ("trend_increasing",
       VNum (match h !! "recent_trend" with
             | Some (VStr "increasing") => 1
             | _ => 0
             end)) ].

(** The entries an optional context contributes: none when it is absent
    or empty. *)
Definition context_features (f : gmap string value -> odict)
    (context : option (gmap string value)) : odict :=
  match context with
  | Some m => if truthy_dict context then f m else []
  | None => []
  end.

(** The weather values the adapter compares with numbers are numbers. *)
Definition comparable_weather (weather_data : option (gmap string value)) : Prop :=
  match weather_data with
  | Some w =>
      truthy_dict weather_data = true ->
      is_Some (as_number (default (VNum 0) (w !! "precipitation"))) /\
      is_Some (as_number (default (VNum 25) (w !! "temperature")))
  | None => True
  end.

Lemma _extract_location_features_Ret now location weather_data historical_context :
  comparable_weather weather_data ->
  _extract_location_features now location weather_data historical_context
  = Ret (base_features now location
           ++ context_features weather_features weather_data
           ++ context_features history_features historical_context)%list.
Proof.
  intros Hw. unfold _extract_location_features, context_features.
  fold (base_features now location).
  destruct weather_data as [w |]; simpl in Hw.
  - destruct (negb (bool_decide (w = ∅))) eqn:Ew.
    + destruct (Hw eq_refl) as [[p Hp] [t Ht]].
      unfold truthy_dict. rewrite Ew. unfold gt, lt, dict_get.
      unfold weather_features, heavy_flag, extreme_flag.
      rewrite Hp, Ht. cbn [Py.bind].
      destruct historical_context as [h |]; [destruct (negb (bool_decide (h = ∅))) |];
        destruct (Qgtb p 20); destruct (Qgtb t 35); destruct (Qltb t 5); reflexivity.
    + unfold truthy_dict. rewrite Ew. cbn [Py.bind].
      destruct historical_context as [h |]; [destruct (negb (bool_decide (h = ∅))) |];
        reflexivity.
  - cbn [Py.bind].
    destruct historical_context as [h |]; [destruct (truthy_dict (Some h)) |];
      reflexivity.
Qed.

Lemma _extract_location_features_shape now location weather_data historical_context f :
  _extract_location_features now location weather_data historical_context = Ret f ->
  f = (base_features now location
         ++ context_features weather_features weather_data
         ++ context_features history_features historical_context)%list.
Proof.
  intros E.
  assert (Hw : comparable_weather weather_data).
  { destruct weather_data as [w |]; unfold comparable_weather; [| exact I]. intros Ht.
    unfold _extract_location_features in E. rewrite Ht in E.
    unfold gt, lt, dict_get in E.
    destruct (as_number (default (VNum 0) (w !! "precipitation"))) as [p |];
      [| discriminate E].
    destruct (as_number (default (VNum 25) (w !! "temperature"))) as [t |];
      [split; eauto |].
    cbn [Py.bind] in E. discriminate E. }
  rewrite (_extract_location_features_Ret _ _ _ _ Hw) in E. congruence.
Qed.

End Adapter.

(* ================================================================== *)
(** * Fallback predictions *)
(* ================================================================== *)

Section Fallback.
Context {env : NumericEnv}.

Import PredictiveModels.

Lemma has_model_empty (self : self_t) (name : string) :
  models self = ∅ -> has_model self name = false.
Proof.
  intros E. unfold has_model. rewrite E, lookup_empty.
  apply bool_decide_eq_false. intros [x Hx]. discriminate.
Qed.

Lemma truthy_dict_lookup (w : gmap string value) (k : string) (v : value) :
  w !! k = Some v -> truthy_dict (Some w) = true.
Proof.
  intros H. unfold truthy_dict. apply negb_true_iff, bool_decide_eq_false.
  intros ->. rewrite lookup_empty in H. discriminate.
Qed.

Lemma truthy_dict_empty : truthy_dict (Some ∅) = false.
Proof. reflexivity. Qed.

(** With no model in the store, fusion answers with the fallback
    predictions, whatever the feature extraction does. *)
Lemma predict_issues_empty_registry self now location weather_data historical_context timeframe :
  models self = ∅ ->
  predict_issues self now location weather_data historical_context timeframe
  = _generate_fallback_predictions location weather_data.
Proof.
  intros E. unfold predict_issues.
  rewrite !(has_model_empty self _ E). cbn [andb truthy_list app].
  destruct (_extract_location_features now location weather_data historical_context);
    cbn [Py.bind try_except_with]; [| reflexivity].
  destruct (_generate_fallback_predictions location weather_data); reflexivity.
Qed.

Lemma fallback_without_weather location :
  _generate_fallback_predictions location None = Ret [road_fallback].
Proof. reflexivity. Qed.

Lemma fallback_heavy_rain location (w : gmap string value) (p : Q) :
  w !! "precipitation" = Some (VNum p) -> 20 < p ->
  _generate_fallback_predictions location (Some w)
  = Ret [water_supply_fallback; road_fallback].
Proof.
  intros Hw Hp. unfold _generate_fallback_predictions.
  rewrite (truthy_dict_lookup _ _ _ Hw). unfold dict_get. rewrite Hw.
  unfold gt; simpl as_number. cbn [Py.bind default].
  destruct (Qgtb_spec p 20); [reflexivity | contradiction].
Qed.

(** C3.  With an empty model store, fusion returns the deterministic
    fallback: with no weather context (absent, or an empty dictionary)
    exactly the one "Road & Pothole Issues" item of probability 0.4; with
    a weather context whose precipitation exceeds 20 (25, say) the "Water
    Supply" item of probability 0.7 followed by the road item. *)
Theorem empty_registry_fallback :
  forall (self : self_t) (now : DateTime) (location : Location)
         (historical_context : option (gmap string value)) (timeframe : string),
    models self = ∅ ->
    predict_issues self now location None historical_context timeframe
      = Ret [road_fallback] /\
    predict_issues self now location (Some ∅) historical_context timeframe
      = Ret [road_fallback] /\
    Prediction.category road_fallback = "Road & Pothole Issues" /\
    Prediction.probability road_fallback = 0.4 /\
    (forall (w : gmap string value) (p : Q),
        w !! "precipitation" = Some (VNum p) -> 20 < p ->
        predict_issues self now location (Some w) historical_context timeframe
          = Ret [water_supply_fallback; road_fallback]) /\
    (forall w : gmap string value,
        w !! "precipitation" = Some (VNum 25) ->
        exists l,
          predict_issues self now location (Some w) historical_context timeframe = Ret l /\
          In water_supply_fallback l) /\
    Prediction.category water_supply_fallback = "Water Supply" /\
    Prediction.probability water_supply_fallback = 0.7.
Proof.
  intros self now location historical_context timeframe E.
  repeat split.
  - rewrite predict_issues_empty_registry by exact E. reflexivity.
  - rewrite predict_issues_empty_registry by exact E. reflexivity.
  - intros w p Hw Hp. rewrite predict_issues_empty_registry by exact E.
    now apply fallback_heavy_rain with (p := p).
  - intros w Hw. exists [water_supply_fallback; road_fallback]. split; [| now left].
    rewrite predict_issues_empty_registry by exact E.
    apply fallback_heavy_rain with (p := 25); [exact Hw | reflexivity].
Qed.

End Fallback.

(** The empty store of a fresh service answers the test request of
    [train_models.py] (precipitation 25) with both fallback items. *)
Lemma empty_registry_fallback_witness :
  PredictiveModels.models PredictiveModels.__init__ = ∅ /\
  PredictiveModels.predict_issues (env := Concrete.rational_env) PredictiveModels.__init__
    Concrete.test_now Concrete.test_location None (Some Concrete.test_context) "7_days"
  = Ret [PredictiveModels.road_fallback] /\
  PredictiveModels.predict_issues (env := Concrete.rational_env) PredictiveModels.__init__
    Concrete.test_now Concrete.test_location (Some Concrete.test_weather)
    (Some Concrete.test_context) "7_days"
  = Ret [PredictiveModels.water_supply_fallback; PredictiveModels.road_fallback].
Proof.
  split; [reflexivity |].
  destruct (empty_registry_fallback (env := Concrete.rational_env) PredictiveModels.__init__
              Concrete.test_now Concrete.test_location (Some Concrete.test_context) "7_days"
              eq_refl) as (H1 & _ & _ & _ & H2 & _).
  split; [exact H1 |].
  apply (H2 Concrete.test_weather 25.0); reflexivity.
Defined.

(* ================================================================== *)
(** * Defaults of the inference adapter *)
(* ================================================================== *)

Section AdapterDefaults.
Context {env : NumericEnv}.

Import PredictiveModels.

(** The weather and history features of the adapter's vector. *)
Definition weather_feature_values (f : odict) : list (option value) :=
  map (getitem f) ["precipitation"; "temperature"; "humidity"; "heavy_rain"; "extreme_temp"].

Definition history_feature_values (f : odict) : list (option value) :=
  map (getitem f) ["total_issues"; "avg_resolution_time"; "trend_increasing"].

(** C6 (amended).  When the adapter returns a feature vector: for a
    supplied, non-empty weather context each of precipitation,
    temperature and humidity is the supplied value or, when the field is
    missing, its default 0, 25, 50; for a supplied, non-empty historical
    context the total issue count and average resolution time are the
    supplied values or the defaults 0 and 3; and for a context that is
    absent or empty the vector has none of that context's features. *)
Theorem adapter_defaults :
  forall (now : DateTime) (location : Location)
         (weather_data historical_context : option (gmap string value)) (f : odict),
    _extract_location_features now location weather_data historical_context = Ret f ->
    (forall w, weather_data = Some w -> truthy_dict weather_data = true ->
       getitem f "precipitation" = Some (default (VNum 0) (w !! "precipitation")) /\
       getitem f "temperature" = Some (default (VNum 25) (w !! "temperature")) /\
       getitem f "humidity" = Some (default (VNum 50) (w !! "humidity"))) /\
    (truthy_dict weather_data = false ->
       weather_feature_values f = [None; None; None; None; None]) /\
    (forall h, historical_context = Some h -> truthy_dict historical_context = true ->
       getitem f "total_issues" = Some (default (VNum 0) (h !! "total_issues")) /\
       getitem f "avg_resolution_time"
         = Some (default (VNum 3) (h !! "avg_resolution_time"))) /\
    (truthy_dict historical_context = false ->
       history_feature_values f = [None; None; None]).
Proof.
  intros now location weather_data historical_context f E.
  apply _extract_location_features_shape in E. subst f.
  unfold context_features, weather_feature_values, history_feature_values.
  split; [| split; [| split]].
  - intros w -> Ht. rewrite Ht.
    destruct historical_context as [h |]; [destruct (truthy_dict (Some h)) |];
      repeat split; reflexivity.
  - intros Hf. destruct weather_data as [w |]; [rewrite Hf |];
      (destruct historical_context as [h |]; [destruct (truthy_dict (Some h)) |]);
      reflexivity.
  - intros h -> Ht. rewrite Ht.
    destruct weather_data as [w |]; [destruct (truthy_dict (Some w)) |];
      repeat split; reflexivity.
  - intros Hf. destruct historical_context as [h |]; [rewrite Hf |];
      (destruct weather_data as [w |]; [destruct (truthy_dict (Some w)) |]);
      reflexivity.
Qed.

End AdapterDefaults.


(** With a weather context that only gives the precipitation, and a
    history that only gives the issue count, the other fields take their
    defaults. *)
Lemma adapter_defaults_witness :
  let w : gmap string value := {[ "precipitation" := VNum 25 ]} in
  let h : gmap string value := {[ "total_issues" := VNum 15 ]} in
  let f := (base_features (env := Concrete.rational_env)
              Concrete.test_now Concrete.test_location
            ++ weather_features w ++ history_features h)%list in
  PredictiveModels._extract_location_features (env := Concrete.rational_env)
    Concrete.test_now Concrete.test_location (Some w) (Some h) = Ret f /\
  getitem f "precipitation" = Some (VNum 25) /\
  getitem f "temperature" = Some (VNum 25) /\
  getitem f "humidity" = Some (VNum 50) /\
  getitem f "total_issues" = Some (VNum 15) /\
  getitem f "avg_resolution_time" = Some (VNum 3).
Proof.
  intros w h f.
  assert (E : PredictiveModels._extract_location_features (env := Concrete.rational_env)
                Concrete.test_now Concrete.test_location (Some w) (Some h) = Ret f)
    by (vm_compute; reflexivity).
  split; [exact E |].
  destruct (adapter_defaults (env := Concrete.rational_env) _ _ _ _ _ E)
    as (Hw & _ & Hh & _).
  destruct (Hw w eq_refl eq_refl) as (H1 & H2 & H3).
  destruct (Hh h eq_refl eq_refl) as (H4 & H5).
  repeat split; assumption.
Defined.

(** C6 fails as stated: without a weather context and without a
    historical context the feature vector has no temperature, humidity,
    precipitation or average-resolution-time entry at all, so none of
    the documented defaults is in it. *)
Lemma no_defaults_without_context :
  exists f,
    PredictiveModels._extract_location_features (env := Concrete.rational_env)
      Concrete.test_now Concrete.test_location None None = Ret f /\
    getitem f "temperature" = None /\
    getitem f "humidity" = None /\
    getitem f "precipitation" = None /\
    getitem f "avg_resolution_time" = None /\
    dict_keys f = ["latitude"; "longitude"; "distance_from_center"; "is_weekend";
                   "month"; "hour"; "season"].
Proof.
  eexists. split; [vm_compute; reflexivity |]. repeat split; vm_compute; reflexivity.
Qed.

(* ================================================================== *)
(** * Training-time and inference-time derivations *)
(* ================================================================== *)

Section TrainServe.
Context {env : NumericEnv}.

Import PredictiveModels.





End TrainServe.



(* ================================================================== *)
(** * Feature schemas: training table and inference vector *)
(* ================================================================== *)

Section Columns.

Lemma has_column_In (names : list string) (n : string) :
  has_column names n = true <-> In n names.
Proof.
  unfold has_column. rewrite existsb_exists. split.
  - intros [x [Hx E]]. apply String.eqb_eq in E. now subst.
  - intros H. exists n. split; [exact H | apply String.eqb_refl].
Qed.








End Columns.

Section Schema.
Context {env : NumericEnv}.

Import PredictiveModels.








(** ** The fusion engine on a vector of another width *)

Lemma mapM_length {A B} (g : A -> py B) (l : list A) (l' : list B) :
  mapM g l = Ret l' -> length l' = length l.
Proof.
  revert l'. induction l as [| x l IH]; intros l' E; simpl in E.
  - injection E as <-. reflexivity.
  - destruct (g x) as [y | e]; [| discriminate E]. cbn [Py.bind] in E.
    destruct (mapM g l) as [ys | e]; [| discriminate E]. cbn [Py.bind] in E.
    injection E as <-. simpl. f_equal. now apply IH.
Qed.







End Schema.




(* ================================================================== *)
(** * Every risk score lies in the unit interval *)
(* ================================================================== *)

Section UnitInterval.
Context {env : NumericEnv}.

Import PredictiveModels.



Lemma insert_desc_Forall (P : Prediction.t -> Prop) (x : Prediction.t) (l : list Prediction.t) :
  P x -> Forall P l -> Forall P (insert_desc x l).
Proof.
  intros Hx. induction 1 as [| y l Hy Hl IH]; simpl.
  - constructor; [exact Hx | constructor].
  - destruct (Qgtb (Prediction.probability y) (Prediction.probability x)).
    + constructor; assumption.
    + constructor; [exact Hx | constructor; assumption].
Qed.

Lemma sorted_by_probability_desc_Forall (P : Prediction.t -> Prop) (l : list Prediction.t) :
  Forall P l -> Forall P (sorted_by_probability_desc l).
Proof.
  unfold sorted_by_probability_desc.
  induction 1 as [| x l Hx Hl IH]; simpl; [constructor |].
  now apply insert_desc_Forall.
Qed.

Lemma firstn_Forall {A} (P : A -> Prop) (n : nat) (l : list A) :
  Forall P l -> Forall P (firstn n l).
Proof.
  intros H. revert n. induction H as [| x l Hx Hl IH]; intros [| n]; simpl;
    constructor; auto.
Qed.









End UnitInterval.

Section UnitIntervalScanner.
Context {env : NumericEnv}.

Import PredictiveModels.

(** A draw of [random_sample()]. *)
Definition unit_draw (u : Q) : Prop := 0 <= u /\ u < 1.

Lemma unit_draws_draws_in (s : Random.rng) :
  Random.unit_draws s <-> draws_in unit_draw s.
Proof. reflexivity. Qed.



Import VisualizationService.








End UnitIntervalScanner.


(** A location more than one degree away from the reference center. *)
Definition far_location : Location := mkLocation 24.5 86.5.


(* ================================================================== *)
(** * The location grid and the heatmap grid *)
(* ================================================================== *)

Section Grid.
Context {env : NumericEnv}.

Import PredictiveModels VisualizationService.

Lemma Qabs_cases (a : Q) : (0 <= a /\ Qabs a == a) \/ (a <= 0 /\ Qabs a == - a).
Proof.
  destruct (Qlt_le_dec a 0) as [H | H].
  - right. split; [lra | apply Qabs_neg; lra].
  - left. split; [exact H | now apply Qabs_pos].
Qed.

Lemma grid_steps (i : Z) :
  In i [-2; -1; 0; 1; 2]%Z -> i = (-2)%Z \/ i = (-1)%Z \/ i = 0%Z \/ i = 1%Z \/ i = 2%Z.
Proof. simpl. intuition auto. Qed.

(** A point half a step, or a whole step, off the center is within the
    offset of it. *)
Lemma grid_coordinate_within (c offset : Q) (i : Z) :
  In i [-2; -1; 0; 1; 2]%Z ->
  Qabs (c + inject_Z i * offset / 2 - c) <= Qabs offset.
Proof.
  intros Hi. apply Qabs_Qle_condition.
  destruct (Qabs_cases offset) as [[Ho ->] | [Ho ->]];
    destruct (grid_steps i Hi) as [-> | [-> | [-> | [-> | ->]]]];
    unfold inject_Z; rewrite Qdiv2; split; lra.
Qed.

Lemma grid_coordinate_in_box (c offset : Q) (i : Z) :
  0 <= offset -> In i [-2; -1; 0; 1; 2]%Z ->
  c - offset <= c + inject_Z i * offset / 2 /\ c + inject_Z i * offset / 2 <= c + offset.
Proof.
  intros Ho Hi.
  destruct (grid_steps i Hi) as [-> | [-> | [-> | [-> | ->]]]];
    unfold inject_Z; rewrite Qdiv2; split; lra.
Qed.

(** The points of the grid are the center moved by [i] half latitude
    offsets and [j] half longitude offsets, [i] and [j] from -2 to 2. *)
Lemma grid_points (center : Location) (radius_km : Q) (p : Location) :
  In p (_generate_location_grid center radius_km) ->
  exists i j,
    In i [-2; -1; 0; 1; 2]%Z /\ In j [-2; -1; 0; 1; 2]%Z /\
    p = mkLocation
          (lat center + inject_Z i * (radius_km / 111.0) / 2)
          (lng center
           + inject_Z j * (radius_km / (111.0 * np_cos_radians (lat center))) / 2).
Proof.
  unfold _generate_location_grid. intros H.
  apply in_flat_map in H. destruct H as [i [Hi H]].
  apply in_map_iff in H. destruct H as [j [<- Hj]].
  exists i, j. auto.
Qed.

Lemma offset_10_nonneg : 0 <= 10 / 111.0.
Proof. apply Qle_shift_div_l; lra. Qed.

Lemma lng_offset_nonneg (c : Q) : 0 <= c -> 0 <= 10 / (111.0 * c).
Proof.
  intros Hc. destruct (Qeq_dec c 0) as [E | E].
  - assert (E' : 111.0 * c == 0) by (rewrite E; lra).
    unfold Qdiv. rewrite E'. discriminate.
  - apply Qle_shift_div_l; lra.
Qed.

(** ** Counting the cells of the heatmap *)

Lemma length_flat_map_pairs {A B} (l1 : list A) (l2 : list B) :
  length (flat_map (fun a => map (fun b => (a, b)) l2) l1)
  = (length l1 * length l2)%nat.
Proof.
  induction l1 as [| a l1 IH]; simpl; [reflexivity |].
  rewrite length_app, length_map, IH. reflexivity.
Qed.

Lemma np_linspace_length (start stop : Q) (n : nat) :
  exists l, np_linspace start stop (Z.of_nat n) = Ret l /\ length l = n.
Proof.
  unfold np_linspace.
  destruct (Z.ltb_spec (Z.of_nat n) 0) as [H | H]; [lia |].
  eexists. split; [reflexivity |].
  rewrite length_map, length_seq. apply Nat2Z.id.
Qed.

Lemma colors_total (r : Q) : is_Some (colors !! VisualizationService._get_risk_level r).
Proof.
  rewrite risk_level_paths_agree.
  destruct (risk_level_cases r) as [[_ E] | [[_ [_ E]] | [[_ [_ E]] | [_ E]]]];
    rewrite E; vm_compute; eauto.
Qed.

Lemma heat_point_returns (center_lat center_lng : Q) (cell : Q * Q) :
  rand_spec (fun _ => True) (heat_point center_lat center_lng cell)
            (fun o => exists p, o = Ret p).
Proof.
  unfold heat_point. destruct cell as [lat lng].
  intros s Hs. split; [| intros n; exact I].
  unfold Random.bind. destruct (_calculate_grid_risk lat lng center_lat center_lng s) as [r s'].
  simpl. destruct (colors_total r) as [c ->]. eauto.
Qed.

Lemma sequence_all_Ret {A} (l : list (py A)) :
  Forall (fun o => exists x, o = Ret x) l ->
  exists l', sequence l = Ret l' /\ length l' = length l.
Proof.
  unfold sequence. induction 1 as [| o l [x ->] _ [l' [E Hl]]]; simpl.
  - exists []. split; reflexivity.
  - rewrite E. cbn [Py.bind]. exists (x :: l'). split; [reflexivity | simpl; now f_equal].
Qed.

Lemma np_max_returns (l : list Q) : l <> [] -> exists m, np_max l = Ret m.
Proof. destruct l; [congruence | intros _; simpl; eauto]. Qed.

Lemma np_min_returns (l : list Q) : l <> [] -> exists m, np_min l = Ret m.
Proof. destruct l; [congruence | intros _; simpl; eauto]. Qed.

(** The grid points of a heatmap result; the empty dictionary that the
    handler returns has none. *)
Definition heatmap_points (r : option Heatmap) : list HeatPoint.t :=
  match r with
  | Some hm => heatmap_data hm
  | None => []
  end.

Lemma heatmap_of_positive_resolution (center_lat center_lng radius_km : Q) (n : nat)
    (s : Random.rng) :
  (1 <= n)%nat ->
  exists hm,
    fst (generate_risk_heatmap center_lat center_lng radius_km (Z.of_nat n) s) = Some hm /\
    length (heatmap_data hm) = (n * n)%nat /\
    total_points (summary hm) = (n * n)%nat.
Proof.
  intros Hn. unfold generate_risk_heatmap.
  destruct (np_linspace_length (center_lat - radius_km / 111.0)
              (center_lat + radius_km / 111.0) n) as [lat_points [-> Hlat]].
  destruct (np_linspace_length
              (center_lng - radius_km / (111.0 * np_cos_radians center_lat))
              (center_lng + radius_km / (111.0 * np_cos_radians center_lat)) n)
    as [lng_points [-> Hlng]].
  set (cells := flat_map (fun lat => map (fun lng => (lat, lng)) lng_points) lat_points).
  assert (Hcells : length cells = (n * n)%nat).
  { unfold cells. rewrite length_flat_map_pairs. now rewrite Hlat, Hlng. }
  destruct (rand_spec_mapR (fun _ => True) (heat_point center_lat center_lng)
              (fun _ o => exists p, o = Ret p) cells
              (fun cell _ => heat_point_returns center_lat center_lng cell) s)
    as [Hpoints _]; [intros k; exact I |].
  unfold Random.bind.
  destruct (Random.mapR (heat_point center_lat center_lng) cells s) as [points s'].
  cbn [fst] in Hpoints. cbn [Random.ret fst].
  assert (Hlen : length points = length cells).
  { symmetry. eapply Forall2_length. exact Hpoints. }
  apply Forall2_Forall_r in Hpoints.
  destruct (sequence_all_Ret points Hpoints) as [data [-> Hdata]].
  cbn [Py.bind].
  assert (Hne : map HeatPoint.risk_score data <> []).
  { intros E. apply (f_equal (@length Q)) in E. rewrite length_map in E.
    simpl in E. nia. }
  destruct (np_max_returns _ Hne) as [mx ->].
  destruct (np_min_returns _ Hne) as [mn ->].
  cbn [Py.bind try_except]. eexists. split; [reflexivity |].
  cbn [heatmap_data summary total_points]. split; lia.
Qed.

Lemma heatmap_of_resolution_zero (center_lat center_lng radius_km : Q) (s : Random.rng) :
  fst (generate_risk_heatmap center_lat center_lng radius_km 0 s) = None.
Proof. reflexivity. Qed.

End Grid.

Section GridTheorem.
Context {env : NumericEnv}.

Import PredictiveModels VisualizationService.

(** C8.  With a radius of 10 km the location grid has exactly 25 points;
    each lies within 10/111 degrees of the center's latitude and within
    10/(111 cos(latitude)) degrees of its longitude, that is (the cosine
    not being negative) inside the bounds box reported for that center
    and radius.  A heatmap of resolution N, N = 1, 2, ..., has exactly
    N * N grid points (and reports that total); for N = 0 the method
    returns its empty result, with no point. *)
Theorem grid_within_bounds_and_heatmap_size :
  forall (center : Location) (N : nat)
         (center_lat center_lng radius_km : Q) (s : Random.rng),
    let grid := _generate_location_grid center 10 in
    let box := Main.heatmap_bounds (lat center) (lng center) 10 in
    let heatmap :=
      fst (generate_risk_heatmap center_lat center_lng radius_km (Z.of_nat N) s) in
    length grid = 25%nat /\
    Forall (fun p =>
              Qabs (lat p - lat center) <= 10 / 111 /\
              Qabs (lng p - lng center)
                <= Qabs (10 / (111 * np_cos_radians (lat center)))) grid /\
    (0 <= np_cos_radians (lat center) ->
     Forall (fun p =>
               (south box <= lat p /\ lat p <= north box) /\
               (west box <= lng p /\ lng p <= east box)) grid) /\
    length (heatmap_points heatmap) = (N * N)%nat /\
    ((1 <= N)%nat ->
     exists hm, heatmap = Some hm /\
                length (heatmap_data hm) = (N * N)%nat /\
                total_points (summary hm) = (N * N)%nat) /\
    (N = 0%nat -> heatmap = None).
Proof.
  intros center N center_lat center_lng radius_km s grid box heatmap.
  assert (E111 : forall x : Q, 111.0 * x == 111 * x) by (intros; lra).
  assert (Eoff : 10 / 111.0 == 10 / 111) by reflexivity.
  split; [reflexivity |].
  split; [| split; [| split; [| split]]].
  - apply List.Forall_forall. intros p Hp.
    destruct (grid_points center 10 p Hp) as [i [j [Hi [Hj ->]]]].
    cbn [lat lng]. split.
    + eapply Qle_trans; [apply grid_coordinate_within; exact Hi |].
      rewrite Eoff. rewrite Qabs_pos; [apply Qle_refl | apply Qle_shift_div_l; lra].
    + eapply Qle_trans; [apply grid_coordinate_within; exact Hj |].
      rewrite E111. apply Qle_refl.
  - intros Hcos. apply List.Forall_forall. intros p Hp.
    destruct (grid_points center 10 p Hp) as [i [j [Hi [Hj ->]]]].
    cbn [lat lng north south east west box Main.heatmap_bounds]. split.
    + apply grid_coordinate_in_box; [apply offset_10_nonneg | exact Hi].
    + apply grid_coordinate_in_box; [now apply lng_offset_nonneg | exact Hj].
  - destruct N as [| n].
    + reflexivity.
    + destruct (heatmap_of_positive_resolution center_lat center_lng radius_km (S n) s)
        as [hm [E [Hlen _]]]; [lia |].
      unfold heatmap. rewrite E. exact Hlen.
  - intros HN. now apply heatmap_of_positive_resolution.
  - intros ->. reflexivity.
Qed.

End GridTheorem.

(** The grid around the test location, and a heatmap of resolution 3. *)
Lemma grid_within_bounds_and_heatmap_size_witness :
  0 <= np_cos_radians (NumericEnv := Concrete.rational_env) (lat Concrete.test_location) /\
  length (PredictiveModels._generate_location_grid (env := Concrete.rational_env)
            Concrete.test_location 10) = 25%nat /\
  exists hm,
    fst (VisualizationService.generate_risk_heatmap (env := Concrete.rational_env)
           23.3441 85.3096 10 3 Concrete.half_draws) = Some hm /\
    length (VisualizationService.heatmap_data hm) = 9%nat.
Proof.
  destruct (grid_within_bounds_and_heatmap_size (env := Concrete.rational_env)
              Concrete.test_location 3 23.3441 85.3096 10 Concrete.half_draws)
    as (Hlen & _ & _ & _ & Hheat & _).
  split; [vm_compute; discriminate |].
  split; [exact Hlen |].
  destruct (Hheat ltac:(lia)) as [hm [E [Hn _]]].
  exists hm. split; [exact E | exact Hn].
Defined.

(* ================================================================== *)
(** * The training task and a forecaster without enough data *)
(* ================================================================== *)

Section Training.
Context {env : NumericEnv} {learners : Sk.Learners}.

Import PredictiveModels.

(** The rows of a table that carry the key [c] in column [k]: the group
    of [c]. *)
Definition rows_at (k : nat) (c : cell) (rws : list (list cell)) : list (list cell) :=
  List.filter (fun row => cell_eqb (nth k row CNaN) c) rws.

(** The training precondition of the sequence forecaster fails: no
    location key is carried by [sequence_length + 1] rows. *)
Definition no_group_reaches_window (data : DataFrame) : Prop :=
  forall (k : nat) (c : cell),
    index_of "location_key" (column_names data) = Some k ->
    (length (rows_at k c (rows data)) < sequence_length + 1)%nat.

Lemma insert_by_length {A} (leb : A -> A -> bool) (x : A) (l : list A) :
  length (insert_by leb x l) = S (length l).
Proof.
  induction l as [| y l IH]; simpl; [reflexivity |].
  destruct (leb x y); simpl; [reflexivity | now rewrite IH].
Qed.

Lemma sort_by_length {A} (leb : A -> A -> bool) (l : list A) :
  length (sort_by leb l) = length l.
Proof.
  unfold sort_by. induction l as [| x l IH]; simpl; [reflexivity |].
  now rewrite insert_by_length, IH.
Qed.

Lemma short_group_has_no_sequence names numeric_cols date_index (group : list (list cell)) :
  (length group < sequence_length + 1)%nat ->
  group_sequences names numeric_cols date_index group = Ret [].
Proof.
  intros H. unfold group_sequences, sort_values. rewrite sort_by_length.
  destruct (Nat.ltb_spec (length group) (sequence_length + 1)); [reflexivity | lia].
Qed.

Lemma mapM_all_empty {A B} (g : A -> py (list B)) (l : list A) :
  Forall (fun x => g x = Ret []) l ->
  exists l', mapM g l = Ret l' /\ concat l' = [].
Proof.
  induction 1 as [| x l Hx _ [l' [E Hl']]]; simpl.
  - exists []. split; reflexivity.
  - rewrite Hx, E. cbn [Py.bind]. exists ([] :: l'). split; [reflexivity | exact Hl'].
Qed.

Lemma no_sequences (data : DataFrame) :
  no_group_reaches_window data -> _prepare_time_series_data data = ([], []).
Proof.
  intros H. unfold _prepare_time_series_data.
  destruct (index_of "location_key" (column_names data)) as [key_index |] eqn:Ek;
    [| reflexivity].
  destruct (index_of "date" (column_names data)) as [date_index |]; [| reflexivity].
  destruct (mapM_all_empty
              (fun g => group_sequences (column_names data)
                          (select_dtypes Number (columns data)) date_index (snd g))
              (groupby key_index (rows data))) as [l' [-> Hl']].
  - unfold groupby. apply List.Forall_map. apply List.Forall_forall.
    intros c _. apply short_group_has_no_sequence. exact (H key_index c Ek).
  - cbn [Py.bind try_except]. rewrite Hl'. reflexivity.
Qed.

(** Without sequences the forecaster's training returns [None], raises
    nothing and leaves the store as it was. *)
Lemma train_time_series_model_insufficient (self : self_t) (data : DataFrame) :
  no_group_reaches_window data ->
  train_time_series_model self data = (self, None).
Proof.
  intros H. unfold train_time_series_model. now rewrite (no_sequences data H).
Qed.

(** What a training method does to [self.models]: it stores the model it
    returns under its name, and nothing when it returns [None]. *)
Definition stores (name : string) (before after : self_t) (model : option Sk.Model) : Prop :=
  models after = match model with
                 | Some m => <[name := m]> (models before)
                 | None => models before
                 end.

Lemma encode_column_models (sd : self_t * DataFrame) (col : string) :
  models (fst (encode_column sd col)) = models (fst sd).
Proof.
  unfold encode_column. destruct sd as [self data].
  destruct (label_encoders self !! col); [reflexivity |].
  destruct (column_values data col); reflexivity.
Qed.

Lemma fold_encode_column_models (cols : list string) (sd : self_t * DataFrame) :
  models (fst (fold_left encode_column cols sd)) = models (fst sd).
Proof.
  revert sd. induction cols as [| col cols IH]; intros sd; simpl; [reflexivity |].
  now rewrite IH, encode_column_models.
Qed.

(** ** The classifier's label encoding leaves the location groups alone *)

Lemma index_of_nth_error (n : string) (names : list string) (i : nat) :
  index_of n names = Some i -> nth_error names i = Some n.
Proof.
  revert i. induction names as [| m names IH]; intros i H; simpl in H; [discriminate |].
  destruct (String.eqb_spec m n) as [-> | _].
  - injection H as <-. reflexivity.
  - destruct (index_of n names) as [j |]; [| discriminate].
    injection H as <-. simpl. now apply IH.
Qed.

Lemma set_nth_same {A} (i : nat) (x : A) (l : list A) :
  nth_error l i = Some x -> set_nth i x l = l.
Proof.
  revert i. induction l as [| y l IH]; intros [| i] H; simpl in *; try reflexivity.
  - now injection H as ->.
  - f_equal. now apply IH.
Qed.

Lemma map_set_nth {A B} (g : A -> B) (i : nat) (x : A) (l : list A) :
  map g (set_nth i x l) = set_nth i (g x) (map g l).
Proof.
  revert i. induction l as [| y l IH]; intros [| i]; simpl; try reflexivity.
  now rewrite IH.
Qed.

Lemma nth_set_nth_other {A} (k i : nat) (x d : A) (l : list A) :
  k <> i -> nth k (set_nth i x l) d = nth k l d.
Proof.
  revert k i. induction l as [| y l IH]; intros [| k] [| i] H; simpl;
    try reflexivity; try congruence.
  apply IH. congruence.
Qed.

Lemma combine_map_r {A B} (g : A -> B) (l : list A) :
  combine l (map g l) = map (fun x => (x, g x)) l.
Proof. induction l as [| x l IH]; simpl; [reflexivity | now rewrite IH]. Qed.

Lemma length_filter_map {A} (P : A -> bool) (g : A -> A) (l : list A) :
  (forall x, P (g x) = P x) ->
  length (List.filter P (map g l)) = length (List.filter P l).
Proof.
  intros H. induction l as [| x l IH]; simpl; [reflexivity |].
  rewrite H. destruct (P x); simpl; now rewrite IH.
Qed.

Lemma set_column_names (data : DataFrame) (col : string) (d : dtype) (cells : list cell) :
  column_names (set_column data col d cells) = column_names data.
Proof.
  unfold set_column.
  destruct (index_of col (column_names data)) as [i |] eqn:Ei; [| reflexivity].
  unfold column_names at 1. cbn [columns]. rewrite map_set_nth. cbn [fst].
  apply set_nth_same. now apply index_of_nth_error.
Qed.

Lemma set_column_preserves_groups (data : DataFrame) (col : string) (d : dtype)
    (code : list cell -> cell) (k : nat) (c : cell) :
  col <> "location_key" ->
  index_of "location_key" (column_names data) = Some k ->
  length (rows_at k c (rows (set_column data col d (map code (rows data)))))
  = length (rows_at k c (rows data)).
Proof.
  intros Hne Hk. unfold set_column.
  destruct (index_of col (column_names data)) as [i |] eqn:Ei; [| reflexivity].
  cbn [rows]. rewrite combine_map_r, map_map. cbn [fst snd].
  apply length_filter_map. intros row.
  rewrite nth_set_nth_other; [reflexivity |].
  intros ->. apply index_of_nth_error in Ei, Hk. congruence.
Qed.

Lemma encode_column_names (sd : self_t * DataFrame) (col : string) :
  column_names (snd (encode_column sd col)) = column_names (snd sd).
Proof.
  destruct sd as [self data]. unfold encode_column.
  destruct (label_encoders self !! col); [reflexivity |].
  destruct (column_values data col); [| reflexivity].
  cbn [snd]. apply set_column_names.
Qed.

Lemma encode_column_preserves_groups (sd : self_t * DataFrame) (col : string)
    (k : nat) (c : cell) :
  col <> "location_key" ->
  index_of "location_key" (column_names (snd sd)) = Some k ->
  length (rows_at k c (rows (snd (encode_column sd col))))
  = length (rows_at k c (rows (snd sd))).
Proof.
  intros Hne Hk. destruct sd as [self data]. unfold encode_column. cbn [snd] in *.
  destruct (label_encoders self !! col); [reflexivity |].
  unfold column_values.
  destruct (index_of col (column_names data)) as [i |]; [| reflexivity].
  cbn [snd]. rewrite !map_map.
  now apply (set_column_preserves_groups data col Number
               (fun row => CNum (inject_Z (Z.of_nat
                  (default O (Sk.index_in (str_of_cell (nth i row CNaN))
                                (Sk.le_classes_
                                   (Sk.label_fit
                                      (map (fun x => str_of_cell (nth i x CNaN))
                                           (rows data)))))))))).
Qed.

Lemma fold_encode_column_names (cols : list string) (sd : self_t * DataFrame) :
  column_names (snd (fold_left encode_column cols sd)) = column_names (snd sd).
Proof.
  revert sd. induction cols as [| col cols IH]; intros sd; simpl; [reflexivity |].
  now rewrite IH, encode_column_names.
Qed.

Lemma fold_encode_column_preserves_groups (cols : list string) (sd : self_t * DataFrame)
    (k : nat) (c : cell) :
  Forall (fun col => col <> "location_key") cols ->
  index_of "location_key" (column_names (snd sd)) = Some k ->
  length (rows_at k c (rows (snd (fold_left encode_column cols sd))))
  = length (rows_at k c (rows (snd sd))).
Proof.
  intros Hcols. revert sd.
  induction Hcols as [| col cols Hcol _ IH]; intros sd Hk; simpl; [reflexivity |].
  rewrite IH by now rewrite encode_column_names.
  now apply encode_column_preserves_groups.
Qed.

Lemma categorical_cols_not_location_key (cols : list (string * dtype)) :
  Forall (fun col => col <> "location_key")
    (select_dtypes Object
       (List.filter
          (fun c => has_column (classification_feature_cols (map fst cols)) (fst c)) cols)).
Proof.
  unfold select_dtypes. apply List.Forall_map. apply List.Forall_forall.
  intros [n d] H. apply filter_In in H. destruct H as [H _].
  apply filter_In in H. destruct H as [_ H]. cbn [fst] in *.
  apply has_column_In in H. unfold classification_feature_cols in H.
  apply filter_In in H. destruct H as [_ H].
  intros ->. discriminate H.
Qed.

(** The frame the classifier's training hands on is the one its
    preparation left: the loaded table with its categorical feature
    columns encoded. *)
Lemma train_issue_classifier_frame (self : self_t) (data : DataFrame) :
  snd (fst (train_issue_classifier self data))
  = snd (fold_left encode_column
           (select_dtypes Object
              (List.filter
                 (fun c => has_column (classification_feature_cols (column_names data)) (fst c))
                 (columns data)))
           (self, data)).
Proof.
  unfold train_issue_classifier, _prepare_classification_data.
  destruct (fold_left encode_column _ (self, data)) as [self' data'].
  destruct (column_values data' "category"); cbn [Py.bind fst snd];
    [| reflexivity].
  match goal with
  | |- context [Sk.fit_classifier ?X ?y] =>
      destruct (Sk.fit_classifier X y) as [[[c sc] acc] | e]
  end; reflexivity.
Qed.

(** It has the location groups of the loaded table. *)
Lemma train_issue_classifier_preserves_groups (self : self_t) (data : DataFrame) :
  no_group_reaches_window data ->
  no_group_reaches_window (snd (fst (train_issue_classifier self data))).
Proof.
  intros H k c. rewrite train_issue_classifier_frame.
  rewrite fold_encode_column_names. cbn [snd]. intros Hk.
  rewrite fold_encode_column_preserves_groups.
  - now apply H.
  - apply categorical_cols_not_location_key.
  - exact Hk.
Qed.

Lemma train_issue_classifier_stores (self : self_t) (data : DataFrame) :
  stores "issue_classifier" self
    (fst (fst (train_issue_classifier self data)))
    (snd (train_issue_classifier self data)).
Proof.
  unfold train_issue_classifier, _prepare_classification_data, stores.
  match goal with
  | |- context [fold_left encode_column ?cols ?sd] =>
      pose proof (fold_encode_column_models cols sd) as Hm;
      destruct (fold_left encode_column cols sd) as [self' data']
  end.
  cbn [fst] in Hm.
  destruct (column_values data' "category") as [y | e]; cbn [Py.bind fst snd].
  - match goal with
    | |- context [Sk.fit_classifier ?X ?y] =>
        destruct (Sk.fit_classifier X y) as [[[c sc] acc] | e]
    end; cbn [fst snd models set_models set_scalers set_model_metrics set_feature_columns];
      now rewrite Hm.
  - exact Hm.
Qed.

Lemma train_risk_regressor_stores (self : self_t) (data : DataFrame) :
  stores "risk_regressor" self
    (fst (train_risk_regressor self data)) (snd (train_risk_regressor self data)).
Proof.
  unfold train_risk_regressor, stores.
  match goal with
  | |- context [match ?m with Ret _ => _ | Raise _ => _ end] =>
      destruct m as [[r rmse] | e]
  end; reflexivity.
Qed.

Lemma train_anomaly_detector_stores (self : self_t) (data : DataFrame) :
  stores "anomaly_detector" self
    (fst (train_anomaly_detector self data)) (snd (train_anomaly_detector self data)).
Proof.
  unfold train_anomaly_detector, stores.
  destruct (Sk.fit_isolation_forest (_prepare_anomaly_data data)); reflexivity.
Qed.

(** C7.  When no location group reaches the window length 8 (sequence
    length 7 plus 1), the forecaster's training returns [None] without
    raising and leaves the store untouched; the training task goes on,
    and each of the other three variants is recorded with the outcome of
    its own training and is in the service's model store exactly when
    that training returned a model.  The service's model store has no
    [time_series] entry; the registry of [main.py], however, does hold
    one: the [None] that the failed training returned, with a
    last-updated time, and the status report calls it "trained". *)
Theorem failed_forecaster_is_recorded :
  forall (data : DataFrame) (clock : nat -> Z),
    no_group_reaches_window data ->
    let st := Main.train_models_task Main.initial data clock in
    (forall self, train_time_series_model self data = (self, None)) /\
    models (Main.ml_models st) !! "time_series" = None /\
    (forall name,
        In name ["issue_classifier"; "risk_regressor"; "anomaly_detector"] ->
        exists outcome,
          Main.trained_models st !! name = Some outcome /\
          models (Main.ml_models st) !! name = outcome) /\
    Main.trained_models st !! "time_series" = Some None /\
    Main.model_last_updated st !! "time_series" = Some (clock 2%nat) /\
    Main.model_status st "time_series" = "trained".
Proof.
  intros data clock H st.
  split; [intros self; now apply train_time_series_model_insufficient |].
  subst st. unfold Main.train_models_task, Main.record, Main.model_status.
  cbn [Main.ml_models Main.trained_models Main.model_last_updated Main.initial].
  pose proof (train_issue_classifier_stores __init__ data) as H1.
  pose proof (train_issue_classifier_preserves_groups __init__ data H) as Hg.
  destruct (train_issue_classifier __init__ data) as [[self1 data1] m1].
  cbn [fst snd] in H1, Hg.
  pose proof (train_risk_regressor_stores self1 data1) as H2.
  destruct (train_risk_regressor self1 data1) as [self2 m2]. cbn [fst snd] in H2.
  rewrite (train_time_series_model_insufficient self2 data1 Hg).
  pose proof (train_anomaly_detector_stores self2 data1) as H4.
  destruct (train_anomaly_detector self2 data1) as [self4 m4]. cbn [fst snd] in H4.
  cbn [Main.ml_models Main.trained_models Main.model_last_updated].
  unfold stores in *. cbn [models __init__] in H1.
  assert (Hm : forall name,
             models self4 !! name
             = if String.eqb name "anomaly_detector" then m4
               else if String.eqb name "risk_regressor" then m2
               else if String.eqb name "issue_classifier" then m1
               else None).
  { intros name. rewrite H4.
    destruct (String.eqb_spec name "anomaly_detector") as [-> | Ha].
    - destruct m4; [apply lookup_insert_eq |].
      rewrite H2. destruct m2; [rewrite lookup_insert_ne by discriminate |];
        rewrite H1; destruct m1; rewrite ?lookup_insert_ne by discriminate;
        apply lookup_empty.
    - assert (E4 : match m4 with
                   | Some m => <["anomaly_detector" := m]> (models self2)
                   | None => models self2
                   end !! name = models self2 !! name)
        by (destruct m4; [apply lookup_insert_ne; congruence | reflexivity]).
      rewrite E4, H2.
      destruct (String.eqb_spec name "risk_regressor") as [-> | Hr].
      + destruct m2; [apply lookup_insert_eq |].
        rewrite H1. destruct m1; rewrite ?lookup_insert_ne by discriminate;
          apply lookup_empty.
      + assert (E2 : match m2 with
                     | Some m => <["risk_regressor" := m]> (models self1)
                     | None => models self1
                     end !! name = models self1 !! name)
          by (destruct m2; [apply lookup_insert_ne; congruence | reflexivity]).
        rewrite E2, H1.
        destruct (String.eqb_spec name "issue_classifier") as [-> | Hi].
        * destruct m1; [apply lookup_insert_eq | apply lookup_empty].
        * destruct m1; [rewrite lookup_insert_ne by congruence |]; apply lookup_empty. }
  split; [rewrite Hm; reflexivity |].
  split.
  { intros name [<- | [<- | [<- | []]]]; eexists; split;
      try (rewrite Hm; reflexivity);
      rewrite ?lookup_insert_eq;
      repeat (rewrite lookup_insert_ne by discriminate; rewrite ?lookup_insert_eq);
      reflexivity. }
  split; [rewrite lookup_insert_ne by discriminate; apply lookup_insert_eq |].
  split; [rewrite lookup_insert_ne by discriminate; apply lookup_insert_eq |].
  rewrite lookup_insert_ne by discriminate. rewrite lookup_insert_eq. reflexivity.
Qed.

End Training.

(** A table of three observations at two locations. *)
Definition three_observations : DataFrame :=
  mkDataFrame
    [ ("date", Datetime); ("location_key", Object); ("category", Object);
      ("priority", Object); ("precipitation", Number); ("risk_score", Number) ]
    [ [CDate 1; CStr "23.34_85.31"; CStr "Water Supply"; CStr "high"; CNum 25; CNum 0.5];
      [CDate 2; CStr "23.34_85.31"; CStr "Other"; CStr "low"; CNum 0; CNum 0.2];
      [CDate 3; CStr "23.40_85.35"; CStr "Other"; CStr "urgent"; CNum 3; CNum 0.3] ].

(** Training on the three observations with learners that always
    succeed: the forecaster has no window of eight rows. *)
Lemma failed_forecaster_is_recorded_witness :
  let st := Main.train_models_task (env := Concrete.rational_env)
              (learners := Concrete.learners) Main.initial three_observations
              (fun i => Z.of_nat i) in
  no_group_reaches_window three_observations /\
  Main.trained_models st !! "time_series" = Some None /\
  Main.model_status st "time_series" = "trained" /\
  PredictiveModels.models (Main.ml_models st) !! "time_series" = None /\
  is_Some (PredictiveModels.models (Main.ml_models st) !! "issue_classifier") /\
  is_Some (PredictiveModels.models (Main.ml_models st) !! "risk_regressor") /\
  is_Some (PredictiveModels.models (Main.ml_models st) !! "anomaly_detector").
Proof.
  intros st.
  assert (H : no_group_reaches_window three_observations).
  { intros k c _. unfold rows_at.
    eapply Nat.le_lt_trans; [apply filter_length_le |]. simpl. lia. }
  destruct (failed_forecaster_is_recorded (env := Concrete.rational_env)
              (learners := Concrete.learners) three_observations
              (fun i => Z.of_nat i) H)
    as (_ & Hstore & _ & Hreg & _ & Hstatus).
  split; [exact H |].
  split; [exact Hreg |]. split; [exact Hstatus |]. split; [exact Hstore |].
  repeat split; vm_compute; eauto.
Defined.

(* ================================================================== *)
(** * The ranking of the classifier's categories *)
(* ================================================================== *)

Section Ranking.
Context {env : NumericEnv}.

Import PredictiveModels.

(** A list in descending order of probability: no item is followed,
    anywhere later, by a more probable one. *)
Fixpoint descending (l : list Prediction.t) : Prop :=
  match l with
  | [] => True
  | x :: l' =>
      Forall (fun y => Prediction.probability y <= Prediction.probability x) l'
      /\ descending l'
  end.

(** The shape of an item built from one class probability. *)
Definition category_shaped (p : Prediction.t) : Prop :=
  0.1 < Prediction.probability p /\
  Prediction.confidence p = Prediction.probability p /\
  Prediction.risk_score p = Prediction.probability p * 0.8 /\
  Prediction.timeframe p = "7_days".

Lemma insert_desc_descending (x : Prediction.t) (l : list Prediction.t) :
  descending l -> descending (insert_desc x l).
Proof.
  induction l as [| y l IH]; simpl; intros H.
  - split; constructor.
  - destruct H as [Hy Hl].
    destruct (Qgtb_spec (Prediction.probability y) (Prediction.probability x)) as [Hgt | Hle].
    + simpl. split; [| auto].
      apply insert_desc_Forall; [apply Qlt_le_weak; exact Hgt | exact Hy].
    + simpl. apply Qnot_lt_le in Hle. split; [| split; assumption].
      constructor; [exact Hle |].
      eapply List.Forall_impl; [| exact Hy].
      intros z Hz. cbv beta in Hz. eapply Qle_trans; [exact Hz | exact Hle].
Qed.

Lemma sorted_by_probability_desc_descending (l : list Prediction.t) :
  descending (sorted_by_probability_desc l).
Proof.
  induction l as [| x l IH]; simpl; [exact I |].
  apply insert_desc_descending. exact IH.
Qed.

Lemma firstn_descending (n : nat) (l : list Prediction.t) :
  descending l -> descending (firstn n l).
Proof.
  revert l. induction n as [| n IH]; intros [| x l]; simpl; try tauto.
  intros [Hx Hl]. split; [apply firstn_Forall; exact Hx | apply IH; exact Hl].
Qed.

Lemma category_items_shaped (classes : list string) (probabilities : list Q) :
  forall (i : nat) (l : list Prediction.t),
    category_items classes i probabilities = Ret l -> Forall category_shaped l.
Proof.
  induction probabilities as [| prob rest IH]; simpl; intros i l H.
  - injection H as <-. constructor.
  - unfold category_item in H.
    destruct (Qgtb_spec prob 0.1) as [Hgt | Hle].
    + destruct (nth_error classes i) as [c |]; [| discriminate H].
      simpl in H.
      destruct (category_items classes (S i) rest) as [items |] eqn:E; [| discriminate H].
      simpl in H. injection H as <-.
      constructor; [| eapply IH; exact E].
      unfold category_shaped. simpl. auto.
    + simpl in H.
      destruct (category_items classes (S i) rest) as [items |] eqn:E; [| discriminate H].
      simpl in H. injection H as <-. eapply IH; exact E.
Qed.

(** X1.  Whatever the classifier, the scaler and the feature vector are,
    [_predict_categories] returns at most five items, in descending order
    of probability, and every item comes from a class whose probability
    exceeds 0.1: its confidence is that probability, its risk score is
    0.8 times it, and its timeframe is ["7_days"]. *)
Theorem predicted_categories_ranked :
  forall (self : self_t) (features : odict),
    let items := _predict_categories self features in
    (length items <= 5)%nat /\ descending items /\ Forall category_shaped items.
Proof.
  intros self features items. subst items. unfold _predict_categories.
  destruct (models self !! "issue_classifier") as [model |];
    [| simpl; repeat split; [lia | constructor]].
  destruct (feature_array features) as [x |];
    [| simpl; repeat split; [lia | constructor]].
  cbn [Py.bind].
  destruct (match scalers self !! "issue_classifier" with
            | Some scaler => Sk.transform scaler x
            | None => Ret x
            end) as [x' |]; [| simpl; repeat split; [lia | constructor]].
  cbn [Py.bind].
  destruct (Sk.predict_proba model x') as [probabilities |];
    [| simpl; repeat split; [lia | constructor]].
  cbn [Py.bind].
  destruct (Sk.classes model) as [classes |];
    [| simpl; repeat split; [lia | constructor]].
  cbn [Py.bind].
  destruct (category_items classes 0 probabilities) as [predictions |] eqn:E;
    [| simpl; repeat split; [lia | constructor]].
  cbn [Py.bind try_except].
  split; [apply firstn_le_length |].
  split.
  - apply firstn_descending, sorted_by_probability_desc_descending.
  - apply firstn_Forall, sorted_by_probability_desc_Forall.
    eapply category_items_shaped; exact E.
Qed.

End Ranking.

(* ================================================================== *)
(** * When [predict_issues] raises *)
(* ================================================================== *)

Section FusionErrors.
Context {env : NumericEnv}.

Import PredictiveModels.

(** A non-empty weather context whose precipitation entry (or its default)
    cannot be compared with a number. *)
Definition unreadable_precipitation (weather_data : option (gmap string value)) : Prop :=
  exists w, weather_data = Some w /\ w <> ∅ /\
            as_number (dict_get w "precipitation" (VNum 0)) = None.

Lemma truthy_dict_nonempty (w : gmap string value) :
  w <> ∅ -> truthy_dict (Some w) = true.
Proof.
  intros H. unfold truthy_dict. rewrite bool_decide_eq_false_2 by exact H. reflexivity.
Qed.

Lemma truthy_dict_true_nonempty (w : gmap string value) :
  truthy_dict (Some w) = true -> w <> ∅.
Proof.
  unfold truthy_dict. intros H E.
  rewrite bool_decide_eq_true_2 in H by exact E. discriminate H.
Qed.

Lemma fallback_raises_iff (location : Location) (weather_data : option (gmap string value)) :
  (exists e, _generate_fallback_predictions location weather_data = Raise e)
  <-> unreadable_precipitation weather_data.
Proof.
  unfold _generate_fallback_predictions, unreadable_precipitation. split.
  - intros [e H]. destruct weather_data as [w |]; [| discriminate H].
    destruct (truthy_dict (Some w)) eqn:T; [| discriminate H].
    exists w. split; [reflexivity |]. split; [apply truthy_dict_true_nonempty; exact T |].
    unfold gt in H.
    destruct (as_number (dict_get w "precipitation" (VNum 0))); [discriminate H | reflexivity].
  - intros (w & -> & Hne & Hnum).
    rewrite (truthy_dict_nonempty w Hne). unfold gt. rewrite Hnum. simpl. eauto.
Qed.

Lemma _extract_location_features_unreadable now location weather_data historical_context :
  unreadable_precipitation weather_data ->
  exists e,
    _extract_location_features now location weather_data historical_context = Raise e.
Proof.
  intros (w & -> & Hne & Hnum). unfold _extract_location_features.
  rewrite (truthy_dict_nonempty w Hne). unfold gt at 1. rewrite Hnum. simpl. eauto.
Qed.

(** X2.  [predict_issues] raises exactly when the weather context is a
    non-empty dictionary whose precipitation cannot be compared with a
    number (the fallback of the handler then raises as well).  A
    temperature that cannot be compared is absorbed: with a numeric
    precipitation the answer is the fallback list, whatever models are
    stored. *)
Theorem predict_issues_raises_iff :
  forall (self : self_t) (now : DateTime) (location : Location)
         (weather_data historical_context : option (gmap string value))
         (timeframe : string),
    ((exists e,
        predict_issues self now location weather_data historical_context timeframe
        = Raise e)
     <-> unreadable_precipitation weather_data) /\
    (forall (w : gmap string value) (p : Q),
        weather_data = Some w -> w <> ∅ ->
        as_number (dict_get w "precipitation" (VNum 0)) = Some p ->
        as_number (dict_get w "temperature" (VNum 25)) = None ->
        predict_issues self now location weather_data historical_context timeframe
        = Ret ((if Qgtb p 20 then [water_supply_fallback] else []) ++ [road_fallback])%list).
Proof.
  intros self now location weather_data historical_context timeframe. split.
  - split.
    + intros [e H]. apply (fallback_raises_iff location). unfold predict_issues in H.
      destruct (_extract_location_features now location weather_data historical_context)
        as [f | e0]; cbn [Py.bind try_except_with] in H; [| eauto].
      match type of H with
      | context [if ?c then Ret ?l else _] => destruct c
      end; [discriminate H |].
      destruct (_generate_fallback_predictions location weather_data) as [l | e1];
        [discriminate H | eauto].
    + intros Hw.
      destruct (_extract_location_features_unreadable now location weather_data
                  historical_context Hw) as [e0 E].
      unfold predict_issues. rewrite E. cbn [Py.bind try_except_with].
      apply (fallback_raises_iff location). exact Hw.
  - intros w p -> Hne Hp Ht.
    unfold predict_issues, _extract_location_features, _generate_fallback_predictions.
    rewrite (truthy_dict_nonempty w Hne). unfold gt, lt. rewrite Hp, Ht.
    cbn [Py.bind try_except_with].
    destruct (Qgtb p 20); reflexivity.
Qed.

End FusionErrors.

(* ================================================================== *)
(** * The geometry of the risk-area scan *)
(* ================================================================== *)

Section ScanGeometry.
Context {env : NumericEnv}.

Import Random PredictiveModels.

(** What one grid location contributes to the scan: one area at that
    location when its score [r] exceeds 0.6, nothing otherwise. *)
Definition area_of (P : Q -> Prop) (loc : Location) (areas : list RiskArea.t) : Prop :=
  exists r, P r /\
    ((0.6 < r /\ exists issues density,
         areas = [RiskArea.mk loc (_get_risk_level r) r issues density]) \/
     (~ 0.6 < r /\ areas = [])).

Lemma risk_area_at_cases (D : Q -> Prop) (P : Q -> Prop) (loc : Location) :
  rand_spec D (_calculate_location_risk loc) P ->
  rand_spec D (risk_area_at loc) (area_of P loc).
Proof.
  intros HP. unfold risk_area_at.
  eapply rand_spec_bind; [exact HP |].
  intros r Hr. destruct (Qgtb_spec r 0.6) as [Hgt | Hle].
  - eapply rand_spec_bind; [apply _predict_issues_for_location_spec | intros issues _].
    eapply rand_spec_bind; [apply rand_spec_uniform | intros density _].
    apply rand_spec_ret. exists r. split; [exact Hr |]. left. split; [exact Hgt |].
    exists issues, density. reflexivity.
  - apply rand_spec_ret. exists r. split; [exact Hr |]. right. split; [exact Hle | reflexivity].
Qed.

Lemma identify_risk_areas_cases (D : Q -> Prop) (P : Location -> Q -> Prop)
    (center : Location) (radius_km : Q) :
  (forall loc, In loc (_generate_location_grid center radius_km) ->
               rand_spec D (_calculate_location_risk loc) (P loc)) ->
  rand_spec D (identify_risk_areas center radius_km)
    (fun areas => exists per_location,
       areas = concat per_location /\
       Forall2 (fun loc l => area_of (P loc) loc l)
               (_generate_location_grid center radius_km) per_location).
Proof.
  intros HP. unfold identify_risk_areas.
  eapply rand_spec_bind.
  - apply rand_spec_mapR with (R := fun loc l => area_of (P loc) loc l).
    intros loc Hloc. apply risk_area_at_cases, HP, Hloc.
  - intros per_location H. apply rand_spec_ret. exists per_location. split; [reflexivity | exact H].
Qed.

Lemma areas_sublist (P : Location -> Q -> Prop) (grid : list Location)
    (per_location : list (list RiskArea.t)) :
  Forall2 (fun loc l => area_of (P loc) loc l) grid per_location ->
  sublist (map RiskArea.location (concat per_location)) grid.
Proof.
  induction 1 as [| loc l grid ls H _ IH]; simpl; [constructor |].
  destruct H as (r & _ & [(_ & issues & density & ->) | (_ & ->)]); simpl.
  - apply sublist_skip, IH.
  - apply sublist_cons, IH.
Qed.

Lemma areas_satisfy (P : Location -> Q -> Prop) (grid : list Location)
    (per_location : list (list RiskArea.t)) :
  Forall2 (fun loc l => area_of (P loc) loc l) grid per_location ->
  Forall (fun a => 0.6 < RiskArea.risk_score a /\
                   P (RiskArea.location a) (RiskArea.risk_score a) /\
                   RiskArea.risk_level a = _get_risk_level (RiskArea.risk_score a))
         (concat per_location).
Proof.
  induction 1 as [| loc l grid ls H _ IH]; simpl; [constructor |].
  destruct H as (r & Hr & [(Hgt & issues & density & ->) | (_ & ->)]); simpl.
  - constructor; [simpl; auto | exact IH].
  - exact IH.
Qed.

Lemma areas_everywhere (P : Location -> Q -> Prop) (grid : list Location)
    (per_location : list (list RiskArea.t)) :
  (forall loc r, P loc r -> 0.6 < r) ->
  Forall2 (fun loc l => area_of (P loc) loc l) grid per_location ->
  map RiskArea.location (concat per_location) = grid.
Proof.
  intros HP. induction 1 as [| loc l grid ls H _ IH]; simpl; [reflexivity |].
  destruct H as (r & Hr & [(_ & issues & density & ->) | (Hle & ->)]); simpl.
  - f_equal. exact IH.
  - exfalso. apply Hle. eapply HP. exact Hr.
Qed.

Lemma draws_in_True (s : rng) : draws_in (fun _ => True) s.
Proof. intros n. exact I. Qed.

(** X3.  The areas [identify_risk_areas] returns are located at points of
    the 5x5 grid around the center, each point reported at most once and
    in grid order (the list of their locations is a sublist of the grid);
    so at most 25 areas are returned. *)
Theorem risk_areas_follow_the_grid :
  forall (center : Location) (radius_km : Q) (s : Random.rng),
    let areas := fst (identify_risk_areas center radius_km s) in
    sublist (map RiskArea.location areas) (_generate_location_grid center radius_km) /\
    (length areas <= 25)%nat.
Proof.
  intros center radius_km s areas.
  destruct (identify_risk_areas_cases (fun _ => True) (fun _ _ => True) center radius_km)
    with (s := s) as [(per_location & E & H) _].
  - intros loc _ s0 _. split; [exact I | apply draws_in_True].
  - apply draws_in_True.
  - assert (Hsub : sublist (map RiskArea.location areas)
                     (_generate_location_grid center radius_km)).
    { subst areas. rewrite E. eapply areas_sublist. exact H. }
    split; [exact Hsub |].
    apply sublist_length in Hsub. rewrite length_map in Hsub.
    exact Hsub.
Qed.

(** The score of a location is below half its distance from the fixed
    reference point plus 0.3, and is 1 at two degrees or more. *)
Lemma _calculate_location_risk_by_distance (loc : Location) :
  rand_spec unit_draw (_calculate_location_risk loc)
    (fun r =>
       r < DataProcessor.distance_from_center (lat loc) (lng loc) * 0.5 + 0.3 /\
       (2 <= DataProcessor.distance_from_center (lat loc) (lng loc) -> r = 1)).
Proof.
  eapply rand_spec_weaken; [apply _calculate_location_risk_spec |].
  intros r (u & [Hu0 Hu1] & ->). unfold DataProcessor.distance_from_center.
  set (d := np_sqrt ((lat loc - 23.3441) ^ 2 + (lng loc - 85.3096) ^ 2)).
  split.
  - eapply Qle_lt_trans; [apply pymin_le_r |].
    pose proof (pymin_le_r 1 (d * 0.5)) as Hb.
    set (b := pymin 1 (d * 0.5)) in *. clearbody b. lra.
  - intros Hd.
    destruct (pymin_spec 1 (d * 0.5)) as [[Hlt _] | [_ ->]]; [lra |].
    destruct (pymin_spec 1 (1 + (0 + (0.3 - 0) * u))) as [[Hlt _] | [_ ->]]; [lra | reflexivity].
Qed.

(** X4.  With draws in [0, 1), every area the scan returns lies more than
    0.6 degrees from the fixed reference point (23.3441, 85.3096): the
    score is at most half that distance plus a noise below 0.3, and only
    scores above 0.6 are kept. *)
Theorem risk_areas_are_far_from_reference :
  forall (center : Location) (radius_km : Q) (s : Random.rng),
    Random.unit_draws s ->
    Forall
      (fun a =>
         0.6 < DataProcessor.distance_from_center
                 (lat (RiskArea.location a)) (lng (RiskArea.location a)))
      (fst (identify_risk_areas center radius_km s)).
Proof.
  intros center radius_km s Hs.
  destruct (identify_risk_areas_cases unit_draw
              (fun loc r =>
                 r < DataProcessor.distance_from_center (lat loc) (lng loc) * 0.5 + 0.3 /\
                 (2 <= DataProcessor.distance_from_center (lat loc) (lng loc) -> r = 1))
              center radius_km)
    with (s := s) as [(per_location & E & H) _].
  - intros loc _. apply _calculate_location_risk_by_distance.
  - apply unit_draws_draws_in. exact Hs.
  - rewrite E. eapply List.Forall_impl; [| eapply areas_satisfy; exact H].
    intros a (Hgt & [Hlt _] & _). cbv beta in Hlt. lra.
Qed.

(** X5.  With draws in [0, 1), when every point of the grid is at least
    two degrees from the reference point, the scan returns one area per
    grid point, in grid order, each with risk score 1 and level
    "critical". *)
Theorem distant_grid_is_all_critical :
  forall (center : Location) (radius_km : Q) (s : Random.rng),
    Random.unit_draws s ->
    (forall loc, In loc (_generate_location_grid center radius_km) ->
                 2 <= DataProcessor.distance_from_center (lat loc) (lng loc)) ->
    let areas := fst (identify_risk_areas center radius_km s) in
    map RiskArea.location areas = _generate_location_grid center radius_km /\
    Forall (fun a => RiskArea.risk_score a = 1 /\ RiskArea.risk_level a = "critical") areas.
Proof.
  intros center radius_km s Hs Hfar areas.
  destruct (identify_risk_areas_cases unit_draw (fun _ r => r = 1) center radius_km)
    with (s := s) as [(per_location & E & H) _].
  - intros loc Hloc. eapply rand_spec_weaken; [apply _calculate_location_risk_by_distance |].
    intros r [_ Hr]. apply Hr, Hfar, Hloc.
  - apply unit_draws_draws_in. exact Hs.
  - subst areas. rewrite E. split.
    + eapply areas_everywhere; [| exact H]. intros loc r ->. reflexivity.
    + eapply List.Forall_impl; [| eapply areas_satisfy; exact H].
      intros a (_ & Hr & Hl). cbv beta in Hr. rewrite Hl, Hr. split; reflexivity.
Qed.

End ScanGeometry.

(** The scan around [far_location], about 1.66 degrees from the reference
    point, with every draw one half. *)
Lemma risk_areas_are_far_from_reference_witness :
  Random.unit_draws Concrete.half_draws /\
  fst (PredictiveModels.identify_risk_areas (env := Concrete.rational_env)
         far_location 10 Concrete.half_draws) <> [] /\
  Forall
    (fun a =>
       0.6 < DataProcessor.distance_from_center (env := Concrete.rational_env)
               (lat (RiskArea.location a)) (lng (RiskArea.location a)))
    (fst (PredictiveModels.identify_risk_areas (env := Concrete.rational_env)
            far_location 10 Concrete.half_draws)).
Proof.
  assert (Hs : Random.unit_draws Concrete.half_draws).
  { intros n. split; [discriminate | reflexivity]. }
  split; [exact Hs |]. split; [vm_compute; discriminate |].
  exact (risk_areas_are_far_from_reference (env := Concrete.rational_env)
           far_location 10 Concrete.half_draws Hs).
Defined.

(** A center more than three degrees from the reference point. *)
Definition distant_location : Location := mkLocation 26 88.

Lemma distant_grid_is_all_critical_witness :
  let areas :=
    fst (PredictiveModels.identify_risk_areas (env := Concrete.rational_env)
           distant_location 10 Concrete.half_draws) in
  Random.unit_draws Concrete.half_draws /\
  length areas = 25%nat /\
  Forall (fun a => RiskArea.risk_score a = 1 /\ RiskArea.risk_level a = "critical") areas.
Proof.
  intros areas.
  assert (Hs : Random.unit_draws Concrete.half_draws).
  { intros n. split; [discriminate | reflexivity]. }
  assert (Hfar : forall loc,
             In loc (PredictiveModels._generate_location_grid (env := Concrete.rational_env)
                       distant_location 10) ->
             2 <= DataProcessor.distance_from_center (env := Concrete.rational_env)
                    (lat loc) (lng loc)).
  { intros loc Hloc. apply Qle_bool_iff. revert loc Hloc.
    apply forallb_forall. vm_compute. reflexivity. }
  destruct (distant_grid_is_all_critical (env := Concrete.rational_env)
              distant_location 10 Concrete.half_draws Hs Hfar) as [Hloc Hall].
  split; [exact Hs |]. split; [| exact Hall].
  subst areas. rewrite <- (length_map RiskArea.location), Hloc. reflexivity.
Defined.

(* ================================================================== *)
(** * The answer of [/predict] *)
(* ================================================================== *)

Section PredictAnswer.
Context {env : NumericEnv}.

Import PredictiveModels.

Lemma np_sum_above (c : Q) (l : list Q) :
  Forall (fun x => c < x) l -> c * inject_Z (Z.of_nat (length l)) <= np_sum l.
Proof.
  induction 1 as [| x l Hx _ IH].
  - cbv [length Z.of_nat inject_Z np_sum]. lra.
  - rewrite inject_length_cons. simpl np_sum.
    set (n := inject_Z (Z.of_nat (length l))) in *. clearbody n. lra.
Qed.

Lemma np_mean_above (c : Q) (l : list Q) :
  l <> [] -> Forall (fun x => c < x) l -> c < np_mean l.
Proof.
  intros Hne H. destruct l as [| x l]; [congruence |]. clear Hne.
  unfold np_mean. apply Qlt_shift_div_l; [apply inject_length_pos |].
  inversion H as [| ? ? Hx Hl]; subst.
  pose proof (np_sum_above c l Hl) as Hsum.
  rewrite inject_length_cons. simpl np_sum.
  set (n := inject_Z (Z.of_nat (length l))) in *. clearbody n. lra.
Qed.

Lemma overall_risk_with_areas (predictions : list Prediction.t) (risk_areas : list RiskArea.t) :
  risk_areas <> [] ->
  Forall (fun a => 0.6 < RiskArea.risk_score a) risk_areas ->
  0.3 < calculate_overall_risk predictions risk_areas.
Proof.
  intros Hne H.
  assert (HA : 0.6 < np_mean (map RiskArea.risk_score risk_areas)).
  { apply np_mean_above.
    - destruct risk_areas; [congruence | discriminate].
    - apply Forall_map. exact H. }
  unfold calculate_overall_risk.
  destruct risk_areas as [| a risk_areas]; [congruence |].
  cbn [truthy_list negb andb]. rewrite andb_false_r.
  set (A := np_mean (map RiskArea.risk_score (a :: risk_areas))) in *. clearbody A.
  set (P := if truthy_list predictions then _ else 0). clearbody P.
  destruct (Qgtb_spec P 0) as [HP | HP]; destruct (Qgtb_spec A 0) as [HA0 | HA0];
    cbn [andb]; try lra.
  - destruct (pymin_spec 1 ((P + A) / 2)) as [[_ ->] | [_ ->]]; [| lra].
    rewrite Qdiv2. lra.
  - pose proof (pymax_ge_r P A) as Hmax.
    destruct (pymin_spec 1 (pymax P A)) as [[_ ->] | [_ ->]]; lra.
Qed.

(** X6.  Whenever the answer of [/predict] lists at least one risk area,
    its overall risk exceeds 0.3 (and is at most 1), whatever the
    predictions are: every listed area scores above 0.6, and the overall
    risk is at least half the areas' mean. *)
Theorem predict_overall_risk_with_areas :
  forall (st : Main.state) (now : DateTime) (location : Location)
         (weather_data historical_context : option (gmap string value))
         (timeframe : string) (s : Random.rng)
         (predictions : list Prediction.t) (risk_areas : list RiskArea.t) (overall : Q),
    fst (Main.predict st now location weather_data historical_context timeframe s)
      = Ret (predictions, risk_areas, overall) ->
    risk_areas <> [] ->
    0.3 < overall /\ overall <= 1.
Proof.
  intros st now location weather_data historical_context timeframe s
         predictions risk_areas overall E Hne.
  unfold Main.predict in E.
  destruct (predict_issues (Main.ml_models st) now location weather_data
              historical_context timeframe) as [preds | e]; [| discriminate E].
  unfold Random.bind, Random.ret in E.
  pose proof (identify_risk_areas_spec (fun _ => True) (fun _ => True) location 10
                ltac:(intros loc s0 _; split; [exact I | apply draws_in_True])
                s (draws_in_True s)) as [Hareas _].
  destruct (identify_risk_areas location 10 s) as [areas s']. simpl in E, Hareas.
  injection E as -> -> <-.
  split.
  - apply overall_risk_with_areas; [exact Hne |].
    eapply List.Forall_impl; [| exact Hareas]. intros a [[Hgt _] _]. exact Hgt.
  - unfold calculate_overall_risk.
    match goal with
    | |- (if ?c then _ else _) <= _ => destruct c; [lra | apply pymin_le_l]
    end.
Qed.

End PredictAnswer.

Lemma predict_overall_risk_with_areas_witness :
  exists predictions risk_areas overall,
    fst (Main.predict (env := Concrete.rational_env) Main.initial Concrete.test_now
           far_location None None "7_days" Concrete.half_draws)
      = Ret (predictions, risk_areas, overall) /\
    risk_areas <> [] /\
    0.3 < overall /\ overall <= 1.
Proof.
  destruct (fst (Main.predict (env := Concrete.rational_env) Main.initial Concrete.test_now
                   far_location None None "7_days" Concrete.half_draws))
    as [[[predictions risk_areas] overall] | e] eqn:E; [| vm_compute in E; discriminate E].
  exists predictions, risk_areas, overall. split; [reflexivity |].
  assert (Hne : risk_areas <> []).
  { vm_compute in E. injection E as _ <- _. discriminate. }
  split; [exact Hne |].
  exact (predict_overall_risk_with_areas (env := Concrete.rational_env) Main.initial
           Concrete.test_now far_location None None "7_days" Concrete.half_draws
           predictions risk_areas overall E Hne).
Defined.

(* ================================================================== *)
(** * Recommended actions *)
(* ================================================================== *)

Section Actions.
Context {env : NumericEnv}.

Import PredictiveModels.

Lemma risk_actions_cases (s : Q) :
  (_get_risk_level s = "critical" /\
   _get_risk_actions s
   = ["Immediate action required"; "Deploy emergency resources"; "Public alert"]) \/
  (_get_risk_level s = "high" /\
   _get_risk_actions s
   = ["High priority monitoring"; "Prepare response team"; "Preventive measures"]) \/
  (_get_risk_level s = "medium" /\
   _get_risk_actions s
   = ["Regular monitoring"; "Schedule inspections"; "Maintenance planning"]) \/
  (_get_risk_level s = "low" /\
   _get_risk_actions s = ["Routine monitoring"; "Standard procedures"]).
Proof.
  unfold _get_risk_level, _get_risk_actions.
  destruct (Qgeb s 0.8); [auto |].
  destruct (Qgeb s 0.6); [auto |].
  destruct (Qgeb s 0.4); auto 6.
Qed.

(** The shape of the item built from the regressor's output. *)
Definition regression_shaped (p : Prediction.t) : Prop :=
  Prediction.category p = "Overall Risk" /\
  Prediction.probability p = Prediction.risk_score p /\
  Prediction.confidence p = 0.7 /\
  Prediction.recommended_actions p = _get_risk_actions (Prediction.risk_score p).

(** X7.  The action lists of [_get_risk_actions] switch at the thresholds
    of [_get_risk_level]: a score gets the "immediate action" list exactly
    when its level is critical, the "high priority" list exactly when
    high, the "regular monitoring" list exactly when medium and the
    "routine" list exactly when low.  [_predict_risk_scores] returns at
    most one item, named "Overall Risk", whose probability is its risk
    score, whose confidence is 0.7 and whose actions are those of that
    score. *)
Theorem risk_actions_follow_risk_level :
  forall s : Q,
    (_get_risk_level s = "critical" <->
     _get_risk_actions s
     = ["Immediate action required"; "Deploy emergency resources"; "Public alert"]) /\
    (_get_risk_level s = "high" <->
     _get_risk_actions s
     = ["High priority monitoring"; "Prepare response team"; "Preventive measures"]) /\
    (_get_risk_level s = "medium" <->
     _get_risk_actions s
     = ["Regular monitoring"; "Schedule inspections"; "Maintenance planning"]) /\
    (_get_risk_level s = "low" <->
     _get_risk_actions s = ["Routine monitoring"; "Standard procedures"]) /\
    (forall (self : self_t) (features : odict),
        (length (_predict_risk_scores self features) <= 1)%nat /\
        Forall regression_shaped (_predict_risk_scores self features)).
Proof.
  intros s.
  destruct (risk_actions_cases s) as [[L A] | [[L A] | [[L A] | [L A]]]];
    rewrite L, A;
    (split; [split; intros H; (reflexivity || discriminate H) |]);
    (split; [split; intros H; (reflexivity || discriminate H) |]);
    (split; [split; intros H; (reflexivity || discriminate H) |]);
    (split; [split; intros H; (reflexivity || discriminate H) |]);
    intros self features; unfold _predict_risk_scores;
    (destruct (models self !! "risk_regressor") as [model |];
       [| split; [simpl; lia | constructor]]);
    (destruct (feature_array features) as [x |];
       [| split; [simpl; lia | constructor]]);
    cbn [Py.bind];
    (destruct (Sk.predict model x) as [r |];
       [| split; [simpl; lia | constructor]]);
    cbn [Py.bind try_except];
    (split; [simpl; lia |]);
    (constructor; [| constructor]);
    unfold regression_shaped; simpl; auto.
Qed.

(** X8.  [_get_recommended_actions] has an entry of its own for a category
    exactly when the category is one of the training pipeline's
    categories other than "Other"; for "Other" and for any label outside
    the enumeration it answers the two default actions, without an
    error. *)
Theorem recommended_actions_cover_categories :
  forall category : string,
    (In category DataProcessor.categories /\ category <> "Other")
    <-> _get_recommended_actions category <> ["Monitor situation"; "Prepare response plan"].
Proof.
  intros category. unfold _get_recommended_actions. split.
  - intros [Hin Hne]. simpl in Hin.
    repeat (destruct Hin as [<- | Hin]; [try (vm_compute; discriminate); congruence |]).
    destruct Hin.
  - intros H.
    destruct (action_map !! category) as [v |] eqn:E; [| simpl in H; congruence].
    apply elem_of_list_to_map_2 in E.
    repeat (apply elem_of_cons in E; destruct E as [E | E];
            [injection E as -> _; split; [simpl; tauto | discriminate] |]).
    apply elem_of_nil in E. destruct E.
Qed.

End Actions.

(* ================================================================== *)
(** * Calendar features of the training pipeline *)
(* ================================================================== *)

Section Calendar.

Lemma Z_in_iff (x : Z) (l : list Z) : DataProcessor.Z_in x l = true <-> In x l.
Proof.
  unfold DataProcessor.Z_in. rewrite existsb_exists. split.
  - intros [y [Hy E]]. apply Z.eqb_eq in E. subst. exact Hy.
  - intros H. exists x. split; [exact H | apply Z.eqb_refl].
Qed.

(** X9.  The calendar features of the training pipeline partition their
    whole input range: [_get_time_of_day] answers Morning on hours 5..11,
    Afternoon on 12..16, Evening on 17..20 and Night on every other
    integer (also outside 0..23); [_get_season] answers Fall on every
    integer that is not one of the nine listed months; the weekend flag is
    1 exactly on days 5 and 6. *)
Theorem calendar_features_partition :
  forall x : Z,
    (DataProcessor._get_time_of_day x = "Morning" <-> (5 <= x < 12)%Z) /\
    (DataProcessor._get_time_of_day x = "Afternoon" <-> (12 <= x < 17)%Z) /\
    (DataProcessor._get_time_of_day x = "Evening" <-> (17 <= x < 21)%Z) /\
    (DataProcessor._get_time_of_day x = "Night" <-> (x < 5 \/ 21 <= x)%Z) /\
    (DataProcessor._get_season x = "Winter" <-> In x [12; 1; 2]%Z) /\
    (DataProcessor._get_season x = "Spring" <-> In x [3; 4; 5]%Z) /\
    (DataProcessor._get_season x = "Summer" <-> In x [6; 7; 8]%Z) /\
    (DataProcessor._get_season x = "Fall" <-> ~ In x [12; 1; 2; 3; 4; 5; 6; 7; 8]%Z) /\
    (DataProcessor.is_weekend x = 1%Z <-> In x [5; 6]%Z) /\
    (DataProcessor.is_weekend x = 0%Z <-> ~ In x [5; 6]%Z).
Proof.
  intros x.
  assert (Htod :
    (DataProcessor._get_time_of_day x = "Morning" <-> (5 <= x < 12)%Z) /\
    (DataProcessor._get_time_of_day x = "Afternoon" <-> (12 <= x < 17)%Z) /\
    (DataProcessor._get_time_of_day x = "Evening" <-> (17 <= x < 21)%Z) /\
    (DataProcessor._get_time_of_day x = "Night" <-> (x < 5 \/ 21 <= x)%Z)).
  { unfold DataProcessor._get_time_of_day.
    destruct (Z.leb_spec 5 x), (Z.ltb_spec x 12), (Z.leb_spec 12 x), (Z.ltb_spec x 17),
             (Z.leb_spec 17 x), (Z.ltb_spec x 21); cbn [andb];
      repeat split; intros; try discriminate; try reflexivity; try lia. }
  assert (Hseason :
    (DataProcessor._get_season x = "Winter" <-> In x [12; 1; 2]%Z) /\
    (DataProcessor._get_season x = "Spring" <-> In x [3; 4; 5]%Z) /\
    (DataProcessor._get_season x = "Summer" <-> In x [6; 7; 8]%Z) /\
    (DataProcessor._get_season x = "Fall" <-> ~ In x [12; 1; 2; 3; 4; 5; 6; 7; 8]%Z)).
  { unfold DataProcessor._get_season.
    destruct (DataProcessor.Z_in x [12; 1; 2]%Z) eqn:E1;
      [apply Z_in_iff in E1 | apply not_true_iff_false in E1; rewrite Z_in_iff in E1];
    [| destruct (DataProcessor.Z_in x [3; 4; 5]%Z) eqn:E2;
         [apply Z_in_iff in E2 | apply not_true_iff_false in E2; rewrite Z_in_iff in E2];
       [| destruct (DataProcessor.Z_in x [6; 7; 8]%Z) eqn:E3;
            [apply Z_in_iff in E3
            | apply not_true_iff_false in E3; rewrite Z_in_iff in E3]]];
      simpl in *; repeat split; intros; try discriminate; try reflexivity;
        try tauto; try lia. }
  assert (Hweekend :
    (DataProcessor.is_weekend x = 1%Z <-> In x [5; 6]%Z) /\
    (DataProcessor.is_weekend x = 0%Z <-> ~ In x [5; 6]%Z)).
  { unfold DataProcessor.is_weekend.
    destruct (DataProcessor.Z_in x [5; 6]%Z) eqn:E;
      [apply Z_in_iff in E | apply not_true_iff_false in E; rewrite Z_in_iff in E];
      repeat split; intros; try discriminate; try reflexivity; tauto. }
  tauto.
Qed.

End Calendar.

(* ================================================================== *)
(** * The windows of the forecaster's training data *)
(* ================================================================== *)

Section TimeSeriesWindows.
Context {env : NumericEnv} {learners : Sk.Learners}.

Import PredictiveModels.

Lemma mapM_Ret_Forall2 {A B} (g : A -> py B) (R : A -> B -> Prop) (l : list A) :
  forall l' : list B,
    mapM g l = Ret l' ->
    (forall x y, In x l -> g x = Ret y -> R x y) ->
    Forall2 R l l'.
Proof.
  induction l as [| x l IH]; simpl; intros l' E H.
  - injection E as <-. constructor.
  - destruct (g x) as [y |] eqn:Ex; [| discriminate E].
    destruct (mapM g l) as [ys |] eqn:El; [| discriminate E].
    injection E as <-. constructor; [apply H; auto |].
    apply IH; [reflexivity |]. intros x' y' Hin. apply H. auto.
Qed.

Lemma mapM_returns {A B} (g : A -> py B) (l : list A) :
  (forall x, In x l -> exists y, g x = Ret y) -> exists l', mapM g l = Ret l'.
Proof.
  induction l as [| x l IH]; simpl; intros H; [eauto |].
  destruct (H x (or_introl eq_refl)) as [y ->].
  destruct IH as [l' ->]; [intros; apply H; auto |].
  simpl. eauto.
Qed.

Lemma has_column_false_index_of (names : list string) (n : string) :
  has_column names n = false -> index_of n names = None.
Proof.
  unfold has_column. induction names as [| m names IH]; simpl; [reflexivity |].
  intros H. apply orb_false_iff in H. destruct H as [Hm Hrest].
  rewrite String.eqb_sym, Hm. rewrite IH by exact Hrest. reflexivity.
Qed.

Lemma index_of_Some_has_column (names : list string) (n : string) (i : nat) :
  index_of n names = Some i -> has_column names n = true.
Proof.
  intros H. destruct (has_column names n) eqn:E; [reflexivity |].
  rewrite (has_column_false_index_of names n E) in H. discriminate H.
Qed.

(** Without a [risk_score] column the first window of a group raises. *)
Lemma group_sequences_without_target names numeric_cols date_index
    (group : list (list cell)) (l : list (list (list Q) * Q)) :
  index_of "risk_score" names = None ->
  group_sequences names numeric_cols date_index group = Ret l -> l = [].
Proof.
  intros Ht. unfold group_sequences.
  set (sorted := sort_values date_index group).
  destruct (Nat.ltb_spec (length sorted) (sequence_length + 1)) as [Hlt | Hge].
  - intros E. injection E as <-. reflexivity.
  - unfold group_windows.
    destruct (length sorted - sequence_length)%nat as [| m] eqn:El;
      [unfold sequence_length in *; lia |].
    cbn [List.seq mapM]. unfold cell_at at 1. rewrite Ht. cbn [Py.bind].
    intros E. discriminate E.
Qed.

Lemma group_sequences_length_7 names numeric_cols date_index
    (group : list (list cell)) (l : list (list (list Q) * Q)) :
  group_sequences names numeric_cols date_index group = Ret l ->
  Forall (fun w => length (fst w) = sequence_length) l.
Proof.
  unfold group_sequences.
  destruct (length (sort_values date_index group) <? sequence_length + 1)%nat.
  - intros E. injection E as <-. constructor.
  - destruct (group_windows names numeric_cols (sort_values date_index group))
      as [windows |]; [| discriminate].
    cbn [Py.bind]. intros E. injection E as <-.
    apply List.Forall_forall. intros w Hw. apply filter_In in Hw.
    destruct Hw as [_ Hw]. apply Nat.eqb_eq in Hw. exact Hw.
Qed.

Lemma concat_all_nil {A} (ls : list (list A)) : Forall (fun l => l = []) ls -> concat ls = [].
Proof. induction 1 as [| l ls -> _ IH]; simpl; [reflexivity | exact IH]. Qed.

Lemma _prepare_time_series_data_without_target (data : DataFrame) :
  index_of "risk_score" (column_names data) = None ->
  _prepare_time_series_data data = ([], []).
Proof.
  intros Ht. unfold _prepare_time_series_data.
  destruct (index_of "location_key" (column_names data)) as [key_index |]; [| reflexivity].
  destruct (index_of "date" (column_names data)) as [date_index |]; [| reflexivity].
  destruct (mapM _ (groupby key_index (rows data))) as [per_group |] eqn:E;
    [| reflexivity].
  cbn [Py.bind try_except].
  rewrite (concat_all_nil per_group); [reflexivity |].
  eapply Forall2_Forall_r.
  eapply mapM_Ret_Forall2; [exact E |].
  intros g l _ Hg. cbv beta in Hg.
  eapply group_sequences_without_target; [exact Ht | exact Hg].
Qed.

(** X10.  [_prepare_time_series_data] returns as many targets as
    sequences, and every sequence has exactly seven rows.  On a table
    without a [location_key], a [date] or a [risk_score] column it
    returns no sequence, and [train_time_series_model] then returns [None]
    and leaves the service object as it was. *)
Theorem time_series_data_shape :
  forall (self : self_t) (data : DataFrame),
    let sequences := fst (_prepare_time_series_data data) in
    let targets := snd (_prepare_time_series_data data) in
    length sequences = length targets /\
    Forall (fun sequence => length sequence = 7%nat) sequences /\
    (has_column (column_names data) "location_key" = false \/
     has_column (column_names data) "date" = false \/
     has_column (column_names data) "risk_score" = false ->
     _prepare_time_series_data data = ([], []) /\
     train_time_series_model self data = (self, None)).
Proof.
  intros self data sequences targets.
  assert (Hshape : length sequences = length targets /\
                   Forall (fun sequence => length sequence = 7%nat) sequences).
  { subst sequences targets. unfold _prepare_time_series_data.
    destruct (index_of "location_key" (column_names data)) as [key_index |];
      [| simpl; split; [reflexivity | constructor]].
    destruct (index_of "date" (column_names data)) as [date_index |];
      [| simpl; split; [reflexivity | constructor]].
    destruct (mapM _ (groupby key_index (rows data))) as [per_group |] eqn:E;
      [| simpl; split; [reflexivity | constructor]].
    cbn [Py.bind try_except fst snd].
    split; [now rewrite !length_map |].
    apply Forall_map. apply Forall_concat.
    eapply Forall2_Forall_r.
    eapply mapM_Ret_Forall2; [exact E |].
    intros g l _ Hg. cbv beta in Hg.
    eapply group_sequences_length_7. exact Hg. }
  split; [apply Hshape |]. split; [apply Hshape |].
  intros H.
  assert (E : _prepare_time_series_data data = ([], [])).
  { destruct H as [H | [H | H]]; apply has_column_false_index_of in H.
    - unfold _prepare_time_series_data. rewrite H. reflexivity.
    - unfold _prepare_time_series_data. rewrite H.
      destruct (index_of "location_key" (column_names data)); reflexivity.
    - apply _prepare_time_series_data_without_target. exact H. }
  split; [exact E |].
  unfold train_time_series_model. rewrite E. reflexivity.
Qed.

End TimeSeriesWindows.

Section WindowCount.

Import PredictiveModels.

Lemma insert_by_Forall {A} (P : A -> Prop) (leb : A -> A -> bool) (x : A) (l : list A) :
  P x -> Forall P l -> Forall P (insert_by leb x l).
Proof.
  intros Hx. induction 1 as [| y l Hy Hl IH]; simpl.
  - constructor; [exact Hx | constructor].
  - destruct (leb x y).
    + constructor; [exact Hx |]. constructor; assumption.
    + constructor; assumption.
Qed.

Lemma sort_by_Forall {A} (P : A -> Prop) (leb : A -> A -> bool) (l : list A) :
  Forall P l -> Forall P (sort_by leb l).
Proof.
  unfold sort_by. induction 1 as [| x l Hx _ IH]; simpl; [constructor |].
  apply insert_by_Forall; assumption.
Qed.

Lemma filter_all {A} (f : A -> bool) (l : list A) :
  Forall (fun x => f x = true) l -> List.filter f l = l.
Proof.
  induction 1 as [| x l Hx _ IH]; simpl; [reflexivity |].
  rewrite Hx, IH. reflexivity.
Qed.

Lemma index_of_lt (n : string) (names : list string) (i : nat) :
  index_of n names = Some i -> (i < length names)%nat.
Proof.
  intros H. apply index_of_nth_error in H.
  apply nth_error_Some. congruence.
Qed.

Lemma group_windows_count (names numeric_cols : list string) (t : nat)
    (group : list (list cell)) :
  index_of "risk_score" names = Some t ->
  Forall (fun row => (t < length row)%nat) group ->
  exists windows,
    group_windows names numeric_cols group = Ret windows /\
    length windows = (length group - sequence_length)%nat /\
    Forall (fun w => Nat.eqb (length (fst w)) sequence_length = true) windows.
Proof.
  intros Ht Hrows. unfold group_windows.
  set (body := fun i : nat => _).
  assert (Hbody : forall i, In i (List.seq 0 (length group - sequence_length)) ->
            exists y, body i = Ret y /\ Nat.eqb (length (fst y)) sequence_length = true).
  { intros i Hi. apply in_seq in Hi. subst body. cbv beta.
    assert (Hrow : In (nth (i + sequence_length) group []) group).
    { apply nth_In. lia. }
    rewrite List.Forall_forall in Hrows. apply Hrows in Hrow.
    unfold cell_at. rewrite Ht.
    destruct (nth_error (nth (i + sequence_length) group []) t) as [c |] eqn:Ec.
    - cbn [Py.bind]. eexists. split; [reflexivity |].
      cbn [fst]. rewrite length_map, length_firstn, length_skipn.
      apply Nat.eqb_eq. unfold sequence_length in *. lia.
    - apply nth_error_None in Ec. lia. }
  destruct (mapM_returns body (List.seq 0 (length group - sequence_length))) as [windows E].
  { intros i Hi. destruct (Hbody i Hi) as [y [Hy _]]. eauto. }
  exists windows. split; [exact E |]. split.
  - rewrite (mapM_length _ _ _ E). apply length_seq.
  - eapply Forall2_Forall_r. eapply mapM_Ret_Forall2; [exact E |].
    intros i y Hi Hy. cbv beta. destruct (Hbody i Hi) as [y' [Hy' Hlen]].
    rewrite Hy in Hy'. injection Hy' as <-. exact Hlen.
Qed.

Lemma group_sequences_count (names numeric_cols : list string) (date_index t : nat)
    (group : list (list cell)) :
  index_of "risk_score" names = Some t ->
  Forall (fun row => (t < length row)%nat) group ->
  exists l,
    group_sequences names numeric_cols date_index group = Ret l /\
    length l = (length group - sequence_length)%nat.
Proof.
  intros Ht Hrows. unfold group_sequences.
  assert (Hlen : length (sort_values date_index group) = length group)
    by apply sort_by_length.
  destruct (Nat.ltb_spec (length (sort_values date_index group)) (sequence_length + 1))
    as [Hlt | Hge].
  - exists []. split; [reflexivity |]. simpl. unfold sequence_length in *. lia.
  - destruct (group_windows_count names numeric_cols t (sort_values date_index group) Ht)
      as (windows & -> & Hcount & Hall).
    { apply sort_by_Forall. exact Hrows. }
    cbn [Py.bind]. eexists. split; [reflexivity |].
    rewrite (filter_all _ _ Hall). rewrite Hcount, Hlen. reflexivity.
Qed.

Lemma length_concat_sum {A B} (h : A -> nat) (gs : list A) (ls : list (list B)) :
  Forall2 (fun g l => length l = h g) gs ls ->
  length (concat ls) = list_sum (map h gs).
Proof.
  induction 1 as [| g l gs ls Hl _ IH]; simpl; [reflexivity |].
  rewrite length_app, Hl, IH. reflexivity.
Qed.

(** X11.  On a table that has the columns [location_key], [date] and
    [risk_score] and whose rows are as wide as its header, a location
    with [n] observations contributes [n - 7] training windows when
    [n >= 8] and none otherwise: the number of sequences is the sum of
    these over the location groups. *)
Theorem time_series_window_count :
  forall (data : DataFrame) (k d t : nat),
    index_of "location_key" (column_names data) = Some k ->
    index_of "date" (column_names data) = Some d ->
    index_of "risk_score" (column_names data) = Some t ->
    Forall (fun row => length row = length (columns data)) (rows data) ->
    length (fst (_prepare_time_series_data data))
    = list_sum (map (fun g => (length (snd g) - 7)%nat) (groupby k (rows data))).
Proof.
  intros data k d t Hk Hd Ht Hrows.
  assert (Hwide : Forall (fun row => (t < length row)%nat) (rows data)).
  { eapply List.Forall_impl; [| exact Hrows]. intros row ->.
    apply index_of_lt in Ht. unfold column_names in Ht. rewrite length_map in Ht. exact Ht. }
  unfold _prepare_time_series_data. rewrite Hk, Hd.
  set (body := fun g : cell * list (list cell) => _).
  assert (Hbody : forall g, In g (groupby k (rows data)) ->
            exists l, body g = Ret l /\ length l = (length (snd g) - 7)%nat).
  { intros g Hg. subst body. cbv beta.
    apply (group_sequences_count _ _ d t); [exact Ht |].
    unfold groupby in Hg. apply in_map_iff in Hg. destruct Hg as (c & <- & _).
    cbn [snd]. apply List.Forall_forall. intros row Hrow.
    apply filter_In in Hrow. destruct Hrow as [Hrow _].
    rewrite List.Forall_forall in Hwide. apply Hwide. exact Hrow. }
  destruct (mapM_returns body (groupby k (rows data))) as [per_group E].
  { intros g Hg. destruct (Hbody g Hg) as [l [Hl _]]. eauto. }
  rewrite E. cbn [Py.bind try_except fst]. rewrite length_map.
  apply length_concat_sum.
  eapply mapM_Ret_Forall2; [exact E |].
  intros g l Hg Hl. cbv beta. destruct (Hbody g Hg) as [l' [Hl' Hlen]].
  rewrite Hl in Hl'. injection Hl' as <-. exact Hlen.
Qed.

End WindowCount.

(** Nine daily observations at one location and three at another. *)
Definition nine_day_series : DataFrame :=
  mkDataFrame
    [ ("date", Datetime); ("location_key", Object); ("risk_score", Number) ]
    (map (fun i => [CDate (Z.of_nat i); CStr "23.34_85.31"; CNum 0.5]) (List.seq 0 9)
     ++ map (fun i => [CDate (Z.of_nat i); CStr "23.40_85.35"; CNum 0.2]) (List.seq 0 3))%list.

Lemma time_series_window_count_witness :
  Forall (fun row => length row = length (columns nine_day_series)) (rows nine_day_series) /\
  length (fst (PredictiveModels._prepare_time_series_data nine_day_series)) = 2%nat.
Proof.
  assert (H : Forall (fun row => length row = length (columns nine_day_series))
                (rows nine_day_series)).
  { apply List.Forall_forall. intros row Hrow. simpl in Hrow.
    repeat (destruct Hrow as [<- | Hrow]; [reflexivity |]). destruct Hrow. }
  split; [exact H |].
  rewrite (time_series_window_count nine_day_series 1 0 2 eq_refl eq_refl eq_refl H).
  reflexivity.
Defined.

(* ================================================================== *)
(** * The columns of the engineered training table *)
(* ================================================================== *)

Section EngineeredColumns.

Lemma assign_In_iff (names : list string) (n x : string) :
  In x (assign names n) <-> In x names \/ x = n.
Proof.
  unfold assign. destruct (has_column names n) eqn:E.
  - apply has_column_In in E. split; [auto | intros [H | ->]; auto].
  - rewrite in_app_iff. simpl. split.
    + intros [H | [<- | []]]; auto.
    + intros [H | ->]; auto.
Qed.

Lemma assign_all_In_iff (new : list string) :
  forall (names : list string) (x : string),
    In x (assign_all names new) <-> In x names \/ In x new.
Proof.
  unfold assign_all. induction new as [| n new IH]; intros names x; simpl.
  - tauto.
  - rewrite IH, assign_In_iff. split.
    + intros [[H | ->] | H]; auto.
    + intros [H | [<- | H]]; auto.
Qed.

Lemma assign_all_id (new : list string) :
  forall names : list string,
    (forall x, In x new -> In x names) -> assign_all names new = names.
Proof.
  unfold assign_all. induction new as [| n new IH]; intros names H; simpl; [reflexivity |].
  assert (E : assign names n = names).
  { unfold assign. destruct (has_column names n) eqn:E; [reflexivity |].
    apply not_true_iff_false in E. exfalso. apply E, has_column_In, H. now left. }
  rewrite E. apply IH. intros x Hx. apply H. now right.
Qed.

(** One conditional block of [_engineer_features]. *)
Definition guarded (guard : bool) (new names : list string) : list string :=
  if guard then assign_all names new else names.

Definition step_date (df : list string) : list string :=
  guarded (has_column df "date")
    ["date"; "year"; "month"; "day_of_year"; "day_of_week"; "is_weekend"; "season"] df.

Definition step_location (df : list string) : list string :=
  guarded (has_column df "latitude" && has_column df "longitude")
    ["location_key"; "distance_from_center"] df.

Definition step_rain (df : list string) : list string :=
  guarded (has_column df "precipitation") ["heavy_rain"; "rain_3day_avg"] df.

Definition step_temperature (df : list string) : list string :=
  guarded (has_column df "temperature") ["extreme_temp"] df.

Definition step_category (category_values : list string) (df : list string) : list string :=
  if has_column df "category"
  then DataProcessor.get_dummies_category df category_values else df.

Definition step_created_at (df : list string) : list string :=
  guarded (has_column df "created_at") ["created_at"; "hour"; "time_of_day"] df.

Definition step_risk (df : list string) : list string :=
  guarded true ["risk_score"] df.

Lemma _engineer_features_columns_steps (names category_values : list string) :
  DataProcessor._engineer_features_columns names category_values
  = step_risk (step_created_at (step_category category_values
      (step_temperature (step_rain (step_location (step_date names)))))).
Proof. reflexivity. Qed.

Lemma guarded_In_iff (guard : bool) (new names : list string) (x : string) :
  In x (guarded guard new names) <-> In x names \/ (guard = true /\ In x new).
Proof.
  unfold guarded. destruct guard.
  - rewrite assign_all_In_iff. tauto.
  - split; [auto | intros [H | [H _]]; [exact H | discriminate H]].
Qed.

Lemma guarded_id (guard : bool) (new names : list string) :
  (guard = true -> forall x, In x new -> In x names) -> guarded guard new names = names.
Proof.
  unfold guarded. destruct guard; [| reflexivity].
  intros H. apply assign_all_id. apply H. reflexivity.
Qed.

Lemma step_category_In_iff (category_values df : list string) (x : string) :
  In x (step_category category_values df)
  <-> (In x df /\ x <> "category")
      \/ (In "category" df /\
          exists v, In v (sorted_unique category_values) /\ x = "cat_" ++ v).
Proof.
  unfold step_category, DataProcessor.get_dummies_category.
  destruct (has_column df "category") eqn:E.
  - apply has_column_In in E. rewrite in_app_iff, filter_In, in_map_iff. split.
    + intros [[H Hx] | (v & <- & Hv)].
      * left. split; [exact H |]. intros ->. discriminate Hx.
      * right. split; [exact E |]. exists v. auto.
    + intros [[H Hx] | (_ & v & Hv & ->)].
      * left. split; [exact H |]. apply negb_true_iff. apply String.eqb_neq. exact Hx.
      * right. exists v. auto.
  - apply not_true_iff_false in E. rewrite has_column_In in E. split.
    + intros H. left. split; [exact H |]. intros ->. exact (E H).
    + intros [[H _] | [H _]]; [exact H | destruct (E H)].
Qed.

End EngineeredColumns.

Section EngineeredTable.

(** The columns whose presence the blocks of [_engineer_features] test. *)
Definition tested_columns : list string :=
  ["date"; "latitude"; "longitude"; "precipitation"; "temperature"; "created_at"].

Lemma guarded_keeps (guard : bool) (new df : list string) (x : string) :
  In x df -> In x (guarded guard new df).
Proof. intros H. apply guarded_In_iff. now left. Qed.

Lemma step_category_keeps (category_values df : list string) (x : string) :
  x <> "category" -> In x df -> In x (step_category category_values df).
Proof. intros Hx H. apply step_category_In_iff. left. split; assumption. Qed.

(** A block adds none of the tested columns, unless the column is there
    already. *)
Ltac reflect_guarded :=
  let H := fresh "H" in
  let Hb := fresh "Hb" in
  let Hnew := fresh "Hnew" in
  let E := fresh "E" in
  intros H; apply guarded_In_iff in H; destruct H as [H | [Hb Hnew]]; [exact H |];
  simpl in Hnew;
  repeat (destruct Hnew as [E | Hnew];
          [try discriminate E; apply has_column_In; exact Hb |]);
  destruct Hnew.

Lemma step_date_reflects (df : list string) (x : string) :
  In x ("category" :: tested_columns) -> In x (step_date df) -> In x df.
Proof.
  intros Hx. simpl in Hx. unfold step_date.
  repeat (destruct Hx as [<- | Hx]; [reflect_guarded |]). destruct Hx.
Qed.

Lemma step_location_reflects (df : list string) (x : string) :
  In x ("category" :: tested_columns) -> In x (step_location df) -> In x df.
Proof.
  intros Hx. simpl in Hx. unfold step_location.
  repeat (destruct Hx as [<- | Hx]; [reflect_guarded |]). destruct Hx.
Qed.

Lemma step_rain_reflects (df : list string) (x : string) :
  In x ("category" :: tested_columns) -> In x (step_rain df) -> In x df.
Proof.
  intros Hx. simpl in Hx. unfold step_rain.
  repeat (destruct Hx as [<- | Hx]; [reflect_guarded |]). destruct Hx.
Qed.

Lemma step_temperature_reflects (df : list string) (x : string) :
  In x ("category" :: tested_columns) -> In x (step_temperature df) -> In x df.
Proof.
  intros Hx. simpl in Hx. unfold step_temperature.
  repeat (destruct Hx as [<- | Hx]; [reflect_guarded |]). destruct Hx.
Qed.

Lemma step_created_at_reflects (df : list string) (x : string) :
  In x ("category" :: tested_columns) -> In x (step_created_at df) -> In x df.
Proof.
  intros Hx. simpl in Hx. unfold step_created_at.
  repeat (destruct Hx as [<- | Hx]; [reflect_guarded |]). destruct Hx.
Qed.

Lemma step_risk_reflects (df : list string) (x : string) :
  In x ("category" :: tested_columns) -> In x (step_risk df) -> In x df.
Proof.
  intros Hx. simpl in Hx. unfold step_risk.
  repeat (destruct Hx as [<- | Hx]; [reflect_guarded |]). destruct Hx.
Qed.

Lemma step_category_reflects (category_values df : list string) (x : string) :
  In x tested_columns -> In x (step_category category_values df) -> In x df.
Proof.
  intros Hx H. apply step_category_In_iff in H.
  destruct H as [[H _] | (_ & v & _ & E)]; [exact H |].
  exfalso. simpl in Hx.
  repeat (destruct Hx as [<- | Hx]; [discriminate E |]). destruct Hx.
Qed.

Lemma step_category_drops (category_values df : list string) :
  ~ In "category" (step_category category_values df).
Proof.
  intros H. apply step_category_In_iff in H.
  destruct H as [[_ H] | (_ & v & _ & E)]; [now apply H | discriminate E].
Qed.

Lemma tested_with_category (x : string) :
  In x tested_columns -> In x ("category" :: tested_columns).
Proof. intros H. now right. Qed.

Lemma engineered_reflects (names category_values : list string) (x : string) :
  In x tested_columns ->
  In x (DataProcessor._engineer_features_columns names category_values) -> In x names.
Proof.
  intros Hx H. rewrite _engineer_features_columns_steps in H.
  pose proof (tested_with_category x Hx) as Hx'.
  apply (step_risk_reflects _ x Hx') in H.
  apply (step_created_at_reflects _ x Hx') in H.
  apply (step_category_reflects _ _ x Hx) in H.
  apply (step_temperature_reflects _ x Hx') in H.
  apply (step_rain_reflects _ x Hx') in H.
  apply (step_location_reflects _ x Hx') in H.
  apply (step_date_reflects _ x Hx') in H.
  exact H.
Qed.

Lemma engineered_without_category (names category_values : list string) :
  ~ In "category" (DataProcessor._engineer_features_columns names category_values).
Proof.
  intros H. rewrite _engineer_features_columns_steps in H.
  apply (step_risk_reflects _ "category" (or_introl eq_refl)) in H.
  apply (step_created_at_reflects _ "category" (or_introl eq_refl)) in H.
  exact (step_category_drops _ _ H).
Qed.

Lemma engineered_keeps (names category_values : list string) (x : string) :
  In x names -> x <> "category" ->
  In x (DataProcessor._engineer_features_columns names category_values).
Proof.
  intros H Hx. rewrite _engineer_features_columns_steps.
  apply guarded_keeps, guarded_keeps, step_category_keeps; [exact Hx |].
  apply guarded_keeps, guarded_keeps, guarded_keeps, guarded_keeps. exact H.
Qed.

Lemma engineered_has_risk_score (names category_values : list string) :
  In "risk_score" (DataProcessor._engineer_features_columns names category_values).
Proof.
  rewrite _engineer_features_columns_steps. unfold step_risk.
  apply guarded_In_iff. right. split; [reflexivity | now left].
Qed.

End EngineeredTable.

Section EngineeredTwice.

Lemma guarded_adds (guard : bool) (new df : list string) (x : string) :
  guard = true -> In x new -> In x (guarded guard new df).
Proof. intros Hb Hx. apply guarded_In_iff. right. split; assumption. Qed.

Ltac not_category Hx :=
  let E := fresh "E" in
  intros E; subst; simpl in Hx;
  repeat (destruct Hx as [Hx | Hx]; [discriminate Hx |]); destruct Hx.

Lemma engineered_adds_date (names category_values : list string) (x : string) :
  In "date" names ->
  In x ["date"; "year"; "month"; "day_of_year"; "day_of_week"; "is_weekend"; "season"] ->
  In x (DataProcessor._engineer_features_columns names category_values).
Proof.
  intros Hg Hx. assert (Hne : x <> "category") by not_category Hx.
  rewrite _engineer_features_columns_steps.
  apply guarded_keeps, guarded_keeps, step_category_keeps; [exact Hne |].
  apply guarded_keeps, guarded_keeps, guarded_keeps.
  apply guarded_adds; [apply has_column_In; exact Hg | exact Hx].
Qed.

Lemma engineered_adds_location (names category_values : list string) (x : string) :
  In "latitude" names -> In "longitude" names ->
  In x ["location_key"; "distance_from_center"] ->
  In x (DataProcessor._engineer_features_columns names category_values).
Proof.
  intros Hlat Hlng Hx. assert (Hne : x <> "category") by not_category Hx.
  rewrite _engineer_features_columns_steps.
  apply guarded_keeps, guarded_keeps, step_category_keeps; [exact Hne |].
  apply guarded_keeps, guarded_keeps.
  apply guarded_adds; [| exact Hx].
  apply andb_true_intro. split; apply has_column_In, guarded_keeps; assumption.
Qed.

Lemma engineered_adds_rain (names category_values : list string) (x : string) :
  In "precipitation" names ->
  In x ["heavy_rain"; "rain_3day_avg"] ->
  In x (DataProcessor._engineer_features_columns names category_values).
Proof.
  intros Hg Hx. assert (Hne : x <> "category") by not_category Hx.
  rewrite _engineer_features_columns_steps.
  apply guarded_keeps, guarded_keeps, step_category_keeps; [exact Hne |].
  apply guarded_keeps.
  apply guarded_adds; [| exact Hx].
  apply has_column_In, guarded_keeps, guarded_keeps. exact Hg.
Qed.

Lemma engineered_adds_temperature (names category_values : list string) (x : string) :
  In "temperature" names ->
  In x ["extreme_temp"] ->
  In x (DataProcessor._engineer_features_columns names category_values).
Proof.
  intros Hg Hx. assert (Hne : x <> "category") by not_category Hx.
  rewrite _engineer_features_columns_steps.
  apply guarded_keeps, guarded_keeps, step_category_keeps; [exact Hne |].
  apply guarded_adds; [| exact Hx].
  apply has_column_In, guarded_keeps, guarded_keeps, guarded_keeps. exact Hg.
Qed.

Lemma engineered_adds_created_at (names category_values : list string) (x : string) :
  In "created_at" names ->
  In x ["created_at"; "hour"; "time_of_day"] ->
  In x (DataProcessor._engineer_features_columns names category_values).
Proof.
  intros Hg Hx. assert (Hne : x <> "category") by not_category Hx.
  rewrite _engineer_features_columns_steps.
  apply guarded_keeps.
  apply guarded_adds; [| exact Hx].
  apply has_column_In, step_category_keeps; [discriminate |].
  apply guarded_keeps, guarded_keeps, guarded_keeps, guarded_keeps. exact Hg.
Qed.

(** X12.  The table [_engineer_features] returns never has a [category]
    column (the indicator columns replace it) and always has a
    [risk_score] column; every other column of the input is kept; and a
    column whose presence a block tests ([date], [latitude], [longitude],
    [precipitation], [temperature], [created_at]) is in the output exactly
    when it was in the input. *)
Theorem engineered_columns_kept :
  forall (names category_values : list string),
    let out := DataProcessor._engineer_features_columns names category_values in
    ~ In "category" out /\
    In "risk_score" out /\
    (forall x, In x names -> x <> "category" -> In x out) /\
    (forall x, In x tested_columns -> (In x out <-> In x names)).
Proof.
  intros names category_values out.
  split; [apply engineered_without_category |].
  split; [apply engineered_has_risk_score |].
  split; [intros x; apply engineered_keeps |].
  intros x Hx. split; [apply engineered_reflects; exact Hx |].
  intros H. apply engineered_keeps; [exact H |].
  intros ->. simpl in Hx.
  repeat (destruct Hx as [Hx | Hx]; [discriminate Hx |]). destruct Hx.
Qed.

(** X13.  Engineering an engineered table again leaves its columns and
    their order unchanged, whatever category values are supplied the
    second time ([load_training_data] engineers the table that
    [_generate_sample_data] has already engineered). *)
Theorem engineering_twice_is_engineering_once :
  forall (names category_values again : list string),
    DataProcessor._engineer_features_columns
      (DataProcessor._engineer_features_columns names category_values) again
    = DataProcessor._engineer_features_columns names category_values.
Proof.
  intros names category_values again.
  set (out := DataProcessor._engineer_features_columns names category_values).
  assert (Hback : forall x, In x tested_columns -> has_column out x = true -> In x names).
  { intros x Hx H. apply has_column_In in H.
    exact (engineered_reflects names category_values x Hx H). }
  assert (Hdate : step_date out = out).
  { apply guarded_id. intros Hb x Hx. apply engineered_adds_date; [| exact Hx].
    apply Hback; [simpl; tauto | exact Hb]. }
  assert (Hloc : step_location out = out).
  { apply guarded_id. intros Hb x Hx. apply andb_prop in Hb. destruct Hb as [Hb1 Hb2].
    apply engineered_adds_location; [| | exact Hx]; apply Hback; simpl; tauto. }
  assert (Hrain : step_rain out = out).
  { apply guarded_id. intros Hb x Hx. apply engineered_adds_rain; [| exact Hx].
    apply Hback; [simpl; tauto | exact Hb]. }
  assert (Htemp : step_temperature out = out).
  { apply guarded_id. intros Hb x Hx. apply engineered_adds_temperature; [| exact Hx].
    apply Hback; [simpl; tauto | exact Hb]. }
  assert (Hcat : step_category again out = out).
  { unfold step_category. destruct (has_column out "category") eqn:E; [| reflexivity].
    apply has_column_In in E. destruct (engineered_without_category _ _ E). }
  assert (Hcreated : step_created_at out = out).
  { apply guarded_id. intros Hb x Hx. apply engineered_adds_created_at; [| exact Hx].
    apply Hback; [simpl; tauto | exact Hb]. }
  assert (Hrisk : step_risk out = out).
  { apply guarded_id. intros _ x [<- | []]. apply engineered_has_risk_score. }
  rewrite (_engineer_features_columns_steps out again).
  rewrite Hdate, Hloc, Hrain, Htemp, Hcat, Hcreated, Hrisk. reflexivity.
Qed.

End EngineeredTwice.

(* ================================================================== *)
(** * What a training run leaves in the store and in the registry *)
(* ================================================================== *)

Section TrainingOutcomes.
Context {env : NumericEnv} {learners : Sk.Learners}.

Import PredictiveModels.

Lemma train_time_series_model_stores (self : self_t) (data : DataFrame) :
  stores "time_series" self
    (fst (train_time_series_model self data)) (snd (train_time_series_model self data)).
Proof.
  unfold train_time_series_model, stores.
  destruct (_prepare_time_series_data data) as [sequences targets].
  destruct (Nat.eqb (length sequences) 0); [reflexivity |].
  destruct (Sk.fit_lstm sequences targets) as [[[m loss] mae] | e]; reflexivity.
Qed.

Lemma stores_lookup (n : string) (before after : self_t) (m : option Sk.Model)
    (name : string) :
  stores n before after m ->
  models after !! name
  = if String.eqb name n
    then match m with Some x => Some x | None => models before !! name end
    else models before !! name.
Proof.
  unfold stores. intros ->. destruct (String.eqb_spec name n) as [-> | Hne].
  - destruct m; [apply lookup_insert_eq | reflexivity].
  - destruct m; [apply lookup_insert_ne; congruence | reflexivity].
Qed.

(** The outcome of the training of a model name in one run. *)
Definition outcome_of (m1 m2 m3 m4 : option Sk.Model) (name : string) : option Sk.Model :=
  if String.eqb name "anomaly_detector" then m4
  else if String.eqb name "time_series" then m3
  else if String.eqb name "risk_regressor" then m2
  else if String.eqb name "issue_classifier" then m1
  else None.

Lemma train_models_task_outcome (st : Main.state) (data : DataFrame) (clock : nat -> Z) :
  exists m1 m2 m3 m4,
    m1 = snd (train_issue_classifier (Main.ml_models st) data) /\
    Main.trained_models (Main.train_models_task st data clock)
    = <["anomaly_detector" := m4]>
        (<["time_series" := m3]>
           (<["risk_regressor" := m2]>
              (<["issue_classifier" := m1]> (Main.trained_models st)))) /\
    Main.model_last_updated (Main.train_models_task st data clock)
    = <["anomaly_detector" := clock 3%nat]>
        (<["time_series" := clock 2%nat]>
           (<["risk_regressor" := clock 1%nat]>
              (<["issue_classifier" := clock 0%nat]> (Main.model_last_updated st)))) /\
    (forall name,
        models (Main.ml_models (Main.train_models_task st data clock)) !! name
        = match outcome_of m1 m2 m3 m4 name with
          | Some m => Some m
          | None => models (Main.ml_models st) !! name
          end).
Proof.
  unfold Main.train_models_task, Main.record.
  pose proof (train_issue_classifier_stores (Main.ml_models st) data) as H1.
  destruct (train_issue_classifier (Main.ml_models st) data) as [[self1 data1] m1].
  cbn [fst snd Main.ml_models] in *.
  pose proof (train_risk_regressor_stores self1 data1) as H2.
  destruct (train_risk_regressor self1 data1) as [self2 m2]. cbn [fst snd Main.ml_models] in *.
  pose proof (train_time_series_model_stores self2 data1) as H3.
  destruct (train_time_series_model self2 data1) as [self3 m3].
  cbn [fst snd Main.ml_models] in *.
  pose proof (train_anomaly_detector_stores self3 data1) as H4.
  destruct (train_anomaly_detector self3 data1) as [self4 m4].
  cbn [fst snd Main.ml_models Main.trained_models Main.model_last_updated] in *.
  exists m1, m2, m3, m4. split; [reflexivity |]. split; [reflexivity |].
  split; [reflexivity |].
  intros name.
  rewrite (stores_lookup _ _ _ _ name H4), (stores_lookup _ _ _ _ name H3),
    (stores_lookup _ _ _ _ name H2), (stores_lookup _ _ _ _ name H1).
  unfold outcome_of.
  destruct (String.eqb_spec name "anomaly_detector") as [-> | _];
    [cbn -[lookup]; destruct m4; reflexivity |].
  destruct (String.eqb_spec name "time_series") as [-> | _];
    [cbn -[lookup]; destruct m3; reflexivity |].
  destruct (String.eqb_spec name "risk_regressor") as [-> | _];
    [cbn -[lookup]; destruct m2; reflexivity |].
  destruct (String.eqb_spec name "issue_classifier") as [-> | _];
    [cbn -[lookup]; destruct m1; reflexivity |].
  reflexivity.
Qed.

Lemma train_issue_classifier_needs_category (self : self_t) (data : DataFrame) :
  has_column (column_names data) "category" = false ->
  snd (train_issue_classifier self data) = None.
Proof.
  intros H. unfold train_issue_classifier, _prepare_classification_data.
  match goal with
  | |- context [fold_left encode_column ?cols ?sd] =>
      pose proof (fold_encode_column_names cols sd) as Hn;
      destruct (fold_left encode_column cols sd) as [self' data']
  end.
  cbn [snd] in Hn. unfold column_values. rewrite Hn.
  rewrite (has_column_false_index_of _ _ H). reflexivity.
Qed.

End TrainingOutcomes.

(** The two read-only endpoints of [main.py] over the registry. *)
Module MainEndpoints.

(** ["models_loaded": len(trained_models)] of [/health]. *)
Definition models_loaded (st : Main.state) : nat := size (Main.trained_models st).

(** The names [/models/status] reports on. *)
Definition reported_models : list string :=
  ["issue_classifier"; "risk_regressor"; "time_series"; "anomaly_detector"].

End MainEndpoints.

Section TrainingTheorems.
Context {env : NumericEnv} {learners : Sk.Learners}.

Import PredictiveModels.

Lemma In_index_of (n : string) (names : list string) :
  In n names -> exists i, index_of n names = Some i.
Proof.
  intros H. destruct (index_of n names) as [i |] eqn:E; [eauto |].
  exfalso. apply has_column_In in H.
  assert (Hf : has_column names n = false).
  { clear H. unfold has_column. induction names as [| m names IH]; [reflexivity |].
    simpl in *. destruct (String.eqb_spec m n) as [-> | Hne]; [discriminate E |].
    destruct (index_of n names); [discriminate E |].
    rewrite IH by reflexivity. apply orb_false_iff. split; [| reflexivity].
    apply String.eqb_neq. congruence. }
  congruence.
Qed.

Ltac lookup_inserted :=
  repeat (rewrite lookup_insert_eq || rewrite lookup_insert_ne by discriminate).

(** X14.  A table with the columns [_engineer_features] produces never
    trains the issue classifier: the target column [category] is gone, so
    [train_issue_classifier] returns [None] and stores no model, for any
    learner; the regressor's data preparation, whose target is
    [risk_score], succeeds.  A training run of [main.py] on such a table
    records [None] under [issue_classifier] and leaves the service's
    entry for it as it was. *)
Theorem classifier_never_trains_on_engineered_table :
  forall (st : Main.state) (data : DataFrame) (names category_values : list string)
         (clock : nat -> Z),
    column_names data = DataProcessor._engineer_features_columns names category_values ->
    (forall self,
        snd (train_issue_classifier self data) = None /\
        models (fst (fst (train_issue_classifier self data))) = models self) /\
    (exists X y, _prepare_regression_data data = Ret (X, y)) /\
    Main.trained_models (Main.train_models_task st data clock) !! "issue_classifier"
    = Some None /\
    models (Main.ml_models (Main.train_models_task st data clock)) !! "issue_classifier"
    = models (Main.ml_models st) !! "issue_classifier".
Proof.
  intros st data names category_values clock Hcols.
  assert (Hno : has_column (column_names data) "category" = false).
  { destruct (has_column (column_names data) "category") eqn:E; [| reflexivity].
    apply has_column_In in E. rewrite Hcols in E.
    destruct (engineered_without_category _ _ E). }
  assert (Hnone : forall self, snd (train_issue_classifier self data) = None)
    by (intros self; apply train_issue_classifier_needs_category; exact Hno).
  split.
  { intros self. split; [apply Hnone |].
    pose proof (train_issue_classifier_stores self data) as Hs.
    unfold stores in Hs. rewrite (Hnone self) in Hs. exact Hs. }
  split.
  { unfold _prepare_regression_data, column_values.
    destruct (In_index_of "risk_score" (column_names data)) as [i ->];
      [rewrite Hcols; apply engineered_has_risk_score |].
    cbn [Py.bind]. eauto. }
  destruct (train_models_task_outcome st data clock)
    as (m1 & m2 & m3 & m4 & E1 & Hreg & _ & Hstore).
  rewrite Hnone in E1. subst m1. split.
  - rewrite Hreg. lookup_inserted. reflexivity.
  - rewrite Hstore. reflexivity.
Qed.

(** X15.  After a run of [train_models_task], whatever the table and the
    learners and whether or not any training succeeded, each of the four
    model names is a key of the registry with a last-updated time, so
    [/models/status] reports it as "trained"; started from the empty
    registry, [/health] reports four loaded models. *)
Theorem every_model_reports_trained :
  forall (st : Main.state) (data : DataFrame) (clock : nat -> Z),
    let st' := Main.train_models_task st data clock in
    (forall name, In name MainEndpoints.reported_models ->
        Main.model_status st' name = "trained" /\
        is_Some (Main.model_last_updated st' !! name)) /\
    (Main.trained_models st = ∅ -> MainEndpoints.models_loaded st' = 4%nat).
Proof.
  intros st data clock st'. subst st'.
  destruct (train_models_task_outcome st data clock)
    as (m1 & m2 & m3 & m4 & _ & Hreg & Htime & _).
  split.
  - intros name Hname. unfold Main.model_status. rewrite Hreg, Htime.
    simpl in Hname.
    destruct Hname as [<- | [<- | [<- | [<- | []]]]]; lookup_inserted;
      (split; [rewrite bool_decide_eq_true_2 by eauto; reflexivity | eauto]).
  - intros Hempty. unfold MainEndpoints.models_loaded. rewrite Hreg, Hempty.
    rewrite !map_size_insert_None; [reflexivity | | | |];
      lookup_inserted; apply lookup_empty.
Qed.

(** X16.  A run of [train_models_task] from any state records, for each
    of the four names, the outcome of this run in the registry; the
    service's model store holds the new model when the training
    returned one, and otherwise keeps the entry it had before the run (a
    model of an earlier run stays in use while the registry holds
    [None]). *)
Theorem failed_retraining_keeps_previous_model :
  forall (st : Main.state) (data : DataFrame) (clock : nat -> Z) (name : string),
    In name MainEndpoints.reported_models ->
    let st' := Main.train_models_task st data clock in
    exists outcome,
      Main.trained_models st' !! name = Some outcome /\
      models (Main.ml_models st') !! name
      = match outcome with
        | Some m => Some m
        | None => models (Main.ml_models st) !! name
        end.
Proof.
  intros st data clock name Hname st'. subst st'.
  destruct (train_models_task_outcome st data clock)
    as (m1 & m2 & m3 & m4 & _ & Hreg & _ & Hstore).
  rewrite Hreg, Hstore. simpl in Hname.
  destruct Hname as [<- | [<- | [<- | [<- | []]]]]; lookup_inserted;
    eexists; (split; [reflexivity |]); reflexivity.
Qed.

End TrainingTheorems.

(** A table with the engineered columns of the sample frame and one row. *)
Definition engineered_sample_table : DataFrame :=
  let names :=
    DataProcessor._engineer_features_columns
      DataProcessor.sample_columns DataProcessor.categories in
  mkDataFrame (map (fun n => (n, Number)) names) [map (fun _ => CNum 0) names].

Lemma classifier_never_trains_on_engineered_table_witness :
  let st := Main.train_models_task (env := Concrete.rational_env)
              (learners := Concrete.learners) Main.initial engineered_sample_table
              (fun i => Z.of_nat i) in
  column_names engineered_sample_table
  = DataProcessor._engineer_features_columns
      DataProcessor.sample_columns DataProcessor.categories /\
  Main.trained_models st !! "issue_classifier" = Some None /\
  PredictiveModels.models (Main.ml_models st) !! "issue_classifier" = None /\
  Main.model_status st "issue_classifier" = "trained".
Proof.
  intros st.
  assert (Hcols : column_names engineered_sample_table
                  = DataProcessor._engineer_features_columns
                      DataProcessor.sample_columns DataProcessor.categories)
    by (vm_compute; reflexivity).
  destruct (classifier_never_trains_on_engineered_table (env := Concrete.rational_env)
              (learners := Concrete.learners) Main.initial engineered_sample_table
              DataProcessor.sample_columns DataProcessor.categories
              (fun i => Z.of_nat i) Hcols) as (_ & _ & Hreg & Hstore).
  split; [exact Hcols |]. split; [exact Hreg |]. split; [exact Hstore |].
  unfold Main.model_status. subst st. rewrite Hreg. reflexivity.
Defined.

(** A service whose store holds a forecaster from an earlier run. *)
Definition state_with_forecaster : Main.state :=
  Main.mkState
    (PredictiveModels.mkSelf {[ "time_series" := Sk.TimeSeries (Sk.mkLSTM (7%nat, 3%nat)) ]}
       ∅ ∅ [] ∅)
    {[ "time_series" := Some (Sk.TimeSeries (Sk.mkLSTM (7%nat, 3%nat))) ]}
    {[ "time_series" := 0%Z ]}.

Lemma failed_retraining_keeps_previous_model_witness :
  let st := Main.train_models_task (env := Concrete.rational_env)
              (learners := Concrete.learners) state_with_forecaster three_observations
              (fun i => Z.of_nat i) in
  In "time_series" MainEndpoints.reported_models /\
  Main.trained_models st !! "time_series" = Some None /\
  PredictiveModels.models (Main.ml_models st) !! "time_series"
  = Some (Sk.TimeSeries (Sk.mkLSTM (7%nat, 3%nat))).
Proof.
  intros st.
  assert (Hname : In "time_series" MainEndpoints.reported_models) by (simpl; tauto).
  destruct (failed_retraining_keeps_previous_model (env := Concrete.rational_env)
              (learners := Concrete.learners) state_with_forecaster three_observations
              (fun i => Z.of_nat i) "time_series" Hname) as (outcome & Hreg & Hstore).
  assert (Hnone : Main.trained_models st !! "time_series" = Some None)
    by (vm_compute; reflexivity).
  split; [exact Hname |]. split; [exact Hnone |].
  subst st. rewrite Hreg in Hnone. injection Hnone as ->.
  rewrite Hstore. reflexivity.
Defined.

(* ================================================================== *)
(** * [train_models.py]: the training script *)
(* ================================================================== *)

Module TrainModels.

Import Sk.

(** [if model:] on what a training method returned: a fitted estimator
    is truthy, [None] is not. *)
Definition truthy_model (model : option Model) : bool :=
  match model with
  | Some _ => true
  | None => false
  end.

(** [training_data.empty]: no row or no column. *)
Definition empty (data : DataFrame) : bool :=
  match columns data, rows data with
  | [], _ | _, [] => true
  | _, _ => false
  end.

Section Script.
Context {env : NumericEnv} {learners : Learners}.

(** [main], from the loaded training table to the call of [save_models]:
    [None] is the early [return False] on an empty table; otherwise the
    service object and the dictionary [models_trained]. *)
Definition main (training_data : DataFrame)
  : option (PredictiveModels.self_t * gmap string bool) :=
  let ml_models := PredictiveModels.__init__ in
  if empty training_data then None
  else
    (* Train models *)
    let models_trained : gmap string bool := ∅ in
    let '(ml_models, training_data, classifier) :=
      PredictiveModels.train_issue_classifier ml_models training_data in
    let models_trained := <["issue_classifier" := truthy_model classifier]> models_trained in
    let (ml_models, regressor) :=
      PredictiveModels.train_risk_regressor ml_models training_data in
    let models_trained := <["risk_regressor" := truthy_model regressor]> models_trained in
    let (ml_models, time_series) :=
      PredictiveModels.train_time_series_model ml_models training_data in
    let models_trained := <["time_series" := truthy_model time_series]> models_trained in
    let (ml_models, anomaly_detector) :=
      PredictiveModels.train_anomaly_detector ml_models training_data in
    let models_trained :=
      <["anomaly_detector" := truthy_model anomaly_detector]> models_trained in
    Some (ml_models, models_trained).

End Script.

End TrainModels.

Section ScriptAndService.
Context {env : NumericEnv} {learners : Sk.Learners}.

Import PredictiveModels.

Ltac lookup_inserted :=
  repeat (rewrite lookup_insert_eq || rewrite lookup_insert_ne by discriminate).

(** X17.  On a non-empty table the script [train_models.py] and the
    training task of [main.py] make the same four calls on a fresh
    service object: they leave the same model store; the script's report
    is [True] for a name exactly when the store holds a model for it,
    which is exactly when the registry of [main.py] holds a model rather
    than [None] under that name. *)
Theorem script_report_matches_store :
  forall (training_data : DataFrame) (clock : nat -> Z)
         (ml_models : self_t) (models_trained : gmap string bool) (name : string),
    TrainModels.main training_data = Some (ml_models, models_trained) ->
    In name MainEndpoints.reported_models ->
    let st := Main.train_models_task Main.initial training_data clock in
    ml_models = Main.ml_models st /\
    models_trained !! name = Some (bool_decide (is_Some (models ml_models !! name))) /\
    Main.trained_models st !! name = Some (models ml_models !! name).
Proof.
  intros training_data clock ml_models models_trained name Hmain Hname st.
  destruct (train_models_task_outcome Main.initial training_data clock)
    as (m1 & m2 & m3 & m4 & _ & Hreg & _ & Hstore).
  unfold TrainModels.main in Hmain.
  destruct (TrainModels.empty training_data); [discriminate Hmain |].
  subst st. revert Hreg Hstore Hmain.
  unfold Main.train_models_task, Main.record, Main.initial.
  cbn [Main.ml_models Main.trained_models Main.model_last_updated].
  destruct (train_issue_classifier __init__ training_data) as [[self1 data1] c1].
  cbn [Main.ml_models].
  destruct (train_risk_regressor self1 data1) as [self2 c2]. cbn [Main.ml_models].
  destruct (train_time_series_model self2 data1) as [self3 c3]. cbn [Main.ml_models].
  destruct (train_anomaly_detector self3 data1) as [self4 c4].
  cbn [Main.ml_models Main.trained_models].
  intros Hreg Hstore Hmain. injection Hmain as <- <-.
  split; [reflexivity |].
  assert (c4 = m4 /\ c3 = m3 /\ c2 = m2 /\ c1 = m1) as (-> & -> & -> & ->).
  { pose proof (f_equal (fun m => m !! "anomaly_detector") Hreg) as E4.
    pose proof (f_equal (fun m => m !! "time_series") Hreg) as E3.
    pose proof (f_equal (fun m => m !! "risk_regressor") Hreg) as E2.
    pose proof (f_equal (fun m => m !! "issue_classifier") Hreg) as E1.
    cbv beta in E1, E2, E3, E4.
    repeat (rewrite lookup_insert_eq in E4 || rewrite lookup_insert_ne in E4 by discriminate).
    repeat (rewrite lookup_insert_eq in E3 || rewrite lookup_insert_ne in E3 by discriminate).
    repeat (rewrite lookup_insert_eq in E2 || rewrite lookup_insert_ne in E2 by discriminate).
    repeat (rewrite lookup_insert_eq in E1 || rewrite lookup_insert_ne in E1 by discriminate).
    repeat split; congruence. }
  rewrite Hstore. cbn [models __init__]. rewrite lookup_empty.
  simpl in Hname.
  destruct Hname as [<- | [<- | [<- | [<- | []]]]]; lookup_inserted;
    cbn -[lookup bool_decide];
    match goal with
    | |- context [match ?m with Some _ => _ | None => _ end] => destruct m
    end;
    (split; [cbn [TrainModels.truthy_model]; f_equal; symmetry;
             first [apply bool_decide_eq_true_2; eauto
                   | apply bool_decide_eq_false_2; intros [? ?]; discriminate]
            | reflexivity]).
Qed.

End ScriptAndService.

Lemma script_report_matches_store_witness :
  exists ml_models models_trained,
    TrainModels.main (env := Concrete.rational_env) (learners := Concrete.learners)
      three_observations = Some (ml_models, models_trained) /\
    In "time_series" MainEndpoints.reported_models /\
    models_trained !! "time_series" = Some false /\
    Main.trained_models
      (Main.train_models_task (env := Concrete.rational_env) (learners := Concrete.learners)
         Main.initial three_observations (fun i => Z.of_nat i)) !! "time_series"
    = Some None.
Proof.
  destruct (TrainModels.main (env := Concrete.rational_env) (learners := Concrete.learners)
              three_observations) as [[ml_models models_trained] |] eqn:E;
    [| vm_compute in E; discriminate E].
  exists ml_models, models_trained. split; [reflexivity |].
  assert (Hname : In "time_series" MainEndpoints.reported_models) by (simpl; tauto).
  split; [exact Hname |].
  destruct (script_report_matches_store (env := Concrete.rational_env)
              (learners := Concrete.learners) three_observations (fun i => Z.of_nat i)
              ml_models models_trained "time_series" E Hname) as (_ & Hreport & Hreg).
  assert (Hnone : Main.trained_models
            (Main.train_models_task (env := Concrete.rational_env)
               (learners := Concrete.learners)
               Main.initial three_observations (fun i => Z.of_nat i)) !! "time_series"
          = Some None) by (vm_compute; reflexivity).
  split; [| exact Hnone].
  rewrite Hreg in Hnone. injection Hnone as Hnone.
  rewrite Hreport, Hnone. reflexivity.
Defined.

(* ================================================================== *)
(** * Label encoders are fitted once per column name *)
(* ================================================================== *)

Section EncodeOnce.
Context {env : NumericEnv}.

Import PredictiveModels.

(** The object-typed feature columns [_prepare_classification_data]
    loops over. *)
Definition categorical_cols (data : DataFrame) : list string :=
  select_dtypes Object
    (List.filter
       (fun c => has_column (classification_feature_cols (column_names data)) (fst c))
       (columns data)).

Lemma _prepare_classification_data_frame (self : self_t) (data : DataFrame) :
  snd (fst (_prepare_classification_data self data))
  = snd (fold_left encode_column (categorical_cols data) (self, data)) /\
  label_encoders (fst (fst (_prepare_classification_data self data)))
  = label_encoders (fst (fold_left encode_column (categorical_cols data) (self, data))).
Proof.
  unfold _prepare_classification_data, categorical_cols.
  destruct (fold_left encode_column _ (self, data)) as [self' data'].
  destruct (column_values data' "category"); split; reflexivity.
Qed.

Lemma encode_column_skips (sd : self_t * DataFrame) (col : string) :
  is_Some (label_encoders (fst sd) !! col) -> encode_column sd col = sd.
Proof.
  destruct sd as [self data]. intros [e He]. simpl in He.
  unfold encode_column. rewrite He. reflexivity.
Qed.

Lemma fold_encode_column_skips (cols : list string) (sd : self_t * DataFrame) :
  (forall col, In col cols -> is_Some (label_encoders (fst sd) !! col)) ->
  fold_left encode_column cols sd = sd.
Proof.
  induction cols as [| col cols IH]; intros H; simpl; [reflexivity |].
  rewrite encode_column_skips by (apply H; now left).
  apply IH. intros c Hc. apply H. now right.
Qed.

Lemma encode_column_keeps_encoders (sd : self_t * DataFrame) (col c : string) :
  is_Some (label_encoders (fst sd) !! c) ->
  is_Some (label_encoders (fst (encode_column sd col)) !! c).
Proof.
  destruct sd as [self data]. intros H. unfold encode_column.
  destruct (label_encoders self !! col) eqn:E; [exact H |].
  destruct (column_values data col); [| exact H].
  cbn [fst set_label_encoders label_encoders].
  destruct (String.eqb_spec col c) as [-> | Hne].
  - rewrite lookup_insert_eq. eauto.
  - rewrite lookup_insert_ne by exact Hne. exact H.
Qed.

Lemma encode_column_fits (sd : self_t * DataFrame) (col : string) :
  In col (column_names (snd sd)) ->
  is_Some (label_encoders (fst (encode_column sd col)) !! col).
Proof.
  destruct sd as [self data]. intros H. unfold encode_column.
  destruct (label_encoders self !! col) eqn:E; [cbn [fst]; rewrite E; eauto |].
  unfold column_values.
  destruct (In_index_of col (column_names data) H) as [i ->].
  cbn [fst set_label_encoders label_encoders]. rewrite lookup_insert_eq. eauto.
Qed.

Lemma fold_encode_column_fits (cols : list string) :
  forall sd : self_t * DataFrame,
    (forall col, In col cols -> In col (column_names (snd sd))) ->
    forall col,
      In col cols \/ is_Some (label_encoders (fst sd) !! col) ->
      is_Some (label_encoders (fst (fold_left encode_column cols sd)) !! col).
Proof.
  induction cols as [| c cols IH]; intros sd Hcols col H; simpl.
  - destruct H as [[] | H]. exact H.
  - apply IH.
    + intros c' Hc'. rewrite encode_column_names. apply Hcols. now right.
    + destruct H as [[<- | H] | H].
      * right. apply encode_column_fits. apply Hcols. now left.
      * now left.
      * right. apply encode_column_keeps_encoders. exact H.
Qed.

Lemma categorical_cols_are_columns (data : DataFrame) (col : string) :
  In col (categorical_cols data) -> In col (column_names data).
Proof.
  unfold categorical_cols, select_dtypes, column_names.
  rewrite !in_map_iff. intros (c & <- & Hc).
  apply filter_In in Hc. destruct Hc as [Hc _].
  apply filter_In in Hc. destruct Hc as [Hc _].
  exists c. split; [reflexivity | exact Hc].
Qed.

(** X18.  [_prepare_classification_data] fits a label encoder only for a
    column name that has none yet, and only then replaces the column by
    its codes.  So after one preparation every object-typed feature
    column has an encoder, and a later preparation with the same service
    object, of the same raw table or of any table whose object-typed
    feature columns are among those, returns the table unencoded: its
    text columns are passed on as text. *)
Theorem label_encoding_happens_once :
  forall (self : self_t) (data : DataFrame),
    let self1 := fst (fst (_prepare_classification_data self data)) in
    (forall col, In col (categorical_cols data) ->
                 is_Some (label_encoders self1 !! col)) /\
    snd (fst (_prepare_classification_data self1 data)) = data /\
    (forall later : DataFrame,
        (forall col, In col (categorical_cols later) -> In col (categorical_cols data)) ->
        snd (fst (_prepare_classification_data self1 later)) = later).
Proof.
  intros self data self1.
  assert (H1 : forall col, In col (categorical_cols data) ->
                           is_Some (label_encoders self1 !! col)).
  { intros col Hcol. subst self1.
    destruct (_prepare_classification_data_frame self data) as [_ ->].
    apply fold_encode_column_fits; [| now left].
    intros c Hc. apply categorical_cols_are_columns. exact Hc. }
  assert (H2 : forall later : DataFrame,
             (forall col, In col (categorical_cols later) -> In col (categorical_cols data)) ->
             snd (fst (_prepare_classification_data self1 later)) = later).
  { intros later Hsub.
    destruct (_prepare_classification_data_frame self1 later) as [-> _].
    rewrite fold_encode_column_skips; [reflexivity |].
    intros col Hcol. apply H1, Hsub, Hcol. }
  split; [exact H1 |]. split; [apply H2; auto | exact H2].
Qed.

End EncodeOnce.

(* ================================================================== *)
(** * The range of the heatmap's grid risk *)
(* ================================================================== *)

Section GridRisk.
Context {env : NumericEnv}.

Import VisualizationService.





End GridRisk.


(* ================================================================== *)
(** * The heatmap: its points, its summary and its bounds *)
(* ================================================================== *)

Section HeatmapShape.
Context {env : NumericEnv}.

Import VisualizationService.

Lemma sequence_Forall2 {A B} (P : A -> B -> Prop) (cells : list A) (l : list (py B)) :
  forall l' : list B,
    sequence l = Ret l' ->
    Forall2 (fun cell o => forall x, o = Ret x -> P cell x) cells l ->
    Forall2 P cells l'.
Proof.
  unfold sequence. intros l' E H. revert l' E.
  induction H as [| cell o cells l Ho _ IH]; intros l' E; simpl in E.
  - injection E as <-. constructor.
  - destruct o as [x | e]; [| discriminate E]. cbn [Py.bind] in E.
    destruct (mapM (fun x => x) l) as [xs | e]; [| discriminate E].
    cbn [Py.bind] in E. injection E as <-.
    constructor; [now apply Ho | now apply IH].
Qed.

(** What a returned heatmap is made of. *)
Definition heatmap_made_of (P : Q * Q -> HeatPoint.t -> Prop)
    (center_lat center_lng radius_km : Q) (resolution : Z) (hm : Heatmap) : Prop :=
  let lat_offset := radius_km / 111.0 in
  let lng_offset := radius_km / (111.0 * np_cos_radians center_lat) in
  let risk_scores := map HeatPoint.risk_score (heatmap_data hm) in
  exists lat_points lng_points max_risk min_risk,
    np_linspace (center_lat - lat_offset) (center_lat + lat_offset) resolution
      = Ret lat_points /\
    np_linspace (center_lng - lng_offset) (center_lng + lng_offset) resolution
      = Ret lng_points /\
    Forall2 P (flat_map (fun lat => map (fun lng => (lat, lng)) lng_points) lat_points)
            (heatmap_data hm) /\
    np_max risk_scores = Ret max_risk /\
    np_min risk_scores = Ret min_risk /\
    bounds hm = mkBounds (center_lat + lat_offset) (center_lat - lat_offset)
                         (center_lng + lng_offset) (center_lng - lng_offset) /\
    summary hm
    = mkSummary (length (heatmap_data hm)) (np_mean risk_scores) max_risk min_risk
        (length (List.filter (fun s => Qgtb s 0.6) risk_scores))
        (length (List.filter (fun s => Qgtb s 0.8) risk_scores)).

Lemma generate_risk_heatmap_made_of (D : Q -> Prop) (P : Q * Q -> HeatPoint.t -> Prop)
    (center_lat center_lng radius_km : Q) (resolution : Z) :
  (forall cell,
      rand_spec D (heat_point center_lat center_lng cell)
        (fun o => forall p, o = Ret p -> P cell p)) ->
  rand_spec D (generate_risk_heatmap center_lat center_lng radius_km resolution)
    (fun r => forall hm, r = Some hm ->
                heatmap_made_of P center_lat center_lng radius_km resolution hm).
Proof.
  intros HP. unfold generate_risk_heatmap, heatmap_made_of.
  destruct (np_linspace _ _ resolution) as [lat_points | e];
    [| apply rand_spec_ret; discriminate].
  destruct (np_linspace _ _ resolution) as [lng_points | e];
    [| apply rand_spec_ret; discriminate].
  eapply rand_spec_bind.
  - apply rand_spec_mapR with (R := fun cell o => forall p, o = Ret p -> P cell p).
    intros cell _. apply HP.
  - intros points Hpoints. apply rand_spec_ret. intros hm E.
    destruct (sequence points) as [data | e] eqn:Es; [| discriminate E].
    cbn [Py.bind] in E.
    destruct (np_max (map HeatPoint.risk_score data)) as [mx |] eqn:Emax; [| discriminate E].
    destruct (np_min (map HeatPoint.risk_score data)) as [mn |] eqn:Emin; [| discriminate E].
    cbn [Py.bind try_except] in E. injection E as <-. cbn [heatmap_data bounds summary].
    exists lat_points, lng_points, mx, mn.
    split; [reflexivity |]. split; [reflexivity |].
    split; [eapply sequence_Forall2; [exact Es | exact Hpoints] |].
    split; [exact Emax |]. split; [exact Emin |]. split; reflexivity.
Qed.

(** ** [np.max] and [np.min] *)

Lemma fold_max_spec (l : list Q) :
  forall acc : Q,
    let m := fold_left (fun acc y => if Qgtb y acc then y else acc) l acc in
    acc <= m /\ Forall (fun y => y <= m) l /\ (m = acc \/ In m l).
Proof.
  induction l as [| y l IH]; intros acc; simpl.
  - split; [lra |]. split; [constructor | now left].
  - destruct (Qgtb_spec y acc) as [Hgt | Hle].
    + destruct (IH y) as (H1 & H2 & H3).
      split; [lra |]. split; [constructor; assumption |].
      right. destruct H3 as [-> | H3]; auto.
    + destruct (IH acc) as (H1 & H2 & H3).
      split; [exact H1 |]. split; [constructor; [lra | exact H2] |].
      destruct H3 as [H3 | H3]; auto.
Qed.

Lemma fold_min_spec (l : list Q) :
  forall acc : Q,
    let m := fold_left (fun acc y => if Qltb y acc then y else acc) l acc in
    m <= acc /\ Forall (fun y => m <= y) l /\ (m = acc \/ In m l).
Proof.
  induction l as [| y l IH]; intros acc; simpl.
  - split; [lra |]. split; [constructor | now left].
  - destruct (Qltb_spec y acc) as [Hlt | Hge].
    + destruct (IH y) as (H1 & H2 & H3).
      split; [lra |]. split; [constructor; assumption |].
      right. destruct H3 as [-> | H3]; auto.
    + destruct (IH acc) as (H1 & H2 & H3).
      split; [exact H1 |]. split; [constructor; [lra | exact H2] |].
      destruct H3 as [H3 | H3]; auto.
Qed.




End HeatmapShape.

Section HeatmapSummary.
Context {env : NumericEnv}.

Import VisualizationService.




End HeatmapSummary.


Section HeatmapBounds.
Context {env : NumericEnv}.

Import VisualizationService.

Lemma np_linspace_range (start stop : Q) (num : Z) (l : list Q) :
  start <= stop ->
  np_linspace start stop num = Ret l ->
  Forall (fun x => start <= x /\ x <= stop) l.
Proof.
  intros Hle. unfold np_linspace.
  destruct (Z.ltb_spec num 0) as [Hneg | Hnum]; [discriminate |].
  intros E. injection E as <-.
  apply List.Forall_forall. intros x Hx. apply in_map_iff in Hx.
  destruct Hx as (i & <- & Hi). apply in_seq in Hi.
  destruct (Z.ltb_spec 1 num) as [Hmany | Hone]; cbn [andb].
  - destruct (Nat.eqb_spec i (Z.to_nat num - 1)) as [-> | Hlast]; [lra |].
    set (m := inject_Z (num - 1)).
    assert (Hm : 0 < m).
    { unfold m. change 0 with (inject_Z 0). rewrite <- Zlt_Qlt. lia. }
    assert (Hi' : 0 <= inject_Z (Z.of_nat i) /\ inject_Z (Z.of_nat i) <= m).
    { unfold m. change 0 with (inject_Z 0). rewrite <- !Zle_Qle. lia. }
    assert (Hstep : 0 <= (stop - start) / m).
    { apply Qle_shift_div_l; [exact Hm | lra]. }
    assert (Hfull : m * ((stop - start) / m) == stop - start).
    { apply Qmult_div_r. intros H0. rewrite H0 in Hm. lra. }
    set (step := (stop - start) / m) in *. clearbody step.
    set (k := inject_Z (Z.of_nat i)) in *. clearbody k. clearbody m.
    destruct Hi' as [Hk0 Hkm].
    assert (H1 : 0 <= k * step) by (apply Qmult_le_0_compat; assumption).
    assert (H2 : k * step <= m * step) by (apply Qmult_le_compat_r; assumption).
    split; lra.
  - assert (i = 0%nat) by lia. subst i.
    change (inject_Z (Z.of_nat 0)) with 0.
    set (step := (stop - start) / inject_Z (num - 1)). clearbody step.
    split; lra.
Qed.

Lemma offset_nonneg (radius_km c : Q) : 0 <= radius_km -> 0 <= c -> 0 <= radius_km / (111.0 * c).
Proof.
  intros Hr Hc. destruct (Qlt_le_dec 0 c) as [Hpos | Hzero].
  - apply Qle_shift_div_l; lra.
  - assert (E : 111.0 * c == 0) by lra.
    unfold Qdiv. rewrite E. change (/ 0) with 0. lra.
Qed.

Lemma in_cells (lat_points lng_points : list Q) (cell : Q * Q) :
  In cell (flat_map (fun lat => map (fun lng => (lat, lng)) lng_points) lat_points) ->
  In (fst cell) lat_points /\ In (snd cell) lng_points.
Proof.
  intros H. apply in_flat_map in H. destruct H as (lat & Hlat & H).
  apply in_map_iff in H. destruct H as (lng & <- & Hlng). split; assumption.
Qed.

Lemma heat_point_located (center_lat center_lng : Q) (cell : Q * Q) :
  rand_spec (fun _ => True) (heat_point center_lat center_lng cell)
    (fun o => forall p, o = Ret p ->
                HeatPoint.lat p = fst cell /\ HeatPoint.lng p = snd cell).
Proof.
  unfold heat_point. destruct cell as [lat lng].
  intros s _. split; [| intros n; exact I].
  unfold Random.bind. destruct (_calculate_grid_risk lat lng center_lat center_lng s) as [r s'].
  simpl. intros p E.
  destruct (colors !! VisualizationService._get_risk_level r); [| discriminate E].
  injection E as <-. split; reflexivity.
Qed.

(** X21.  For a non-negative radius and a latitude whose cosine is not
    negative, every point of a returned heatmap lies inside the bounds
    the heatmap reports: south <= lat <= north and west <= lng <= east. *)
Theorem heatmap_points_within_bounds :
  forall (center_lat center_lng radius_km : Q) (resolution : Z) (s : Random.rng)
         (hm : Heatmap),
    0 <= radius_km ->
    0 <= np_cos_radians center_lat ->
    fst (generate_risk_heatmap center_lat center_lng radius_km resolution s) = Some hm ->
    Forall (fun p =>
              (south (bounds hm) <= HeatPoint.lat p /\ HeatPoint.lat p <= north (bounds hm)) /\
              (west (bounds hm) <= HeatPoint.lng p /\ HeatPoint.lng p <= east (bounds hm)))
           (heatmap_data hm).
Proof.
  intros center_lat center_lng radius_km resolution s hm Hr Hc E.
  destruct (generate_risk_heatmap_made_of (fun _ => True)
              (fun cell p => HeatPoint.lat p = fst cell /\ HeatPoint.lng p = snd cell)
              center_lat center_lng radius_km resolution
              (heat_point_located center_lat center_lng) s) as [Hmade _];
    [intros n; exact I |].
  destruct (Hmade hm E)
    as (lat_points & lng_points & mx & mn & Hlat & Hlng & Hpoints & _ & _ & Hb & _).
  rewrite Hb. cbn [north south east west].
  assert (Hlat_off : 0 <= radius_km / 111.0) by (apply Qle_shift_div_l; lra).
  pose proof (offset_nonneg radius_km (np_cos_radians center_lat) Hr Hc) as Hlng_off.
  apply np_linspace_range in Hlat; [| lra].
  apply np_linspace_range in Hlng; [| lra].
  rewrite List.Forall_forall in Hlat, Hlng.
  assert (Hcells : Forall (fun cell =>
            (center_lat - radius_km / 111.0 <= fst cell
             /\ fst cell <= center_lat + radius_km / 111.0) /\
            (center_lng - radius_km / (111.0 * np_cos_radians center_lat) <= snd cell
             /\ snd cell <= center_lng + radius_km / (111.0 * np_cos_radians center_lat)))
          (flat_map (fun lat => map (fun lng => (lat, lng)) lng_points) lat_points)).
  { apply List.Forall_forall. intros cell Hcell. apply in_cells in Hcell.
    destruct Hcell as [H1 H2]. split; [apply Hlat; exact H1 | apply Hlng; exact H2]. }
  clear -Hpoints Hcells.
  induction Hpoints as [| cell p cells ps [Hp1 Hp2] _ IH]; [constructor |].
  inversion Hcells as [| ? ? Hcell Hrest]; subst.
  constructor; [rewrite Hp1, Hp2; exact Hcell | apply IH; exact Hrest].
Qed.

End HeatmapBounds.

Lemma heatmap_points_within_bounds_witness :
  exists hm,
    0 <= np_cos_radians (NumericEnv := Concrete.rational_env) 23.3441 /\
    fst (VisualizationService.generate_risk_heatmap (env := Concrete.rational_env)
           23.3441 85.3096 10 3 Concrete.half_draws) = Some hm /\
    length (VisualizationService.heatmap_data hm) = 9%nat /\
    Forall (fun p =>
              (VisualizationService.south (VisualizationService.bounds hm)
               <= VisualizationService.HeatPoint.lat p
               /\ VisualizationService.HeatPoint.lat p
                  <= VisualizationService.north (VisualizationService.bounds hm)) /\
              (VisualizationService.west (VisualizationService.bounds hm)
               <= VisualizationService.HeatPoint.lng p
               /\ VisualizationService.HeatPoint.lng p
                  <= VisualizationService.east (VisualizationService.bounds hm)))
           (VisualizationService.heatmap_data hm).
Proof.
  destruct (heatmap_of_positive_resolution (env := Concrete.rational_env)
              23.3441 85.3096 10 3 Concrete.half_draws ltac:(lia)) as (hm & E & Hlen & _).
  exists hm. change (Z.of_nat 3) with 3%Z in E.
  assert (Hc : 0 <= np_cos_radians (NumericEnv := Concrete.rational_env) 23.3441)
    by (vm_compute; discriminate).
  split; [exact Hc |]. split; [exact E |]. split; [exact Hlen |].
  exact (heatmap_points_within_bounds (env := Concrete.rational_env)
           23.3441 85.3096 10 3 Concrete.half_draws hm ltac:(lra) Hc E).
Defined.

(* ================================================================== *)
(** * [services/visualization.py]: priority analysis and trends *)
(* ================================================================== *)

Module VisualizationAnalytics.

(** [int(x)] of a float: truncation toward zero. *)
Definition py_int (x : Q) : Z := if Qltb x 0 then Qceiling x else Qfloor x.

Definition priority_base_counts : gmap string Z :=
  list_to_map [ ("low", 20%Z); ("medium", 15%Z); ("high", 8%Z); ("urgent", 3%Z) ].

Definition _get_priority_count (priority : string) : Random.Rand Z :=
  (let base_count := default 5%Z (priority_base_counts !! priority) in
   (* Add some location-based variation *)
   u <- Random.random ;;
   let location_factor := 0.8 + 0.4 * u in
   Random.ret (py_int (inject_Z base_count * location_factor)))%rand.

Definition priority_colors : gmap string string :=
  list_to_map
    [ ("low", "#4CAF50"); ("medium", "#FF9800"); ("high", "#F44336"); ("urgent", "#9C27B0") ].

Definition _get_priority_color (priority : string) : string :=
  default "#757575" (priority_colors !! priority).

Definition _get_urgency_level (urgency_score : Q) : string :=
  if Qgeb urgency_score 0.7 then "critical"
  else if Qgeb urgency_score 0.5 then "high"
  else if Qgeb urgency_score 0.3 then "medium"
  else "low".

Module PriorityItem.
Record t := mk {
  priority : string;
  count : Z;
  percentage : Q;
  color : string
}.
End PriorityItem.

Record PriorityAnalysis := mkPriorityAnalysis {
  priority_breakdown : list PriorityItem.t;
  total_issues : Z;
  urgency_score : Q;
  urgency_level : string
}.

Definition priorities : list string := ["low"; "medium"; "high"; "urgent"].

(** [priority_data[i]['count']] *)
Definition count_at (priority_data : list PriorityItem.t) (i : nat) : Q :=
  inject_Z (PriorityItem.count (nth i priority_data (PriorityItem.mk "" 0 0 ""))).

(** [generate_priority_analysis]: the first loop draws the counts and
    accumulates the total, the second fills in the percentages. *)
Definition generate_priority_analysis : Random.Rand PriorityAnalysis :=
  (counts <- Random.mapR _get_priority_count priorities ;;
   let total_issues := fold_left Z.add counts 0%Z in
   let priority_data :=
     map (fun pc : string * Z =>
            let (priority, count) := pc in
            PriorityItem.mk priority count
              (* Calculate percentages *)
              (if (0 <? total_issues)%Z
               then inject_Z count / inject_Z total_issues * 100 else 0)
              (_get_priority_color priority))
         (combine priorities counts) in
   (* Calculate urgency score *)
   let urgency_score :=
     if (0 <? total_issues)%Z
     then (count_at priority_data 0 * 0.1        (* low *)
           + count_at priority_data 1 * 0.3      (* medium *)
           + count_at priority_data 2 * 0.7      (* high *)
           + count_at priority_data 3 * 1.0)     (* urgent *)
          / inject_Z total_issues
     else 0 in
   Random.ret (mkPriorityAnalysis priority_data total_issues urgency_score
                 (_get_urgency_level urgency_score)))%rand.

(** ** The trend of the daily issue counts

    The issue counts are Python integers ([max(0, int(...))]), so
    [np.array(values)] and [np.arange(len(values))] are [int64] arrays:
    every operation of the slope but the final division is an [int64]
    operation, which wraps around. *)
Definition int64 (z : Z) : Z := ((z + 2 ^ 63) mod 2 ^ 64 - 2 ^ 63)%Z.

Definition np_arange (n : nat) : list Z := map Z.of_nat (List.seq 0 n).

(** [x * y], [x ** 2] and [np.sum] on [int64] arrays. *)
Definition np_multiply (x y : list Z) : list Z :=
  map (fun p => int64 (fst p * snd p)) (combine x y).

Definition np_square (x : list Z) : list Z := map (fun a => int64 (a ^ 2)) x.

Definition np_sum_int64 (l : list Z) : Z :=
  fold_left (fun acc a => int64 (acc + a)) l 0%Z.

(** [a / b] on two [int64] values is the true division: both are
    converted to doubles and the quotient is rounded.  Of the rounding
    two facts are used, both for operands below 2^53 in size, which are
    converted without error: a quotient that is an integer is returned
    as it is, and the quotient has the sign of the numerator. *)
Class TrueDivide := {
  true_divide : Z -> Z -> Q;
  true_divide_exact : forall a b q : Z,
    (Z.abs a < 2 ^ 53)%Z -> (0 < b < 2 ^ 53)%Z -> a = (q * b)%Z ->
    true_divide a b == inject_Z q;
  true_divide_sign : forall a b : Z,
    (Z.abs a < 2 ^ 53)%Z -> (0 < b < 2 ^ 53)%Z ->
    (0 < true_divide a b <-> (0 < a)%Z) /\ (true_divide a b < 0 <-> (a < 0)%Z)
}.

(** [n * np.sum(x * y) - np.sum(x) * np.sum(y)] *)
Definition slope_numerator (x y : list Z) : Z :=
  let n := Z.of_nat (length x) in
  int64 (int64 (n * np_sum_int64 (np_multiply x y))
         - int64 (np_sum_int64 x * np_sum_int64 y)).

(** [n * np.sum(x**2) - np.sum(x)**2] *)
Definition slope_denominator (x : list Z) : Z :=
  let n := Z.of_nat (length x) in
  int64 (int64 (n * np_sum_int64 (np_square x)) - int64 (np_sum_int64 x ^ 2)).

Section Trends.
Context {division : TrueDivide}.

Definition _calculate_trend (values : list Z) : Q :=
  if (length values <? 2)%nat then 0
  else
    (* Simple linear trend calculation *)
    let x := np_arange (length values) in
    let y := values in
    (* Calculate slope *)
    true_divide (slope_numerator x y) (slope_denominator x).

(** The entry ['issues'] of ['trend_direction'] in
    [_calculate_trend_summary]. *)
Definition issues_direction (issue_counts : list Z) : string :=
  if Qgtb (_calculate_trend issue_counts) 0 then "increasing" else "decreasing".

End Trends.

End VisualizationAnalytics.

Section PriorityAnalysis.

Import VisualizationAnalytics.

Lemma py_int_bounds (lo hi : Z) (x : Q) :
  0 <= x -> inject_Z lo <= x -> x < inject_Z (hi + 1) -> (lo <= py_int x <= hi)%Z.
Proof.
  intros H0 Hlo Hhi. unfold py_int.
  destruct (Qltb_spec x 0) as [Hneg | _]; [lra |].
  split.
  - rewrite <- (Qfloor_Z lo). apply Qfloor_resp_le. exact Hlo.
  - pose proof (Qfloor_le x) as Hf.
    assert (H : (Qfloor x < hi + 1)%Z) by (rewrite Zlt_Qlt; lra).
    lia.
Qed.

Ltac priority_count b :=
  unfold _get_priority_count;
  match goal with
  | |- context [priority_base_counts !! ?p] =>
      replace (priority_base_counts !! p) with (Some b) by (vm_compute; reflexivity)
  end;
  cbn [default from_option id];
  eapply rand_spec_bind; [apply rand_spec_random |];
  let u := fresh "u" in
  let Hu0 := fresh "Hu0" in
  let Hu1 := fresh "Hu1" in
  intros u [Hu0 Hu1]; apply rand_spec_ret; apply py_int_bounds; unfold inject_Z;
  try match goal with
      | |- context [(?a + 1)%Z] =>
          let v := eval vm_compute in (a + 1)%Z in change (a + 1)%Z with v
      end;
  lra.

(** A draw of [np.random.random] with the end point 1 allowed.  On IEEE
    doubles the factor [0.8 + 0.4 * u] of the largest draw below 1 is
    rounded to 1.2, the value that the exact factor takes at [u = 1]
    only. *)
Definition closed_draw (u : Q) : Prop := 0 <= u /\ u <= 1.

Lemma low_count_range :
  rand_spec closed_draw (_get_priority_count "low") (fun c => (16 <= c <= 24)%Z).
Proof. priority_count 20%Z. Qed.

Lemma medium_count_range :
  rand_spec closed_draw (_get_priority_count "medium") (fun c => (12 <= c <= 18)%Z).
Proof. priority_count 15%Z. Qed.

Lemma high_count_range :
  rand_spec closed_draw (_get_priority_count "high") (fun c => (6 <= c <= 9)%Z).
Proof. priority_count 8%Z. Qed.

Lemma urgent_count_range :
  rand_spec closed_draw (_get_priority_count "urgent") (fun c => (2 <= c <= 3)%Z).
Proof. priority_count 3%Z. Qed.

(** The range of the count drawn for each priority. *)
Definition count_in_range (priority : string) (c : Z) : Prop :=
  (priority = "low" -> (16 <= c <= 24)%Z) /\
  (priority = "medium" -> (12 <= c <= 18)%Z) /\
  (priority = "high" -> (6 <= c <= 9)%Z) /\
  (priority = "urgent" -> (2 <= c <= 3)%Z).

Lemma priority_counts_range :
  rand_spec closed_draw (Random.mapR _get_priority_count priorities)
    (fun counts => exists c0 c1 c2 c3,
       counts = [c0; c1; c2; c3] /\
       (16 <= c0 <= 24)%Z /\ (12 <= c1 <= 18)%Z /\ (6 <= c2 <= 9)%Z /\ (2 <= c3 <= 3)%Z).
Proof.
  eapply rand_spec_weaken.
  - apply rand_spec_mapR with (R := count_in_range).
    intros p Hp. unfold priorities in Hp. simpl in Hp.
    destruct Hp as [<- | [<- | [<- | [<- | []]]]].
    + eapply rand_spec_weaken; [apply low_count_range |].
      intros c Hc. cbv beta in Hc. unfold count_in_range.
      repeat match goal with |- _ /\ _ => split end;
        intros E; try discriminate E; lia.
    + eapply rand_spec_weaken; [apply medium_count_range |].
      intros c Hc. cbv beta in Hc. unfold count_in_range.
      repeat match goal with |- _ /\ _ => split end;
        intros E; try discriminate E; lia.
    + eapply rand_spec_weaken; [apply high_count_range |].
      intros c Hc. cbv beta in Hc. unfold count_in_range.
      repeat match goal with |- _ /\ _ => split end;
        intros E; try discriminate E; lia.
    + eapply rand_spec_weaken; [apply urgent_count_range |].
      intros c Hc. cbv beta in Hc. unfold count_in_range.
      repeat match goal with |- _ /\ _ => split end;
        intros E; try discriminate E; lia.
  - intros counts H. unfold priorities in H.
    inversion H as [| p0 c0 ? l0 H0 T0]; subst.
    inversion T0 as [| p1 c1 ? l1 H1 T1]; subst.
    inversion T1 as [| p2 c2 ? l2 H2 T2]; subst.
    inversion T2 as [| p3 c3 ? l3 H3 T3]; subst.
    inversion T3; subst.
    exists c0, c1, c2, c3. split; [reflexivity |].
    destruct H0 as (H0 & _), H1 as (_ & H1 & _), H2 as (_ & _ & H2 & _), H3 as (_ & _ & _ & H3).
    auto.
Qed.

Lemma share_in_percent (q T : Q) : 0 <= q -> q <= T -> 0 < T ->
  0 <= q / T * 100 /\ q / T * 100 <= 100.
Proof.
  intros H0 H1 HT.
  assert (Hlo : 0 <= q / T) by (apply Qle_shift_div_l; [exact HT | lra]).
  assert (Hhi : q / T <= 1) by (apply Qle_shift_div_r; [exact HT | lra]).
  set (r := q / T) in *. clearbody r. lra.
Qed.

(** X22.  With draws in [0, 1], the priority analysis lists the four
    priorities in order with counts in [16, 24], [12, 18], [6, 9] and
    [2, 3], between 36 and 54 issues in all; every percentage lies in
    [0, 100], and the urgency score lies strictly between 0.2 and 0.5:
    the urgency level is "low" or "medium", never "high" or "critical". *)
Theorem priority_analysis_urgency_range :
  forall s : Random.rng,
    draws_in closed_draw s ->
    let analysis := fst (generate_priority_analysis s) in
    (36 <= total_issues analysis <= 54)%Z /\
    map PriorityItem.priority (priority_breakdown analysis) = priorities /\
    Forall2 (fun item range => (fst range <= PriorityItem.count item <= snd range)%Z)
      (priority_breakdown analysis) [(16, 24); (12, 18); (6, 9); (2, 3)]%Z /\
    Forall (fun item => 0 <= PriorityItem.percentage item /\
                        PriorityItem.percentage item <= 100)
      (priority_breakdown analysis) /\
    0.2 < urgency_score analysis /\ urgency_score analysis < 0.5 /\
    (urgency_level analysis = "low" \/ urgency_level analysis = "medium").
Proof.
  intros s Hs analysis. subst analysis.
  assert (H : rand_spec closed_draw generate_priority_analysis
            (fun analysis =>
               (36 <= total_issues analysis <= 54)%Z /\
               map PriorityItem.priority (priority_breakdown analysis) = priorities /\
               Forall2 (fun item range =>
                          (fst range <= PriorityItem.count item <= snd range)%Z)
                 (priority_breakdown analysis) [(16, 24); (12, 18); (6, 9); (2, 3)]%Z /\
               Forall (fun item => 0 <= PriorityItem.percentage item /\
                                   PriorityItem.percentage item <= 100)
                 (priority_breakdown analysis) /\
               0.2 < urgency_score analysis /\ urgency_score analysis < 0.5 /\
               (urgency_level analysis = "low" \/ urgency_level analysis = "medium"))).
  { unfold generate_priority_analysis.
    eapply rand_spec_bind; [apply priority_counts_range |].
    intros counts (c0 & c1 & c2 & c3 & -> & H0 & H1 & H2 & H3).
    apply rand_spec_ret. unfold count_at.
    cbn [fold_left priorities combine map total_issues priority_breakdown urgency_score
         urgency_level nth PriorityItem.count PriorityItem.priority
         PriorityItem.percentage np_sum].
    set (total := (0 + c0 + c1 + c2 + c3)%Z).
    assert (Htotal : (36 <= total <= 54)%Z) by (unfold total; lia).
    destruct (Z.ltb_spec 0 total) as [_ | Hneg]; [| lia].
    assert (HT : inject_Z total == inject_Z c0 + inject_Z c1 + inject_Z c2 + inject_Z c3).
    { unfold total. rewrite !inject_Z_plus. unfold inject_Z at 1. lra. }
    assert (Hq0 : inject_Z 16 <= inject_Z c0 /\ inject_Z c0 <= inject_Z 24)
      by (rewrite <- !Zle_Qle; lia).
    assert (Hq1 : inject_Z 12 <= inject_Z c1 /\ inject_Z c1 <= inject_Z 18)
      by (rewrite <- !Zle_Qle; lia).
    assert (Hq2 : inject_Z 6 <= inject_Z c2 /\ inject_Z c2 <= inject_Z 9)
      by (rewrite <- !Zle_Qle; lia).
    assert (Hq3 : inject_Z 2 <= inject_Z c3 /\ inject_Z c3 <= inject_Z 3)
      by (rewrite <- !Zle_Qle; lia).
    split; [exact Htotal |]. split; [reflexivity |].
    split; [repeat constructor; cbn [fst snd PriorityItem.count]; lia |].
    set (q0 := inject_Z c0) in *. set (q1 := inject_Z c1) in *.
    set (q2 := inject_Z c2) in *. set (q3 := inject_Z c3) in *.
    set (T := inject_Z total) in *.
    clearbody q0 q1 q2 q3 T. unfold inject_Z in Hq0, Hq1, Hq2, Hq3.
    assert (HTpos : 0 < T) by lra.
    assert (Hlow : 0.2 < (q0 * 0.1 + q1 * 0.3 + q2 * 0.7 + q3 * 1.0) / T).
    { apply Qlt_shift_div_l; [exact HTpos | lra]. }
    assert (Hhigh : (q0 * 0.1 + q1 * 0.3 + q2 * 0.7 + q3 * 1.0) / T < 0.5).
    { apply Qlt_shift_div_r; [exact HTpos | lra]. }
    split.
    { repeat constructor; cbn [PriorityItem.percentage];
        apply share_in_percent; lra. }
    split; [exact Hlow |]. split; [exact Hhigh |].
    set (u := (q0 * 0.1 + q1 * 0.3 + q2 * 0.7 + q3 * 1.0) / T) in *. clearbody u.
    unfold _get_urgency_level.
    destruct (Qgeb_spec u 0.7); [lra |].
    destruct (Qgeb_spec u 0.5); [lra |].
    destruct (Qgeb_spec u 0.3); [now right | now left]. }
  destruct (H s Hs) as [Hres _].
  exact Hres.
Qed.

End PriorityAnalysis.

Lemma priority_analysis_urgency_range_witness :
  let analysis := fst (VisualizationAnalytics.generate_priority_analysis Concrete.half_draws) in
  draws_in closed_draw Concrete.half_draws /\
  VisualizationAnalytics.total_issues analysis = 46%Z /\
  0.2 < VisualizationAnalytics.urgency_score analysis /\
  VisualizationAnalytics.urgency_score analysis < 0.5 /\
  VisualizationAnalytics.urgency_level analysis = "medium".
Proof.
  intros analysis.
  assert (Hs : draws_in closed_draw Concrete.half_draws).
  { intros n. split; discriminate. }
  destruct (priority_analysis_urgency_range Concrete.half_draws Hs)
    as (_ & _ & _ & _ & Hlow & Hhigh & _).
  split; [exact Hs |]. split; [vm_compute; reflexivity |].
  split; [exact Hlow |]. split; [exact Hhigh |]. vm_compute. reflexivity.
Defined.

Section Trend.

Import VisualizationAnalytics.

Local Open Scope Z_scope.

(** Sums and products of integers without wrap-around. *)
Definition sum_Z (l : list Z) : Z := fold_right Z.add 0 l.

Definition products (x y : list Z) : list Z := map (fun p => fst p * snd p) (combine x y).

Lemma int64_small (z : Z) : - 2 ^ 63 <= z < 2 ^ 63 -> int64 z = z.
Proof. intros H. unfold int64. rewrite Z.mod_small; lia. Qed.

Lemma np_sum_int64_from (B : Z) (l : list Z) : forall acc,
  Forall (fun a => - B <= a <= B) l ->
  - 2 ^ 63 <= acc - Z.of_nat (length l) * B ->
  acc + Z.of_nat (length l) * B < 2 ^ 63 ->
  fold_left (fun acc a => int64 (acc + a)) l acc = acc + sum_Z l.
Proof.
  induction l as [| a l IH]; intros acc H Hlo Hhi.
  - simpl. lia.
  - inversion H as [| ? ? Ha Hl]; subst. cbn [fold_left sum_Z fold_right].
    cbn [length] in Hlo, Hhi. rewrite Nat2Z.inj_succ in Hlo, Hhi.
    pose proof (Nat2Z.is_nonneg (length l)) as Hn.
    assert (HB : 0 <= B) by lia.
    assert (HnB : 0 <= Z.of_nat (length l) * B) by (apply Z.mul_nonneg_nonneg; assumption).
    rewrite int64_small by lia.
    rewrite IH; [unfold sum_Z; lia | exact Hl | lia | lia].
Qed.

Lemma sum_Z_bound (B : Z) (l : list Z) :
  Forall (fun a => - B <= a <= B) l ->
  - (Z.of_nat (length l) * B) <= sum_Z l <= Z.of_nat (length l) * B.
Proof.
  induction 1 as [| a l Ha _ IH].
  - simpl. lia.
  - cbn [sum_Z fold_right length]. fold (sum_Z l). rewrite Nat2Z.inj_succ. lia.
Qed.

Lemma np_sum_int64_exact (B : Z) (l : list Z) :
  Forall (fun a => - B <= a <= B) l ->
  Z.of_nat (length l) * B < 2 ^ 63 ->
  np_sum_int64 l = sum_Z l.
Proof.
  intros H Hb. unfold np_sum_int64. rewrite (np_sum_int64_from B); [lia | exact H | lia | lia].
Qed.

Lemma product_bound (a b A B : Z) :
  - A <= a <= A -> - B <= b <= B -> - (A * B) <= a * b <= A * B.
Proof. intros Ha Hb. nia. Qed.

Lemma products_bound (A B : Z) (x y : list Z) :
  Forall (fun a => - A <= a <= A) x -> Forall (fun b => - B <= b <= B) y ->
  Forall (fun c => - (A * B) <= c <= A * B) (products x y).
Proof.
  intros Hx. revert y. induction Hx as [| a x Ha _ IH]; intros y Hy.
  - constructor.
  - destruct Hy as [| b y Hb Hy]; [constructor |].
    cbn [products combine map fst snd]. constructor.
    + apply product_bound; assumption.
    + apply IH. exact Hy.
Qed.

Lemma np_multiply_exact (A B : Z) (x y : list Z) :
  Forall (fun a => - A <= a <= A) x -> Forall (fun b => - B <= b <= B) y ->
  A * B < 2 ^ 63 ->
  np_multiply x y = products x y.
Proof.
  intros Hx. revert y. induction Hx as [| a x Ha _ IH]; intros y Hy HAB.
  - reflexivity.
  - destruct Hy as [| b y Hb Hy]; [reflexivity |].
    unfold np_multiply, products in *. cbn [combine map fst snd]. f_equal.
    + apply int64_small. pose proof (product_bound a b A B Ha Hb). lia.
    + apply IH; assumption.
Qed.

Lemma products_length (x y : list Z) : length x = length y -> length (products x y) = length x.
Proof.
  intros E. unfold products. rewrite length_map, length_combine. lia.
Qed.

Lemma np_arange_length (n : nat) : length (np_arange n) = n.
Proof. unfold np_arange. rewrite length_map. apply length_seq. Qed.

Lemma np_arange_S (n : nat) : np_arange (S n) = (np_arange n ++ [Z.of_nat n])%list.
Proof. unfold np_arange. rewrite seq_S, map_app. reflexivity. Qed.

Lemma np_arange_range (n : nat) :
  Forall (fun a => 0 <= a < Z.of_nat n) (np_arange n).
Proof.
  unfold np_arange. apply List.Forall_map. apply List.Forall_forall.
  intros i Hi. apply in_seq in Hi. lia.
Qed.

Lemma sum_Z_app (l1 l2 : list Z) : sum_Z (l1 ++ l2) = sum_Z l1 + sum_Z l2.
Proof.
  induction l1 as [| a l1 IH]; cbn [app sum_Z fold_right]; [reflexivity |].
  fold (sum_Z (l1 ++ l2)). fold (sum_Z l1). lia.
Qed.

Lemma sum_np_arange (n : nat) :
  2 * sum_Z (np_arange n) = Z.of_nat n * (Z.of_nat n - 1).
Proof.
  induction n as [| n IH]; [reflexivity |].
  rewrite np_arange_S, sum_Z_app. cbn [sum_Z fold_right]. nia.
Qed.

Lemma sum_squares_np_arange (n : nat) :
  6 * sum_Z (map (fun a => a ^ 2) (np_arange n))
  = (Z.of_nat n - 1) * Z.of_nat n * (2 * Z.of_nat n - 1).
Proof.
  induction n as [| n IH]; [reflexivity |].
  rewrite np_arange_S, map_app, sum_Z_app. cbn [map sum_Z fold_right]. nia.
Qed.

Lemma np_square_exact (A : Z) (x : list Z) :
  Forall (fun a => - A <= a <= A) x -> A * A < 2 ^ 63 ->
  np_square x = map (fun a => a ^ 2) x.
Proof.
  intros Hx HA. unfold np_square. apply map_ext_in. intros a Ha.
  rewrite List.Forall_forall in Hx. specialize (Hx a Ha).
  rewrite Z.pow_2_r. apply int64_small.
  pose proof (product_bound a a A A Hx Hx). lia.
Qed.

Lemma squares_bound (A : Z) (x : list Z) :
  Forall (fun a => - A <= a <= A) x ->
  Forall (fun c => - (A * A) <= c <= A * A) (map (fun a => a ^ 2) x).
Proof.
  intros Hx. apply List.Forall_map. eapply List.Forall_impl; [| exact Hx].
  intros a Ha. cbv beta. rewrite Z.pow_2_r. apply product_bound; exact Ha.
Qed.

Lemma sum_Z_linear (a d : Z) (x : list Z) :
  sum_Z (map (fun i => a + d * i) x) = Z.of_nat (length x) * a + d * sum_Z x.
Proof.
  induction x as [| v x IH]; [cbn [map sum_Z fold_right length]; lia |].
  cbn [map sum_Z fold_right length]. fold (sum_Z (map (fun i => a + d * i) x)).
  fold (sum_Z x). rewrite IH, Nat2Z.inj_succ. lia.
Qed.

Lemma sum_Z_products_linear (a d : Z) (x : list Z) :
  sum_Z (products x (map (fun i => a + d * i) x))
  = a * sum_Z x + d * sum_Z (map (fun v => v ^ 2) x).
Proof.
  unfold products. induction x as [| v x IH]; [cbn [map combine sum_Z fold_right]; lia |].
  cbn [map combine sum_Z fold_right fst snd].
  fold (sum_Z (map (fun p => fst p * snd p) (combine x (map (fun i => a + d * i) x)))).
  fold (sum_Z x). fold (sum_Z (map (fun v => v ^ 2) x)). rewrite IH. lia.
Qed.

Lemma repeat_is_line (c : Z) (n : nat) :
  repeat c n = map (fun i => c + 0 * i) (np_arange n).
Proof.
  unfold np_arange. rewrite map_map.
  induction n as [| n IH]; [reflexivity |].
  rewrite seq_S, map_app, <- IH. cbn [map]. rewrite Z.add_0_r.
  rewrite <- repeat_cons. reflexivity.
Qed.

(** Within the bounds no operation of the slope wraps around, and both
    operands of the division are below 2^53 in size. *)
Lemma slope_exact (values : list Z) :
  (2 <= length values <= 1000)%nat ->
  Forall (fun y => - 10 ^ 6 <= y <= 10 ^ 6) values ->
  let n := Z.of_nat (length values) in
  let x := np_arange (length values) in
  slope_numerator x values = n * sum_Z (products x values) - sum_Z x * sum_Z values /\
  Z.abs (slope_numerator x values) < 2 ^ 53 /\
  slope_denominator x = n * sum_Z (map (fun a => a ^ 2) x) - sum_Z x ^ 2 /\
  12 * slope_denominator x = n ^ 2 * (n ^ 2 - 1) /\
  0 < slope_denominator x < 2 ^ 53.
Proof.
  intros Hlen Hy n x.
  assert (Hn : 2 <= n <= 1000) by (unfold n; lia).
  assert (Ex : length x = length values) by apply np_arange_length.
  assert (Hx : Forall (fun a => - 1000 <= a <= 1000) x).
  { eapply List.Forall_impl; [| apply np_arange_range]. cbv beta. intros a Ha. lia. }
  pose proof (products_bound 1000 (10 ^ 6) x values Hx Hy) as Hxy.
  pose proof (squares_bound 1000 x Hx) as Hxx.
  assert (Emul : np_multiply x values = products x values)
    by (apply (np_multiply_exact 1000 (10 ^ 6)); [exact Hx | exact Hy | lia]).
  assert (Esq : np_square x = map (fun a => a ^ 2) x)
    by (apply (np_square_exact 1000); [exact Hx | lia]).
  assert (ESxy : np_sum_int64 (products x values) = sum_Z (products x values)).
  { apply (np_sum_int64_exact (1000 * 10 ^ 6)); [exact Hxy |].
    rewrite products_length by exact Ex. rewrite Ex. fold n. lia. }
  assert (ES1 : np_sum_int64 x = sum_Z x).
  { apply (np_sum_int64_exact 1000); [exact Hx |]. rewrite Ex. fold n. lia. }
  assert (ESy : np_sum_int64 values = sum_Z values).
  { apply (np_sum_int64_exact (10 ^ 6)); [exact Hy |]. fold n. lia. }
  assert (ES2 : np_sum_int64 (map (fun a => a ^ 2) x) = sum_Z (map (fun a => a ^ 2) x)).
  { apply (np_sum_int64_exact (1000 * 1000)); [exact Hxx |].
    rewrite length_map, Ex. fold n. lia. }
  pose proof (sum_Z_bound (1000 * 10 ^ 6) _ Hxy) as BSxy. rewrite products_length, Ex in BSxy by exact Ex.
  pose proof (sum_Z_bound 1000 _ Hx) as BS1. rewrite Ex in BS1.
  pose proof (sum_Z_bound (10 ^ 6) _ Hy) as BSy.
  pose proof (sum_Z_bound (1000 * 1000) _ Hxx) as BS2. rewrite length_map, Ex in BS2.
  fold n in BSxy, BS1, BSy, BS2.
  pose proof (sum_np_arange (length values)) as H1.
  pose proof (sum_squares_np_arange (length values)) as H2.
  fold x n in H1, H2.
  unfold slope_numerator, slope_denominator. cbv zeta.
  rewrite Emul, Esq, ESxy, ES1, ESy, ES2, Ex. fold n.
  set (Sxy := sum_Z (products x values)) in *.
  set (S1 := sum_Z x) in *. set (Sy := sum_Z values) in *.
  set (S2 := sum_Z (map (fun a => a ^ 2) x)) in *.
  clearbody Sxy S1 Sy S2 n. clear - Hn BSxy BS1 BSy BS2 H1 H2.
  assert (B1 : - 10 ^ 15 <= n * Sxy <= 10 ^ 15) by nia.
  assert (B2 : - 10 ^ 15 <= S1 * Sy <= 10 ^ 15) by nia.
  assert (B3 : - 10 ^ 12 <= n * S2 <= 10 ^ 12) by nia.
  assert (B4 : 0 <= S1 ^ 2 <= 10 ^ 12) by nia.
  rewrite (int64_small (n * Sxy)), (int64_small (S1 * Sy)), (int64_small (n * S2)),
    (int64_small (S1 ^ 2)) by lia.
  rewrite !int64_small by lia.
  assert (E12 : 12 * (n * S2 - S1 ^ 2) = n ^ 2 * (n ^ 2 - 1)).
  { transitivity (2 * n * (6 * S2) - 3 * (2 * S1) ^ 2); [ring |]. rewrite H1, H2. ring. }
  assert (Hpos : 0 < n ^ 2 * (n ^ 2 - 1)) by nia.
  repeat split; try reflexivity; try lia.
Qed.

Section TrendFacts.
Context {division : TrueDivide}.

Lemma trend_of_few (values : list Z) :
  (length values < 2)%nat -> _calculate_trend values = 0%Q.
Proof.
  intros H. unfold _calculate_trend.
  destruct (Nat.ltb_spec (length values) 2); [reflexivity | lia].
Qed.

Lemma trend_of_line (values : list Z) (a d : Z) :
  (2 <= length values <= 1000)%nat ->
  Forall (fun y => - 10 ^ 6 <= y <= 10 ^ 6) values ->
  values = map (fun i => a + d * i) (np_arange (length values)) ->
  (_calculate_trend values == inject_Z d)%Q.
Proof.
  intros Hlen Hy Hv.
  destruct (slope_exact values Hlen Hy) as (Enum & Bnum & Eden & _ & Bden).
  unfold _calculate_trend.
  destruct (Nat.ltb_spec (length values) 2); [lia |]. cbv zeta.
  apply true_divide_exact; [exact Bnum | exact Bden |].
  rewrite Enum, Eden.
  pose proof (np_arange_length (length values)) as Ex.
  set (x := np_arange (length values)) in *. clearbody x.
  rewrite Hv at 2 3. rewrite sum_Z_products_linear, sum_Z_linear, Ex. ring.
Qed.

Lemma trend_sign (values : list Z) :
  (2 <= length values <= 1000)%nat ->
  Forall (fun y => - 10 ^ 6 <= y <= 10 ^ 6) values ->
  let x := np_arange (length values) in
  ((0 < _calculate_trend values)%Q
   <-> sum_Z x * sum_Z values < Z.of_nat (length values) * sum_Z (products x values)).
Proof.
  intros Hlen Hy x.
  destruct (slope_exact values Hlen Hy) as (Enum & Bnum & _ & _ & Bden).
  unfold _calculate_trend.
  destruct (Nat.ltb_spec (length values) 2); [lia |]. cbv zeta.
  destruct (true_divide_sign _ _ Bnum Bden) as [Hs _].
  rewrite Hs, Enum. fold x. lia.
Qed.

End TrendFacts.

(** X23.  On at most 1000 integer values of size at most 10^6
    [_calculate_trend] computes its slope without any wrap-around:
    the numerator is [n * sum (i * y_i) - sum i * sum y_i], the
    denominator is [n^2 * (n^2 - 1) / 12], which is positive, and both
    are below 2^53 in size.  On values that lie on a line of integer
    slope, [a + d * i] for i = 0 .. n-1, it answers exactly [d]; in
    particular 0 on constant values. *)
Theorem trend_of_integer_counts :
  forall (division : TrueDivide) (values : list Z),
    (2 <= length values <= 1000)%nat ->
    Forall (fun y => - 10 ^ 6 <= y <= 10 ^ 6) values ->
    let n := Z.of_nat (length values) in
    let x := np_arange (length values) in
    slope_numerator x values = n * sum_Z (products x values) - sum_Z x * sum_Z values /\
    Z.abs (slope_numerator x values) < 2 ^ 53 /\
    12 * slope_denominator x = n ^ 2 * (n ^ 2 - 1) /\
    0 < slope_denominator x < 2 ^ 53 /\
    (forall a d : Z, values = map (fun i => a + d * i) x ->
                     (_calculate_trend values == inject_Z d)%Q) /\
    (forall c : Z, values = repeat c (length values) -> (_calculate_trend values == 0)%Q).
Proof.
  intros division values Hlen Hy n x.
  destruct (slope_exact values Hlen Hy) as (Enum & Bnum & _ & E12 & Bden).
  split; [exact Enum |]. split; [exact Bnum |]. split; [exact E12 |]. split; [exact Bden |].
  split.
  - intros a d Hv. apply (trend_of_line values a d Hlen Hy Hv).
  - intros c Hv. rewrite repeat_is_line in Hv.
    apply (trend_of_line values c 0 Hlen Hy Hv).
Qed.

(** X24.  The issues direction of the trend summary has no "stable"
    answer.  On at most 1000 integer counts of size at most 10^6:
    fewer than two counts and constant counts are reported
    "decreasing"; from two counts on the answer is "increasing" exactly
    when [n * sum (i * y_i)] exceeds [sum i * sum y_i]; counts on a line
    of integer slope [d] are "increasing" exactly when [d > 0]. *)
Theorem issues_direction_of_counts :
  forall (division : TrueDivide) (issue_counts : list Z),
    (length issue_counts <= 1000)%nat ->
    Forall (fun y => - 10 ^ 6 <= y <= 10 ^ 6) issue_counts ->
    let n := Z.of_nat (length issue_counts) in
    let x := np_arange (length issue_counts) in
    ((length issue_counts < 2)%nat -> issues_direction issue_counts = "decreasing") /\
    (forall c : Z, issue_counts = repeat c (length issue_counts) ->
                   issues_direction issue_counts = "decreasing") /\
    ((2 <= length issue_counts)%nat ->
     (issues_direction issue_counts = "increasing"
      <-> sum_Z x * sum_Z issue_counts < n * sum_Z (products x issue_counts))) /\
    (forall a d : Z,
        (2 <= length issue_counts)%nat ->
        issue_counts = map (fun i => a + d * i) x ->
        (issues_direction issue_counts = "increasing" <-> 0 < d)).
Proof.
  intros division issue_counts Hlen Hy n x.
  assert (Hfew : (length issue_counts < 2)%nat -> issues_direction issue_counts = "decreasing").
  { intros H. unfold issues_direction. rewrite (trend_of_few _ H). reflexivity. }
  assert (Hdir : forall t : Q,
             (if Qgtb t 0 then "increasing" else "decreasing") = "increasing" <-> (0 < t)%Q).
  { intros t. destruct (Qgtb_spec t 0) as [H | H].
    - split; [intros _; exact H | reflexivity].
    - split; [discriminate | intros H'; lra]. }
  split; [exact Hfew |]. split; [| split].
  - intros c Hv.
    destruct (Nat.lt_ge_cases (length issue_counts) 2) as [H | H]; [apply Hfew; exact H |].
    rewrite repeat_is_line in Hv.
    pose proof (trend_of_line issue_counts c 0 (conj H Hlen) Hy Hv) as E.
    unfold issues_direction.
    destruct (Qgtb (_calculate_trend issue_counts) 0) eqn:Eg; [| reflexivity].
    pose proof (proj1 (Hdir (_calculate_trend issue_counts))) as Hd.
    rewrite Eg in Hd. specialize (Hd eq_refl). rewrite E in Hd. discriminate Hd.
  - intros H. unfold issues_direction. rewrite Hdir.
    apply (trend_sign issue_counts (conj H Hlen) Hy).
  - intros a d H Hv. unfold issues_direction. rewrite Hdir.
    rewrite (trend_of_line issue_counts a d (conj H Hlen) Hy Hv).
    change 0%Q with (inject_Z 0). rewrite <- Zlt_Qlt. reflexivity.
Qed.

End Trend.

Lemma exact_divide_exact (a b q : Z) :
  (Z.abs a < 2 ^ 53)%Z -> (0 < b < 2 ^ 53)%Z -> a = (q * b)%Z ->
  inject_Z a / inject_Z b == inject_Z q.
Proof.
  intros _ [Hb _] ->. rewrite inject_Z_mult.
  assert (H : 0 < inject_Z b) by (change 0 with (inject_Z 0); rewrite <- Zlt_Qlt; exact Hb).
  field. intros E. rewrite E in H. lra.
Qed.

Lemma exact_divide_sign (a b : Z) :
  (Z.abs a < 2 ^ 53)%Z -> (0 < b < 2 ^ 53)%Z ->
  (0 < inject_Z a / inject_Z b <-> (0 < a)%Z) /\
  (inject_Z a / inject_Z b < 0 <-> (a < 0)%Z).
Proof.
  intros _ [Hb _].
  assert (H : 0 < inject_Z b) by (change 0 with (inject_Z 0); rewrite <- Zlt_Qlt; exact Hb).
  rewrite !Zlt_Qlt. change (inject_Z 0) with 0.
  set (qa := inject_Z a) in *. set (qb := inject_Z b) in *. clearbody qa qb.
  split; split; intros Ha.
  - destruct (Qlt_le_dec 0 qa) as [H' | H']; [exact H' |].
    assert (qa / qb <= 0) by (apply Qle_shift_div_r; [exact H | lra]). lra.
  - apply Qlt_shift_div_l; [exact H | lra].
  - destruct (Qlt_le_dec qa 0) as [H' | H']; [exact H' |].
    assert (0 <= qa / qb) by (apply Qle_shift_div_l; [exact H | lra]). lra.
  - apply Qlt_shift_div_r; [exact H | lra].
Qed.

(** The division without rounding. *)
Definition exact_division : VisualizationAnalytics.TrueDivide := {|
  VisualizationAnalytics.true_divide := fun a b => inject_Z a / inject_Z b;
  VisualizationAnalytics.true_divide_exact := exact_divide_exact;
  VisualizationAnalytics.true_divide_sign := exact_divide_sign
|}.

Lemma trend_of_integer_counts_witness :
  (VisualizationAnalytics._calculate_trend (division := exact_division) [1; 3; 5]%Z == 2) /\
  (VisualizationAnalytics._calculate_trend (division := exact_division) [4; 4; 4]%Z == 0).
Proof.
  assert (Hlen : forall a b c : Z, (2 <= length [a; b; c] <= 1000)%nat) by (intros; simpl; lia).
  assert (H1 : Forall (fun y => (- 10 ^ 6 <= y <= 10 ^ 6)%Z) [1; 3; 5]%Z)
    by (repeat constructor; lia).
  assert (H2 : Forall (fun y => (- 10 ^ 6 <= y <= 10 ^ 6)%Z) [4; 4; 4]%Z)
    by (repeat constructor; lia).
  split.
  - destruct (trend_of_integer_counts exact_division [1; 3; 5]%Z (Hlen _ _ _) H1)
      as (_ & _ & _ & _ & Hline & _).
    apply (Hline 1 2)%Z. reflexivity.
  - destruct (trend_of_integer_counts exact_division [4; 4; 4]%Z (Hlen _ _ _) H2)
      as (_ & _ & _ & _ & _ & Hflat).
    apply (Hflat 4%Z). reflexivity.
Defined.

Lemma issues_direction_of_counts_witness :
  VisualizationAnalytics.issues_direction (division := exact_division) [4; 4; 4]%Z
  = "decreasing" /\
  VisualizationAnalytics.issues_direction (division := exact_division) [3; 5; 4; 8]%Z
  = "increasing".
Proof.
  assert (H1 : Forall (fun y => (- 10 ^ 6 <= y <= 10 ^ 6)%Z) [4; 4; 4]%Z)
    by (repeat constructor; lia).
  assert (H2 : Forall (fun y => (- 10 ^ 6 <= y <= 10 ^ 6)%Z) [3; 5; 4; 8]%Z)
    by (repeat constructor; lia).
  split.
  - destruct (issues_direction_of_counts exact_division [4; 4; 4]%Z ltac:(simpl; lia) H1)
      as (_ & Hflat & _).
    apply (Hflat 4%Z). reflexivity.
  - destruct (issues_direction_of_counts exact_division [3; 5; 4; 8]%Z ltac:(simpl; lia) H2)
      as (_ & _ & Hsign & _).
    apply Hsign; [simpl; lia | vm_compute; reflexivity].
Defined.

(* ================================================================== *)
(** * [services/weather_service.py]: the risk assessments *)
(* ================================================================== *)

Module WeatherService.

(** [max(l) if l else dflt] and [min(l) if l else dflt]. *)
Definition max_or (dflt : Q) (l : list Q) : Q :=
  match l with
  | [] => dflt
  | x :: l' => fold_left (fun acc y => if Qgtb y acc then y else acc) l' x
  end.

Definition min_or (dflt : Q) (l : list Q) : Q :=
  match l with
  | [] => dflt
  | x :: l' => fold_left (fun acc y => if Qltb y acc then y else acc) l' x
  end.

Definition _get_weather_description (temperature precipitation : Q) : string :=
  if Qgtb precipitation 10 then "Heavy rain"
  else if Qgtb precipitation 2 then "Light rain"
  else if Qgtb temperature 35 then "Hot and sunny"
  else if Qltb temperature 10 then "Cold"
  else "Partly cloudy".

(** [np.mean] of a non-empty list of doubles is a rounded sum divided by
    the count.  It can differ from the exact mean in the last place, and
    then lie outside the range of the readings (three readings of 10.7
    average 10.699999999999998), so nothing is assumed of its value. *)
Class FloatMean := { float_mean : list Q -> Q }.

Section Assessments.
Context {mean : FloatMean}.

(** [np.mean(l) if l else dflt] *)
Definition mean_or (dflt : Q) (l : list Q) : Q :=
  if truthy_list l then float_mean l else dflt.

Record PrecipitationRisk := mkPrecipitationRisk {
  flood_risk : string;
  waterlogging_risk : string;
  total_precipitation : Q;
  max_hourly_precipitation : Q;
  avg_precipitation : Q;
  precipitation_risk_score : Q
}.

Definition _assess_precipitation_risk (precipitations : list Q) : PrecipitationRisk :=
  let total_precip := np_sum precipitations in
  let max_precip := max_or 0 precipitations in
  let avg_precip := mean_or 0 precipitations in
  (* Risk assessment *)
  let flood_risk :=
    if Qgtb total_precip 50 then "high"
    else if Qgtb total_precip 25 then "medium"
    else "low" in
  let waterlogging_risk :=
    if Qgtb max_precip 20 then "high"
    else if Qgtb max_precip 10 then "medium"
    else "low" in
  mkPrecipitationRisk flood_risk waterlogging_risk total_precip max_precip avg_precip
    (pymin 1 ((total_precip / 100) + (max_precip / 50))).

Record TemperatureRisk := mkTemperatureRisk {
  heat_risk : string;
  cold_risk : string;
  avg_temperature : Q;
  max_temperature : Q;
  min_temperature : Q;
  temperature_risk_score : Q
}.

Definition _assess_temperature_risk (temperatures : list Q) : TemperatureRisk :=
  let avg_temp := mean_or 25 temperatures in
  let max_temp := max_or 25 temperatures in
  let min_temp := min_or 25 temperatures in
  (* Risk assessment *)
  let heat_risk :=
    if Qgtb max_temp 40 then "high"
    else if Qgtb max_temp 35 then "medium"
    else "low" in
  let cold_risk :=
    if Qltb min_temp 5 then "high"
    else if Qltb min_temp 10 then "medium"
    else "low" in
  mkTemperatureRisk heat_risk cold_risk avg_temp max_temp min_temp
    (* Risk based on deviation from optimal *)
    (pymin 1 (Qabs (avg_temp - 25) / 20)).

End Assessments.

(** The number of forecast periods of a timeframe, before and after the
    cap [min(periods, 40)]. *)
Definition periods (timeframe : string) : Z :=
  if String.eqb timeframe "1_day" then 8
  else if String.eqb timeframe "7_days" then 56
  else 240.

Definition forecast_periods (timeframe : string) : Z := Z.min (periods timeframe) 40.

End WeatherService.

(** Three readings of 10.7 average, on IEEE doubles, to less than 10.7. *)
Lemma mean_of_equal_readings_is_rounded :
  PrimFloat.ltb (Binary64Synthesis.np_mean [10.7; 10.7; 10.7]%float) 10.7%float = true.
Proof. vm_compute. reflexivity. Qed.

Section WeatherRisk.

Import WeatherService.

Lemma max_or_spec (dflt : Q) (x : Q) (l : list Q) :
  Forall (fun y => y <= max_or dflt (x :: l)) (x :: l) /\ In (max_or dflt (x :: l)) (x :: l).
Proof.
  simpl. destruct (fold_max_spec l x) as (H1 & H2 & H3).
  split; [constructor; assumption |]. destruct H3 as [-> | H3]; auto.
Qed.

Lemma min_or_spec (dflt : Q) (x : Q) (l : list Q) :
  Forall (fun y => min_or dflt (x :: l) <= y) (x :: l) /\ In (min_or dflt (x :: l)) (x :: l).
Proof.
  simpl. destruct (fold_min_spec l x) as (H1 & H2 & H3).
  split; [constructor; assumption |]. destruct H3 as [-> | H3]; auto.
Qed.

Lemma In_le_np_sum (l : list Q) (m : Q) :
  Forall (fun x => 0 <= x) l -> In m l -> m <= np_sum l.
Proof.
  induction 1 as [| x l Hx Hl IH]; intros Hin; [destruct Hin |].
  simpl. destruct Hin as [-> | Hin].
  - pose proof (np_sum_nonneg l Hl). lra.
  - specialize (IH Hin). lra.
Qed.

End WeatherRisk.

Section WeatherTheorems.

Import WeatherService.

Context {mean : FloatMean}.

Lemma max_or_above (dflt c : Q) (l : list Q) :
  l <> [] -> (c < max_or dflt l <-> exists t, In t l /\ c < t).
Proof.
  intros Hne. destruct l as [| x l]; [congruence |].
  destruct (max_or_spec dflt x l) as [Hall Hin]. split.
  - intros H. exists (max_or dflt (x :: l)). split; assumption.
  - intros (t & Ht & Hc). rewrite List.Forall_forall in Hall. specialize (Hall t Ht). lra.
Qed.

Lemma min_or_below (dflt c : Q) (l : list Q) :
  l <> [] -> (min_or dflt l < c <-> exists t, In t l /\ t < c).
Proof.
  intros Hne. destruct l as [| x l]; [congruence |].
  destruct (min_or_spec dflt x l) as [Hall Hin]. split.
  - intros H. exists (min_or dflt (x :: l)). split; assumption.
  - intros (t & Ht & Hc). rewrite List.Forall_forall in Hall. specialize (Hall t Ht). lra.
Qed.

(** X25.  For every list of temperatures, and whatever the rounding of
    their mean, the temperature risk score lies in [0, 1]; heat risk is
    "high" exactly when some reading exceeds 40 and cold risk is "high"
    exactly when some reading is below 5; the reported maximum and
    minimum are readings that bound every reading.  On the empty list
    everything defaults to 25, both risks are "low" and the score is 0.
    Readings all within [10, 35] give both risks "low". *)
Theorem temperature_risk_assessment :
  forall temperatures : list Q,
    let r := _assess_temperature_risk temperatures in
    (0 <= temperature_risk_score r /\ temperature_risk_score r <= 1) /\
    (heat_risk r = "high" <-> exists t, In t temperatures /\ 40 < t) /\
    (cold_risk r = "high" <-> exists t, In t temperatures /\ t < 5) /\
    (temperatures <> [] ->
     In (max_temperature r) temperatures /\ In (min_temperature r) temperatures /\
     Forall (fun t => min_temperature r <= t /\ t <= max_temperature r) temperatures) /\
    (temperatures = [] ->
     heat_risk r = "low" /\ cold_risk r = "low" /\ avg_temperature r = 25 /\
     max_temperature r = 25 /\ min_temperature r = 25 /\ temperature_risk_score r == 0) /\
    (Forall (fun t => 10 <= t /\ t <= 35) temperatures ->
     heat_risk r = "low" /\ cold_risk r = "low").
Proof.
  intros temperatures r. subst r. unfold _assess_temperature_risk.
  cbn [temperature_risk_score heat_risk cold_risk avg_temperature max_temperature
       min_temperature].
  split.
  { split; [| apply pymin_le_l].
    apply pymin_glb; [lra |]. apply Qle_shift_div_l; [lra |].
    pose proof (Qabs_nonneg (mean_or 25 temperatures - 25)). lra. }
  destruct temperatures as [| x l].
  - cbn [max_or min_or mean_or truthy_list].
    split; [split; [discriminate | intros (t & [] & _)] |].
    split; [split; [discriminate | intros (t & [] & _)] |].
    split; [congruence |].
    split; [intros _; repeat split; reflexivity |].
    intros _. split; reflexivity.
  - assert (Hne : x :: l <> []) by discriminate.
    pose proof (max_or_above 25 40 (x :: l) Hne) as Hmax40.
    pose proof (min_or_below 25 5 (x :: l) Hne) as Hmin5.
    destruct (max_or_spec 25 x l) as [Hmax Hmax_in].
    destruct (min_or_spec 25 x l) as [Hmin Hmin_in].
    set (mx := max_or 25 (x :: l)) in *. set (mn := min_or 25 (x :: l)) in *.
    split.
    { rewrite <- Hmax40. destruct (Qgtb_spec mx 40) as [H | H].
      - tauto.
      - split; [| intros H'; lra]. destruct (Qgtb mx 35); discriminate. }
    split.
    { rewrite <- Hmin5. destruct (Qltb_spec mn 5) as [H | H].
      - tauto.
      - split; [| intros H'; lra]. destruct (Qltb mn 10); discriminate. }
    split.
    { intros _. split; [exact Hmax_in |]. split; [exact Hmin_in |].
      rewrite List.Forall_forall in *. intros t Ht.
      split; [apply Hmin | apply Hmax]; exact Ht. }
    split; [discriminate |].
    intros Hall.
    rewrite List.Forall_forall in Hall.
    destruct (Hall mx Hmax_in) as [_ Hmx]. destruct (Hall mn Hmin_in) as [Hmn _].
    destruct (Qgtb_spec mx 40); [lra |]. destruct (Qgtb_spec mx 35); [lra |].
    destruct (Qltb_spec mn 5); [lra |]. destruct (Qltb_spec mn 10); [lra |].
    split; reflexivity.
Qed.

(** X26.  For every list of precipitation readings the precipitation risk
    score is at most 1, and waterlogging risk is "high" exactly when some
    reading exceeds 20; on the empty list both risks are "low" and every
    figure is 0.  When no reading is negative, the score is not negative,
    the maximum is at most the total, a "high" waterlogging risk comes
    with a score above 0.6 and a "high" flood risk with a score above
    0.5. *)
Theorem precipitation_risk_assessment :
  forall precipitations : list Q,
    let r := _assess_precipitation_risk precipitations in
    precipitation_risk_score r <= 1 /\
    (waterlogging_risk r = "high" <-> exists p, In p precipitations /\ 20 < p) /\
    (precipitations = [] ->
     flood_risk r = "low" /\ waterlogging_risk r = "low" /\ total_precipitation r = 0 /\
     max_hourly_precipitation r = 0 /\ avg_precipitation r = 0 /\
     precipitation_risk_score r == 0) /\
    (Forall (fun p => 0 <= p) precipitations ->
     0 <= precipitation_risk_score r /\
     max_hourly_precipitation r <= total_precipitation r /\
     (waterlogging_risk r = "high" -> 0.6 < precipitation_risk_score r) /\
     (flood_risk r = "high" -> 0.5 < precipitation_risk_score r)).
Proof.
  intros precipitations r. subst r. unfold _assess_precipitation_risk.
  cbn [precipitation_risk_score flood_risk waterlogging_risk total_precipitation
       max_hourly_precipitation avg_precipitation].
  split; [apply pymin_le_l |].
  destruct precipitations as [| x l].
  - cbn [max_or mean_or truthy_list np_sum].
    split; [split; [discriminate | intros (t & [] & _)] |].
    split; [intros _; repeat split; reflexivity |].
    intros _. split; [vm_compute; discriminate |]. split; [lra |].
    split; discriminate.
  - assert (Hne : x :: l <> []) by discriminate.
    pose proof (max_or_above 0 20 (x :: l) Hne) as Hmax20.
    destruct (max_or_spec 0 x l) as [Hmax Hmax_in].
    set (mx := max_or 0 (x :: l)) in *. set (total := np_sum (x :: l)).
    split.
    { rewrite <- Hmax20. destruct (Qgtb_spec mx 20) as [H | H].
      - tauto.
      - split; [| intros H'; lra]. destruct (Qgtb mx 10); discriminate. }
    split; [discriminate |].
    intros Hall.
    assert (Hmx_total : mx <= total) by (apply In_le_np_sum; assumption).
    assert (Hmx0 : 0 <= mx).
    { rewrite List.Forall_forall in Hall. apply Hall. exact Hmax_in. }
    assert (Hsum : total / 100 + mx / 50 == total * (1 # 100) + mx * (1 # 50))
      by (unfold Qdiv; reflexivity).
    fold total. clearbody mx total.
    destruct (pymin_spec 1 (total / 100 + mx / 50)) as [[Hlt ->] | [Hge ->]].
    + rewrite Hsum in *. split; [lra |]. split; [exact Hmx_total |]. split.
      * destruct (Qgtb_spec mx 20) as [H | H]; [intros _; lra |].
        destruct (Qgtb mx 10); discriminate.
      * destruct (Qgtb_spec total 50) as [H | H]; [intros _; lra |].
        destruct (Qgtb total 25); discriminate.
    + split; [lra |]. split; [exact Hmx_total |]. split; intros _; lra.
Qed.

(** X27.  In [_get_weather_description] rain takes precedence over
    temperature: the answer is "Heavy rain" exactly above 10 and
    "Light rain" exactly in (2, 10], whatever the temperature; only at 2
    or below does the temperature decide between "Hot and sunny" (above
    35), "Cold" (below 10) and "Partly cloudy".  The forecast holds
    8 periods for "1_day" and 40 for every other timeframe: the cap
    [min(periods, 40)] cuts the 56 and the 240 periods alike. *)
Theorem weather_description_precedence :
  forall (temperature precipitation : Q) (timeframe : string),
    let d := _get_weather_description temperature precipitation in
    (d = "Heavy rain" <-> 10 < precipitation) /\
    (d = "Light rain" <-> 2 < precipitation /\ precipitation <= 10) /\
    (d = "Hot and sunny" <-> precipitation <= 2 /\ 35 < temperature) /\
    (d = "Cold" <-> precipitation <= 2 /\ temperature < 10) /\
    (d = "Partly cloudy" <->
       precipitation <= 2 /\ 10 <= temperature /\ temperature <= 35) /\
    forecast_periods timeframe = (if String.eqb timeframe "1_day" then 8 else 40)%Z.
Proof.
  intros temperature precipitation timeframe d. subst d.
  unfold _get_weather_description.
  assert (Hperiods : forecast_periods timeframe
                     = (if String.eqb timeframe "1_day" then 8 else 40)%Z).
  { unfold forecast_periods, periods.
    destruct (String.eqb timeframe "1_day"); [reflexivity |].
    destruct (String.eqb timeframe "7_days"); reflexivity. }
  destruct (Qgtb_spec precipitation 10);
    [| destruct (Qgtb_spec precipitation 2);
       [| destruct (Qgtb_spec temperature 35);
          [| destruct (Qltb_spec temperature 10)]]];
    (repeat match goal with |- _ /\ _ => split end);
    try exact Hperiods;
    (split; [intros H; try discriminate H; try lra; repeat split; lra
            | intros H; try reflexivity; lra]).
Qed.

End WeatherTheorems.

(* ================================================================== *)
(** * [services/data_processor.py]: the training label *)
(* ================================================================== *)

Module TrainingLabel.

(** [np.clip(x, lo, hi)] *)
Definition np_clip (x lo hi : Q) : Q := pymin hi (pymax lo x).

(** The columns [col.startswith('cat_')] selects, in column order. *)
Definition cat_columns (names : list string) : list string :=
  List.filter (String.prefix "cat_") names.

(** [df[col]] at one row, as a number. *)
Definition column_value (names : list string) (row : list cell) (col : string) : Q :=
  match index_of col names with
  | Some i => number_of (nth i row CNaN)
  | None => 0
  end.

(** [_calculate_risk_score]: one draw per indicator column, shared by
    all rows; the result has one score per row. *)
Definition _calculate_risk_score (df : DataFrame) : Random.Rand (list Q) :=
  (let names := column_names df in
   (* Add risk based on category *)
   coefficients <- Random.mapR (fun _ => Random.uniform 0.1 0.3) (cat_columns names) ;;
   Random.ret
     (map (fun row =>
             let risk_score := 0 in
             let risk_score :=
               fold_left (fun acc cw => acc + column_value names row (fst cw) * snd cw)
                         (combine (cat_columns names) coefficients) risk_score in
             (* Add weather risk *)
             let risk_score :=
               if has_column names "heavy_rain"
               then risk_score + column_value names row "heavy_rain" * 0.2
               else risk_score in
             let risk_score :=
               if has_column names "extreme_temp"
               then risk_score + column_value names row "extreme_temp" * 0.15
               else risk_score in
             (* Normalize to 0-1 *)
             np_clip risk_score 0 1)
          (rows df)))%rand.

End TrainingLabel.

Section TrainingLabels.

Import TrainingLabel.

(** A row whose indicator columns hold exactly one 1 and otherwise 0, as
    [get_dummies] produces them, and whose weather flags are 0 or 1. *)
Definition one_hot (values : list Q) : Prop :=
  exists before after : nat, values = (repeat 0 before ++ 1 :: repeat 0 after)%list.

Definition flag (x : Q) : Prop := x = 0 \/ x = 1.

Definition labelled_row (names : list string) (row : list cell) : Prop :=
  one_hot (map (column_value names row) (cat_columns names)) /\
  flag (column_value names row "heavy_rain") /\
  flag (column_value names row "extreme_temp").

Lemma fold_weighted_zero (f : string -> Q) (l : list (string * Q)) (acc : Q) :
  Forall (fun cw => f (fst cw) = 0) l ->
  fold_left (fun acc cw => acc + f (fst cw) * snd cw) l acc == acc.
Proof.
  intros H. revert acc. induction H as [| cw l Hcw _ IH]; intros acc; simpl; [reflexivity |].
  rewrite IH, Hcw. ring.
Qed.

Lemma fold_weighted_one_hot (f : string -> Q) (cols : list string) :
  forall (ws : list Q) (acc : Q),
    one_hot (map f cols) ->
    Forall2 (fun _ w => 0.1 <= w /\ w < 0.3) cols ws ->
    exists w, (0.1 <= w /\ w < 0.3) /\
      fold_left (fun acc cw => acc + f (fst cw) * snd cw) (combine cols ws) acc == acc + w.
Proof.
  intros ws acc (before & after & Hv) Hws. revert cols ws acc Hv Hws.
  induction before as [| before IH]; intros cols ws acc Hv Hws.
  - destruct cols as [| c cols]; [discriminate Hv |].
    simpl in Hv. injection Hv as Hc Hrest.
    inversion Hws as [| ? w ? ws' Hw Hws']; subst.
    exists w. split; [exact Hw |]. simpl combine. simpl fold_left.
    rewrite fold_weighted_zero.
    + rewrite Hc. ring.
    + clear -Hrest Hws'. revert ws' after Hrest Hws'.
      induction cols as [| c' cols IH]; intros ws' after Hrest Hws'.
      * inversion Hws'; subst. constructor.
      * inversion Hws' as [| ? w' ? ws'' _ Hws'']; subst.
        destruct after as [| after]; [discriminate Hrest |].
        simpl in Hrest. injection Hrest as Hc' Hrest.
        simpl. constructor; [exact Hc' |]. eapply IH; eassumption.
  - destruct cols as [| c cols]; [discriminate Hv |].
    simpl in Hv. injection Hv as Hc Hrest.
    inversion Hws as [| ? w ? ws' Hw Hws']; subst.
    destruct (IH cols ws' (acc + f c * w) Hrest Hws') as (w0 & Hw0 & E).
    exists w0. split; [exact Hw0 |]. simpl. rewrite E, Hc. ring.
Qed.

Lemma coefficients_range (cols : list string) :
  rand_spec unit_draw (Random.mapR (fun _ => Random.uniform 0.1 0.3) cols)
    (Forall2 (fun _ w => 0.1 <= w /\ w < 0.3) cols).
Proof.
  apply rand_spec_mapR. intros c _.
  eapply rand_spec_weaken; [apply rand_spec_uniform |].
  intros w (u & [Hu0 Hu1] & ->). split; lra.
Qed.

(** X28.  With draws in [0, 1), [_calculate_risk_score] returns one label
    per row, and every row whose indicator columns are one-hot and whose
    weather flags are 0 or 1 gets a label in [0.1, 0.65): the clip to
    [0, 1] never acts on it, no such training row is labelled at 0.8 or
    above (critical), and a label of 0.6 or more needs both the
    heavy-rain and the extreme-temperature flag. *)
Theorem training_labels_range :
  forall (df : DataFrame) (s : Random.rng),
    Random.unit_draws s ->
    let labels := fst (_calculate_risk_score df s) in
    length labels = length (rows df) /\
    Forall2
      (fun row label =>
         (0 <= label /\ label <= 1) /\
         (labelled_row (column_names df) row ->
          0.1 <= label /\ label < 0.65 /\
          PredictiveModels._get_risk_level label <> "critical" /\
          (0.6 <= label ->
           has_column (column_names df) "heavy_rain" = true /\
           column_value (column_names df) row "heavy_rain" = 1 /\
           has_column (column_names df) "extreme_temp" = true /\
           column_value (column_names df) row "extreme_temp" = 1)))
      (rows df) labels.
Proof.
  intros df s Hs labels. subst labels.
  assert (H : rand_spec unit_draw (_calculate_risk_score df)
            (fun labels =>
               length labels = length (rows df) /\
               Forall2
                 (fun row label =>
                    (0 <= label /\ label <= 1) /\
                    (labelled_row (column_names df) row ->
                     0.1 <= label /\ label < 0.65 /\
                     PredictiveModels._get_risk_level label <> "critical" /\
                     (0.6 <= label ->
                      has_column (column_names df) "heavy_rain" = true /\
                      column_value (column_names df) row "heavy_rain" = 1 /\
                      has_column (column_names df) "extreme_temp" = true /\
                      column_value (column_names df) row "extreme_temp" = 1)))
                 (rows df) labels)).
  { unfold _calculate_risk_score.
    eapply rand_spec_bind; [apply coefficients_range |].
    intros ws Hws. apply rand_spec_ret.
    split; [apply length_map |].
    induction (rows df) as [| row rws IH]; [constructor |].
    simpl map. constructor; [| exact IH].
    set (names := column_names df) in *.
    split.
    { unfold np_clip. split; [| apply pymin_le_l].
      apply pymin_glb; [lra | apply pymax_ge_l]. }
    intros (Hhot & Hheavy & Hextreme).
    destruct (fold_weighted_one_hot (column_value names row) (cat_columns names) ws 0
                Hhot Hws) as (w & [Hw0 Hw1] & E).
    set (base := fold_left _ (combine (cat_columns names) ws) 0) in *. clearbody base.
    set (heavy := column_value names row "heavy_rain") in *.
    set (extreme := column_value names row "extreme_temp") in *.
    clearbody heavy extreme.
    assert (Hlabel :
      forall x, x == base + (if has_column names "heavy_rain" then heavy * 0.2 else 0)
                     + (if has_column names "extreme_temp" then extreme * 0.15 else 0) ->
        0.1 <= np_clip x 0 1 /\ np_clip x 0 1 < 0.65 /\
        PredictiveModels._get_risk_level (np_clip x 0 1) <> "critical" /\
        (0.6 <= np_clip x 0 1 ->
         has_column names "heavy_rain" = true /\ heavy = 1 /\
         has_column names "extreme_temp" = true /\ extreme = 1)).
    { intros x Hx. unfold np_clip.
      assert (Hrange : 0.1 <= x /\ x < 0.65 /\
                (0.6 <= x ->
                 has_column names "heavy_rain" = true /\ heavy = 1 /\
                 has_column names "extreme_temp" = true /\ extreme = 1)).
      { rewrite Hx, E.
        destruct (has_column names "heavy_rain"), (has_column names "extreme_temp");
          destruct Hheavy as [-> | ->], Hextreme as [-> | ->];
          repeat split; try lra; intros; exfalso; lra. }
      destruct Hrange as (H1 & H2 & H3).
      destruct (pymax_spec 0 x) as [[_ ->] | [Hneg _]]; [| lra].
      destruct (pymin_spec 1 x) as [[_ ->] | [Hbig _]]; [| lra].
      split; [exact H1 |]. split; [exact H2 |]. split; [| exact H3].
      destruct (risk_level_cases x) as [[_ L] | [[_ [_ L]] | [[_ [_ L]] | [Hc _]]]];
        try (rewrite L; discriminate). lra. }
    apply Hlabel.
    destruct (has_column names "heavy_rain"), (has_column names "extreme_temp"); ring. }
  destruct (H s) as [Hres _]; [apply unit_draws_draws_in; exact Hs |].
  exact Hres.
Qed.

End TrainingLabels.

(** Two rows of indicator columns and weather flags. *)
Definition labelled_sample : DataFrame :=
  mkDataFrame
    [ ("cat_Other", Number); ("cat_Water Supply", Number);
      ("heavy_rain", Number); ("extreme_temp", Number) ]
    [ [CNum 0; CNum 1; CNum 1; CNum 0];
      [CNum 1; CNum 0; CNum 1; CNum 1] ].

Lemma training_labels_range_witness :
  let labels := fst (TrainingLabel._calculate_risk_score labelled_sample Concrete.half_draws) in
  Random.unit_draws Concrete.half_draws /\
  length labels = 2%nat /\
  Forall2 Qeq labels [0.4; 0.55].
Proof.
  intros labels.
  assert (Hs : Random.unit_draws Concrete.half_draws).
  { intros n. split; [discriminate | reflexivity]. }
  destruct (training_labels_range labelled_sample Concrete.half_draws Hs) as [Hlen _].
  split; [exact Hs |]. split; [exact Hlen |].
  vm_compute. repeat constructor.
Defined.

(* ================================================================== *)
(** * The forecast dictionary as weather context *)
(* ================================================================== *)

Section ForecastContext.
Context {env : NumericEnv}.

Import PredictiveModels.

(** The top-level keys of the dictionary [get_weather_forecast] returns
    (the readings are nested under ["current"] and ["forecast"]). *)
Definition forecast_keys : list string :=
  ["current"; "forecast"; "timeframe"; "location"; "fetched_at"; "source"].

Lemma not_forecast_key (w : gmap string value) (k : string) :
  (forall key, is_Some (w !! key) -> In key forecast_keys) ->
  ~ In k forecast_keys -> w !! k = None.
Proof.
  intros Hkeys Hk. destruct (w !! k) as [v |] eqn:E; [| reflexivity].
  exfalso. apply Hk, Hkeys. rewrite E. eauto.
Qed.

(** X29.  A non-empty weather context whose keys are those of the
    forecast dictionary of [weather_service] has no top-level
    [precipitation], [temperature] or [humidity]: the adapter then emits
    the defaults 0, 25 and 50 with both weather flags 0, whatever the
    forecast says, nothing raises, and the fallback never includes the
    "Water Supply" item. *)
Theorem forecast_context_gives_defaults :
  forall (self : self_t) (now : DateTime) (location : Location)
         (w : gmap string value) (historical_context : option (gmap string value))
         (timeframe : string),
    w <> ∅ ->
    (forall key, is_Some (w !! key) -> In key forecast_keys) ->
    _extract_location_features now location (Some w) historical_context
    = Ret (base_features now location
           ++ [ ("precipitation", VNum 0); ("temperature", VNum 25); ("humidity", VNum 50);
                ("heavy_rain", VNum 0); ("extreme_temp", VNum 0) ]
           ++ context_features history_features historical_context)%list /\
    _generate_fallback_predictions location (Some w) = Ret [road_fallback] /\
    (models self = ∅ ->
     predict_issues self now location (Some w) historical_context timeframe
     = Ret [road_fallback]).
Proof.
  intros self now location w historical_context timeframe Hne Hkeys.
  assert (Hp : w !! "precipitation" = None).
  { apply not_forecast_key; [exact Hkeys |]. simpl.
    intros H. repeat (destruct H as [H | H]; [discriminate H |]). destruct H. }
  assert (Ht : w !! "temperature" = None).
  { apply not_forecast_key; [exact Hkeys |]. simpl.
    intros H. repeat (destruct H as [H | H]; [discriminate H |]). destruct H. }
  assert (Hh : w !! "humidity" = None).
  { apply not_forecast_key; [exact Hkeys |]. simpl.
    intros H. repeat (destruct H as [H | H]; [discriminate H |]). destruct H. }
  pose proof (truthy_dict_nonempty w Hne) as Htruthy.
  assert (Hfallback : _generate_fallback_predictions location (Some w) = Ret [road_fallback]).
  { unfold _generate_fallback_predictions. rewrite Htruthy.
    unfold dict_get. rewrite Hp. reflexivity. }
  split.
  - rewrite _extract_location_features_Ret.
    + unfold context_features at 1. rewrite Htruthy.
      unfold weather_features. rewrite Hp, Ht, Hh. reflexivity.
    + unfold comparable_weather. intros _. rewrite Hp, Ht. split; eexists; reflexivity.
  - split; [exact Hfallback |].
    intros Hempty. rewrite predict_issues_empty_registry by exact Hempty. exact Hfallback.
Qed.

End ForecastContext.

Lemma forecast_context_gives_defaults_witness :
  let w : gmap string value := {[ "timeframe" := VStr "7_days" ]} in
  w <> ∅ /\
  PredictiveModels.predict_issues (env := Concrete.rational_env) PredictiveModels.__init__
    Concrete.test_now Concrete.test_location (Some w) None "7_days"
  = Ret [PredictiveModels.road_fallback].
Proof.
  intros w.
  assert (Hne : w <> ∅).
  { intros E. apply (f_equal (fun m => m !! "timeframe")) in E.
    subst w. rewrite lookup_singleton_eq, lookup_empty in E. discriminate E. }
  assert (Hkeys : forall key, is_Some (w !! key) -> In key forecast_keys).
  { intros key [v Hv]. subst w. apply lookup_singleton_Some in Hv.
    destruct Hv as [<- _]. simpl. tauto. }
  split; [exact Hne |].
  destruct (forecast_context_gives_defaults (env := Concrete.rational_env)
              PredictiveModels.__init__ Concrete.test_now Concrete.test_location w None
              "7_days" Hne Hkeys) as (_ & _ & H).
  apply H. reflexivity.
Defined.
